(** * The generate / execute / judge control core of the migration pipeline

    A shallow embedding of the control logic of [agents/executor.py],
    [agents/schema_analyzer.py] and [agents/planner.py]:

    - the code extractor ([_extract_code] of both agents),
    - the result envelope parser ([WorkerAgent._parse_task_result]),
    - the retry controller ([WorkerAgent.execute_task]),
    - the dependency orderer (the topological sort in
      [MigrationExecutor._build_mega_tasks]),
    - the execution phase ([MigrationExecutor.execute_migration]),
    - the convergence detector and the discovery phase
      ([SchemaAnalyzerAgent._build_fingerprint], [analyze_schema]),
    - the planner's request builder ([PlannerAgent.send_instruction]).

    Python values are modelled as follows.  [str] is [string] (a sequence
    of one-byte characters; case folding and whitespace are the ASCII
    ones), [int] is [Z], [list] is [list], a [set] of names is a
    [gset string], a [dict] keyed by names is a [gmap string _], a decoded
    JSON document is a [json] tree, an exception is a value of [exn]
    returned instead of the result.

    What lies outside the control logic is a parameter:

    - the generation service, the kernel and the JSON decoder are fields
      of an environment record; their answers are indexed by the task and
      the attempt (or the iteration), so that they may depend on the whole
      history of the run;
    - the order in which Python enumerates a [set] is a [SetOrder];
    - the wording of prompts and of task descriptions is a function taken
      from the environment;
    - the catalog document is read as typed records ([Table], [Column],
      [ForeignKey]);
    - the attempt log of the worker and the report file are taken to be
      written without error, the log and the two dumps of the schema
      analyzer are collaborators that may raise.

    Every function that produces events returns the list of events it
    produced: session starts and shutdowns, executions, requests to the
    generation service, report files. *)

From Stdlib Require Import ZArith String Ascii List Lia Permutation.
From stdpp Require Import base tactics option list gmap strings sets relations sorting pretty.

Local Open Scope Z_scope.

(** ** Python strings *)

Module PyStr.

Definition nl : string := String "010"%char EmptyString.

Definition len (s : string) : Z := Z.of_nat (String.length s).

(** [s.find(sub, start)]: the least index [>= start] at which [sub]
    occurs, [-1] when there is none. *)
Definition find (s sub : string) (start : Z) : Z :=
  match String.index (Z.to_nat start) sub s with
  | Some i => Z.of_nat i
  | None => -1
  end.

(** [sub in s] *)
Definition contains (sub s : string) : bool :=
  match String.index 0 sub s with
  | Some _ => true
  | None => false
  end.

(** [s[a:b]] for non-negative [a] and [b]. *)
Definition slice (s : string) (a b : Z) : string :=
  String.substring (Z.to_nat a) (Z.to_nat (b - a)) s.

(** [s[:k]] *)
Definition upto (k : nat) (s : string) : string := String.substring 0 k s.

(** [str.isspace] on one-byte characters: tab, line feed, vertical tab,
    form feed, carriage return, the four separators 28..31 and space. *)
Definition is_space (c : ascii) : bool :=
  let n := nat_of_ascii c in
  ((9 <=? n)%nat && (n <=? 13)%nat) || ((28 <=? n)%nat && (n <=? 32)%nat).

Fixpoint lstrip (s : string) : string :=
  match s with
  | EmptyString => EmptyString
  | String c s' => if is_space c then lstrip s' else s
  end.

Fixpoint rstrip (s : string) : string :=
  match s with
  | EmptyString => EmptyString
  | String c s' =>
      match rstrip s' with
      | EmptyString => if is_space c then EmptyString else String c EmptyString
      | r => String c r
      end
  end.

(** [s.strip()] *)
Definition strip (s : string) : string := rstrip (lstrip s).

Definition lower_char (c : ascii) : ascii :=
  let n := nat_of_ascii c in
  if ((65 <=? n)%nat && (n <=? 90)%nat)%bool then ascii_of_nat (n + 32) else c.

(** [s.lower()] *)
Fixpoint lower (s : string) : string :=
  match s with
  | EmptyString => EmptyString
  | String c s' => String (lower_char c) (lower s')
  end.

(** [s.split('\n')] *)
Fixpoint split_lines (s : string) : list string :=
  match s with
  | EmptyString => [EmptyString]
  | String c s' =>
      if Ascii.eqb c "010"%char then EmptyString :: split_lines s'
      else match split_lines s' with
           | [] => [String c EmptyString]
           | l :: ls => String c l :: ls
           end
  end.

(** ['\n'.join(lines)] *)
Fixpoint join_lines (lines : list string) : string :=
  match lines with
  | [] => EmptyString
  | [l] => l
  | l :: ls => l +:+ nl +:+ join_lines ls
  end.

(** [s.startswith((p1, p2, ...))] *)
Definition startswith_any (ps : list string) (s : string) : bool :=
  existsb (fun p => String.prefix p s) ps.

(** Truthiness of a string: [if s]. *)
Definition truthy (s : string) : bool :=
  match s with EmptyString => false | _ => true end.

Definition upper_char (c : ascii) : ascii :=
  let n := nat_of_ascii c in
  if ((97 <=? n)%nat && (n <=? 122)%nat)%bool then ascii_of_nat (n - 32) else c.

(** [s.upper()] *)
Fixpoint upper (s : string) : string :=
  match s with
  | EmptyString => EmptyString
  | String c s' => String (upper_char c) (upper s')
  end.

(** [s.startswith(p)] and [s.endswith(p)] *)
Definition startswith (p s : string) : bool := String.prefix p s.

Definition endswith (p s : string) : bool :=
  (String.length p <=? String.length s)%nat
  && String.eqb (String.substring (String.length s - String.length p) (String.length p) s) p.

(** [c in chars] for one character. *)
Definition among (chars : string) (c : ascii) : bool :=
  existsb (Ascii.eqb c) (list_ascii_of_string chars).

(** [s.lstrip(chars)], [s.rstrip(chars)], [s.strip(chars)] *)
Fixpoint lstrip_chars (chars s : string) : string :=
  match s with
  | EmptyString => EmptyString
  | String c s' => if among chars c then lstrip_chars chars s' else s
  end.

Fixpoint rstrip_chars (chars s : string) : string :=
  match s with
  | EmptyString => EmptyString
  | String c s' =>
      match rstrip_chars chars s' with
      | EmptyString => if among chars c then EmptyString else String c EmptyString
      | r => String c r
      end
  end.

Definition strip_chars (chars s : string) : string :=
  rstrip_chars chars (lstrip_chars chars s).

(** [s.split(sep, 1)] for a one-character [sep]: the text before the
    first [sep] and the text after it, [None] when [sep] does not occur
    (the list has the single element [s] then). *)
Fixpoint split_once (sep : ascii) (s : string) : option (string * string) :=
  match s with
  | EmptyString => None
  | String c s' =>
      if Ascii.eqb c sep then Some (EmptyString, s')
      else match split_once sep s' with
           | Some (before, after) => Some (String c before, after)
           | None => None
           end
  end.

End PyStr.

(** ** Exceptions

  [except Exception] catches [PyException] only; a [PyBaseException]
  (KeyboardInterrupt, SystemExit) passes through it, but not through a
  [finally] block.  [str(e)] is the carried message. *)

Inductive exn : Type :=
| PyException (msg : string)
| PyBaseException (msg : string).

Definition exn_str (e : exn) : string :=
match e with PyException m | PyBaseException m => m end.

Definition caught_by_except_Exception (e : exn) : bool :=
match e with PyException _ => true | PyBaseException _ => false end.

Inductive res (A : Type) : Type :=
| Ok (a : A)
| Raise (e : exn).
Arguments Ok {A} a.
Arguments Raise {A} e.

(** ** The code extractor *)

Module CodeFence.
Import PyStr.

Definition fence : string := "```".
Definition fence_python : string := "```python".

(** The block [if "```python" in response: ...]: [Some] is a [return]. *)
Definition python_block (response : string) : option string :=
  if contains fence_python response then
    let start := find response fence_python 0 + len fence_python in
    let end_ := find response fence start in
    if end_ >? start then Some (strip (slice response start end_)) else None
  else None.

(** The block [if "```" in response: ...]. *)
Definition any_block (response : string) : option string :=
  if contains fence response then
    let start := find response fence 0 + 3 in
    let newline_pos := find response nl start in
    let start :=
      if (newline_pos >? start) && (newline_pos - start <? 20)
      then newline_pos + 1 else start in
    let end_ := find response fence start in
    if end_ >? start then Some (strip (slice response start end_)) else None
  else None.

(** [not code or len(code.strip()) < 50] *)
Definition insufficient (code : string) : bool :=
  negb (truthy code) || (len (strip code) <? 50).

End CodeFence.

(** ** Decoded JSON and the Python operations the agents apply to it *)

#[local] Unset Elimination Schemes.
Inductive json : Type :=
  | JNull
  | JBool (b : bool)
  | JNum (n : Z)
  | JStr (s : string)
  | JArr (xs : list json)
  | JObj (kvs : list (string * json)).
#[local] Set Elimination Schemes.

Module Py.

(** Truthiness: [if v], [a or b]. *)
Definition truthy (v : json) : bool :=
  match v with
  | JNull => false
  | JBool b => b
  | JNum n => negb (n =? 0)
  | JStr s => PyStr.truthy s
  | JArr xs => match xs with [] => false | _ => true end
  | JObj kvs => match kvs with [] => false | _ => true end
  end.

Definition or_ (a b : json) : json := if truthy a then a else b.

Fixpoint assoc (k : string) (kvs : list (string * json)) : option json :=
  match kvs with
  | [] => None
  | (k', v) :: rest => if String.eqb k k' then Some v else assoc k rest
  end.

Definition type_name (v : json) : string :=
  match v with
  | JNull => "NoneType"
  | JBool _ => "bool"
  | JNum _ => "int"
  | JStr _ => "str"
  | JArr _ => "list"
  | JObj _ => "dict"
  end.

(** The [AttributeError] raised by [v.attr] on a value without it. *)
Definition no_attribute (v : json) (attr : string) : exn :=
  PyException ("'" +:+ type_name v +:+ "' object has no attribute '" +:+ attr +:+ "'").

(** [d.get(k)] on a dict: [None] for a missing key. *)
Definition lookup (kvs : list (string * json)) (k : string) : json :=
  default JNull (assoc k kvs).

(** [v[:k]]: strings and lists can be sliced, other values raise
    [TypeError]. *)
Definition slice_upto (k : nat) (v : json) : res json :=
  match v with
  | JStr s => Ok (JStr (PyStr.upto k s))
  | JArr xs => Ok (JArr (take k xs))
  | JObj _ => Raise (PyException "unhashable type: 'slice'")
  | _ => Raise (PyException ("'" +:+ type_name v +:+ "' object is not subscriptable"))
  end.

(** [range(a, b)] *)
Definition range (a b : Z) : list Z :=
  map (fun i => a + Z.of_nat i) (seq 0 (Z.to_nat (b - a))).

(** [l[-k:]] *)
Definition last_n {A} (k : nat) (l : list A) : list A :=
  drop (length l - k)%nat l.

(** [len(v)]: strings, lists and dicts have a length, other values raise
    [TypeError]. *)
Definition len_ (v : json) : res Z :=
  match v with
  | JStr s => Ok (PyStr.len s)
  | JArr xs => Ok (Z.of_nat (length xs))
  | JObj kvs => Ok (Z.of_nat (length kvs))
  | _ => Raise (PyException ("object of type '" +:+ type_name v +:+ "' has no len()"))
  end.

End Py.

(** ** The catalog document *)

Record Column : Type := {
  col_name : string;
  col_type : string;
  col_nullable : bool;
  col_default : json;
}.

Record ForeignKey : Type := {
  constrained_columns : list string;
  referred_table : option string;
  referred_columns : list string;
  fk_options : json;
}.

Record Table : Type := {
  table_name : string;
  columns : list Column;
  primary_key : list string;
  foreign_keys : list ForeignKey;
  row_count : option Z;
}.

Record Relationship : Type := {
  source_table : string;
  source_columns : list string;
  target_table : string;
  target_columns : list string;
  on_delete : option string;
}.

(** ** Conversation messages *)

Inductive role : Type := System | User | Assistant.

Record Message : Type := { msg_role : role; msg_content : string }.

(** ** The execution session ([JupyterKernelSession])

    [km] and [kc] record whether the kernel manager and the client are
    set; the kernel itself is external. *)

Inductive event : Type :=
  | EvStart (ok : bool)
  | EvExecute (code : string)
  | EvShutdown
  | EvRequest (messages : list Message)
  | EvReport.

(** Where [start] can fail: launching the kernel, or waiting for it. *)
Inductive start_outcome : Type :=
  | StartReady
  | StartFailsLaunch (e : exn)
  | StartFailsReady (e : exn).

Module JupyterKernelSession.

Record t : Type := { km : bool; kc : bool; _started : bool }.

Definition init : t := {| km := false; kc := false; _started := false |}.

(** [start]: a no-op on a started session; a failed start leaves the
    manager (and, when the wait failed, the client) set and [_started]
    false. *)
Definition start (o : start_outcome) (s : t) : t * option exn * list event :=
  if _started s then (s, None, [])
  else match o with
       | StartReady =>
           ({| km := true; kc := true; _started := true |}, None, [EvStart true])
       | StartFailsLaunch e =>
           ({| km := true; kc := kc s; _started := false |}, Some e, [EvStart false])
       | StartFailsReady e =>
           ({| km := true; kc := true; _started := false |}, Some e, [EvStart false])
       end.

Definition execute (run : string -> res string) (s : t) (code : string)
  : res string * list event :=
  if negb (_started s) || negb (kc s)
  then (Raise (PyException "Kernel session has not been started."), [])
  else (run code, [EvExecute code]).

(** [shutdown]: teardown errors are swallowed, it never raises. *)
Definition shutdown (s : t) : t * list event :=
  ({| km := false; kc := false; _started := false |}, [EvShutdown]).

(** One message of the IOPub channel, with the entries [execute] reads:
    [msg.get("parent_header", {}).get("msg_id")], [msg["header"]["msg_type"]]
    and, of [msg.get("content", {})], the entries ["text"],
    ["data"]["text/plain"], ["traceback"] and ["execution_state"]. *)
Record IopubMessage : Type := {
  parent_msg_id : option string;
  msg_type : string;
  text : option string;
  text_plain : option string;
  traceback : option (list string);
  execution_state : option string;
}.

(** The [while True] loop of [execute].  [msgs] are the messages the
    kernel publishes, each within the timeout; once they are used up the
    next [get_iopub_msg] raises [queue.Empty], which [execute] turns into
    a [TimeoutError]. *)
Fixpoint read_iopub (msg_id : string) (msgs : list IopubMessage)
    (output_chunks : list string) : res string :=
  match msgs with
  | [] => Raise (PyException "Jupyter kernel did not respond within timeout.")
  | msg :: rest =>
      if negb (bool_decide (parent_msg_id msg = Some msg_id))
      then read_iopub msg_id rest output_chunks
      else if String.eqb (msg_type msg) "stream"
      then read_iopub msg_id rest (output_chunks ++ [default EmptyString (text msg)])
      else if String.eqb (msg_type msg) "execute_result"
      then match text_plain msg with
           | Some payload_text =>
               if PyStr.truthy payload_text
               then read_iopub msg_id rest (output_chunks ++ [payload_text])
               else read_iopub msg_id rest output_chunks
           | None => read_iopub msg_id rest output_chunks
           end
      else if String.eqb (msg_type msg) "error"
      then Raise (PyException ("Kernel execution error:" +:+ PyStr.nl
                               +:+ PyStr.join_lines (default [] (traceback msg))))
      else if String.eqb (msg_type msg) "status"
              && bool_decide (execution_state msg = Some "idle"%string)
      then Ok (String.concat EmptyString output_chunks)
      else read_iopub msg_id rest output_chunks
  end.

(** [execute] with the kernel client spelled out: [kc_execute code] is
    the message id the client returns for the request, [iopub code] the
    messages published after it. *)
Definition execute_iopub (kc_execute : string -> string)
    (iopub : string -> list IopubMessage) (s : t) (code : string)
    : res string * list event :=
  execute (fun code => read_iopub (kc_execute code) (iopub code) []) s code.

End JupyterKernelSession.

(** ** The worker agent: extractor, envelope parser, retry controller *)

Module WorkerAgent.
Import PyStr.

Definition RESULT_START : string := "TASK_RESULT_START".
Definition RESULT_END : string := "TASK_RESULT_END".

Record Context : Type := {
  source_db : json;
  target_db : json;
  catalog : list Table;
}.

(** The collaborators of one run.  The generation service and the kernel
    are asked once per (task, attempt), so their answers are indexed by the
    task id and the attempt number; this lets them depend on everything
    that happened before.  [json_loads] returns the decoded value or the
    text of the [JSONDecodeError]; [repr] formats a value that is not a
    string inside an f-string; the prompt texts are functions of the task
    description and the context. *)
Record Env : Type := {
  llm_create : string -> Z -> list Message -> res string;
  kernel_run : string -> Z -> string -> res string;
  json_loads : string -> json + string;
  repr : json -> string;
  system_prompt : string -> Context -> string;
  first_prompt : string -> Context -> string;
  fix_reminder : Context -> string;
}.

(** [f"{v}"] *)
Definition fmt (E : Env) (v : json) : string :=
  match v with JStr s => s | _ => repr E v end.

Record t : Type := {
  max_attempts : Z;
  kernel : option JupyterKernelSession.t;
}.

Definition start_kernel (o : start_outcome) (w : t) : t * option exn * list event :=
  match kernel w with
  | None =>
      let '(s, e, evs) := JupyterKernelSession.start o JupyterKernelSession.init in
      ({| max_attempts := max_attempts w; kernel := Some s |}, e, evs)
  | Some _ => (w, None, [])
  end.

Definition shutdown_kernel (w : t) : t * list event :=
  match kernel w with
  | Some s =>
      let '(_, evs) := JupyterKernelSession.shutdown s in
      ({| max_attempts := max_attempts w; kernel := None |}, evs)
  | None => (w, [])
  end.

Definition _extract_code (response : string) : string :=
  if negb (truthy response) then EmptyString
  else
    let response := strip response in
    match CodeFence.python_block response with
    | Some code => code
    | None =>
        match CodeFence.any_block response with
        | Some code => code
        | None => response
        end
    end.

Definition _parse_task_result (E : Env) (raw_output : string) : json :=
  let start_idx := find raw_output RESULT_START 0 in
  let end_idx := find raw_output RESULT_END 0 in
  if (start_idx =? -1) || (end_idx =? -1) || (end_idx <=? start_idx) then
    let lower_output := lower raw_output in
    if contains "error" lower_output || contains "exception" lower_output
       || contains "traceback" lower_output
    then JObj [("success", JBool false);
               ("error", JStr ("Execution error: " +:+ upto 1000 raw_output))]
    else if contains "success" lower_output || contains "completed" lower_output
            || contains "loaded" lower_output
    then JObj [("success", JBool true);
               ("message", JStr "Task appears successful based on output");
               ("data", JObj [("raw_output", JStr (upto 500 raw_output))])]
    else JObj [("success", JBool false);
               ("error", JStr ("No result markers found. Output: " +:+ upto 500 raw_output))]
  else
    let json_text := strip (slice raw_output (start_idx + len RESULT_START) end_idx) in
    match json_loads E json_text with
    | inl v => v
    | inr e =>
        JObj [("success", JBool false);
              ("error", JStr ("Failed to parse result JSON: " +:+ e +:+ ". Raw: "
                              +:+ upto 300 json_text))]
    end.

(** The messages of one generation request (the body of
    [_ask_llm_for_code] up to the call of the client). *)
Definition request_messages (E : Env) (task_description : string) (context : Context)
    (attempt : Z) (last_error : json) (last_output : option string)
    (conversation : list Message) : res (list Message) :=
  let messages := [{| msg_role := System;
                      msg_content := system_prompt E task_description context |}] in
  if attempt =? 1 then
    Ok (messages ++ [{| msg_role := User;
                        msg_content := first_prompt E task_description context |}])
  else
    let messages := messages ++ Py.last_n 4 conversation in
    if Py.truthy last_error then
      match Py.slice_upto 1500 last_error with
      | Raise e => Raise e
      | Ok err =>
          let error_context := "Previous attempt failed:" +:+ nl +:+ "Error: " +:+ fmt E err in
          let error_context :=
            match last_output with
            | Some out =>
                if truthy out
                then error_context +:+ nl +:+ nl +:+ "Output:" +:+ nl +:+ upto 800 out
                else error_context
            | None => error_context
            end in
          Ok (messages ++ [{| msg_role := User;
                              msg_content := error_context +:+ nl +:+ nl
                                             +:+ fix_reminder E context |}])
      end
    else Ok messages.

Definition _ask_llm_for_code (E : Env) (task_id task_description : string)
    (context : Context) (attempt : Z) (last_error : json)
    (last_output : option string) (conversation : list Message)
    : res string * list event :=
  match request_messages E task_description context attempt last_error last_output
          conversation with
  | Raise e => (Raise e, [])
  | Ok messages =>
      match llm_create E task_id attempt messages with
      | Raise e => (Raise e, [EvRequest messages])
      | Ok response_text => (Ok (_extract_code response_text), [EvRequest messages])
      end
  end.

(** The local variables of [execute_task]. *)
Record Locals : Type := {
  conversation : list Message;
  last_error : json;
  last_output : option string;
  success : bool;
  result_data : json;
  attempt : Z;
}.

Definition locals0 : Locals :=
  {| conversation := []; last_error := JNull; last_output := None;
     success := false; result_data := JObj []; attempt := 0 |}.

Inductive flow : Type := Next | Break.

(** [result_data.get("error") or result_data.get("message") or "Task reported failure"] *)
Definition reported_error (kvs : list (string * json)) : json :=
  Py.or_ (Py.lookup kvs "error")
    (Py.or_ (Py.lookup kvs "message") (JStr "Task reported failure")).

(** The synthetic repair exchange appended after a failed execution. *)
Definition repair_exchange (E : Env) (code : string) (att : Z) (err : json)
    (out : option string) : list Message :=
  [ {| msg_role := Assistant;
       msg_content := "Generated code:" +:+ nl +:+ "```python" +:+ nl
                      +:+ upto 2000 code +:+ "..." +:+ nl +:+ "```" |};
    {| msg_role := User;
       msg_content := "Attempt " +:+ pretty att +:+ " failed." +:+ nl
                      +:+ "Error: " +:+ fmt E err +:+ nl
                      +:+ "Output: " +:+ upto 500 (default EmptyString out) +:+ nl +:+ nl
                      +:+ "Please fix and try again." |} ].

(** [self.kernel.execute(code)] *)
Definition kernel_execute (E : Env) (w : t) (task_id : string) (att : Z) (code : string)
    : res string * list event :=
  match kernel w with
  | None => (Raise (PyException "'NoneType' object has no attribute 'execute'"), [])
  | Some s => JupyterKernelSession.execute (kernel_run E task_id att) s code
  end.

(** The [except Exception as exec_err] handler, followed by the repair
    exchange. *)
Definition on_exec_error (E : Env) (st : Locals) (code : string) (e : exn) (rd : json)
    : Locals :=
  let err := JStr (exn_str e) in
  {| conversation := conversation st ++ repair_exchange E code (attempt st) err None;
     last_error := err; last_output := None;
     success := success st; result_data := rd; attempt := attempt st |}.

(** One pass through the body of [for attempt in range(1, max_attempts + 1)]. *)
Definition attempt_body (E : Env) (w : t) (task_id task_description : string)
    (context : Context) (att : Z) (st0 : Locals) : res (Locals * flow) * list event :=
  let st := {| conversation := conversation st0; last_error := last_error st0;
               last_output := last_output st0; success := success st0;
               result_data := result_data st0; attempt := att |} in
  let '(asked, ev1) :=
    _ask_llm_for_code E task_id task_description context att (last_error st)
      (last_output st) (conversation st) in
  match asked with
  | Raise e => (Raise e, ev1)
  | Ok code =>
      if CodeFence.insufficient code then
        let err := "LLM returned empty or insufficient code" in
        (Ok ({| conversation :=
                  conversation st ++
                  [{| msg_role := User;
                      msg_content := "Attempt " +:+ pretty att +:+ ": " +:+ err
                                     +:+ ". Please provide complete Python code." |}];
                last_error := JStr err; last_output := last_output st;
                success := success st; result_data := result_data st;
                attempt := att |}, Next), ev1)
      else
        let '(ran, ev2) := kernel_execute E w task_id att code in
        match ran with
        | Raise e =>
            if caught_by_except_Exception e
            then (Ok (on_exec_error E st code e (result_data st), Next), ev1 ++ ev2)
            else (Raise e, ev1 ++ ev2)
        | Ok raw_output =>
            let rd := _parse_task_result E raw_output in
            match rd with
            | JObj kvs =>
                if Py.truthy (Py.lookup kvs "success") then
                  (Ok ({| conversation := conversation st; last_error := last_error st;
                          last_output := Some raw_output; success := true;
                          result_data := rd; attempt := att |}, Break), ev1 ++ ev2)
                else
                  let err := reported_error kvs in
                  (Ok ({| conversation :=
                            conversation st ++ repair_exchange E code att err (Some raw_output);
                          last_error := err; last_output := Some raw_output;
                          success := success st; result_data := rd; attempt := att |}, Next),
                   ev1 ++ ev2)
            | _ =>
                (Ok (on_exec_error E st code (Py.no_attribute rd "get") rd, Next), ev1 ++ ev2)
            end
        end
  end.

(** The [for] loop over the attempt numbers. *)
Fixpoint attempts_loop (E : Env) (w : t) (task_id task_description : string)
    (context : Context) (atts : list Z) (st : Locals) : res Locals * list event :=
  match atts with
  | [] => (Ok st, [])
  | att :: rest =>
      match attempt_body E w task_id task_description context att st with
      | (Raise e, evs) => (Raise e, evs)
      | (Ok (st', Break), evs) => (Ok st', evs)
      | (Ok (st', Next), evs) =>
          let '(r, evs') := attempts_loop E w task_id task_description context rest st' in
          (r, evs ++ evs')
      end
  end.

(** The returned dict. *)
Record Outcome : Type := {
  out_task_id : string;
  out_success : bool;
  out_attempts : Z;
  out_result : json;
  out_last_error : json;
}.

Definition execute_task (E : Env) (w : t) (task_id task_description : string)
    (context : Context) : res Outcome * list event :=
  match attempts_loop E w task_id task_description context
          (Py.range 1 (max_attempts w + 1)) locals0 with
  | (Raise e, evs) => (Raise e, evs)
  | (Ok st, evs) =>
      (Ok {| out_task_id := task_id; out_success := success st;
             out_attempts := attempt st; out_result := result_data st;
             out_last_error := if success st then JNull else last_error st |}, evs)
  end.

(** [__init__]: the attempt budget (7 unless given) and no kernel yet. *)
Definition __init__ (max_attempts : option Z) : t :=
  {| max_attempts := default 7 max_attempts; kernel := None |}.

End WorkerAgent.

(** ** The execution phase: dependency orderer and task orchestrator *)

(** The iteration order of a Python [set] is not specified: it is some
    enumeration of the elements, which may change from one loop pass to
    the next.  [set_list n X] is the order in which [X] is enumerated at
    pass [n]. *)
Record SetOrder : Type := {
  set_list : nat -> gset string -> list string;
  set_list_perm : forall n X, set_list n X ≡ₚ elements X;
}.

(** A loop that is run with fuel either returns, raises, or runs out. *)
Inductive run (A : Type) : Type :=
  | Returns (a : A)
  | Raises (e : exn)
  | OutOfFuel.
Arguments Returns {A} a.
Arguments Raises {A} e.
Arguments OutOfFuel {A}.

Module MigrationExecutor.

(** [deps] of one table: the referred tables of its foreign keys, without
    the empty name and without the table itself. *)
Definition deps_of (t : Table) : gset string :=
  foldl (fun deps fk =>
           match referred_table fk with
           | Some ref_table =>
               if PyStr.truthy ref_table && negb (String.eqb ref_table (table_name t))
               then deps ∪ {[ref_table]} else deps
           | None => deps
           end) ∅ (foreign_keys t).

Definition table_deps (tables : list Table) : gmap string (gset string) :=
  foldl (fun m t => <[table_name t := deps_of t]> m) ∅ tables.

(** The inner [for t in list(remaining)]: the first [t] none of whose
    dependencies remains; [Ok None] is the [else] of the [for].
    [table_deps[t]] raises [KeyError] on a missing key. *)
Fixpoint first_ready (deps : gmap string (gset string)) (remaining : gset string)
    (candidates : list string) : res (option string) :=
  match candidates with
  | [] => Ok None
  | t :: rest =>
      match deps !! t with
      | None => Raise (PyException ("KeyError: " +:+ t))
      | Some d =>
          if decide (d ∩ remaining = ∅) then Ok (Some t)
          else first_ready deps remaining rest
      end
  end.

(** [while remaining: ...] *)
Fixpoint topo_loop (O : SetOrder) (deps : gmap string (gset string)) (fuel : nat)
    (remaining : gset string) (ordered_tables : list string) : run (list string) :=
  if decide (remaining = ∅) then Returns ordered_tables
  else
    match fuel with
    | O => OutOfFuel
    | S fuel' =>
        let candidates := set_list O (length ordered_tables) remaining in
        match first_ready deps remaining candidates with
        | Raise e => Raises e
        | Ok (Some t) =>
            topo_loop O deps fuel' (remaining ∖ {[t]}) (ordered_tables ++ [t])
        | Ok None => Returns (ordered_tables ++ candidates)
        end
    end.

(** The ordering computed by [_build_mega_tasks]; the loop needs at most
    one pass per table. *)
Definition ordered_tables (O : SetOrder) (tables : list Table) : run (list string) :=
  let deps := table_deps tables in
  topo_loop O deps (size (dom deps)) (dom deps) [].

Record Task : Type := { task_id : string; description : string }.

Definition task_ids : list string :=
  ["1_setup_and_create_tables"; "2_extract_and_load_all_data";
   "3_add_foreign_keys"; "4_validate_migration"].

(** The four mega-tasks.  The wording of a description is a function
    [describe] of the task id, the table order and the tables. *)
Definition _build_mega_tasks (O : SetOrder)
    (describe : string -> list string -> list Table -> string)
    (tables : list Table) : run (list Task) :=
  match ordered_tables O tables with
  | Returns order =>
      Returns (map (fun id => {| task_id := id; description := describe id order tables |})
                 task_ids)
  | Raises e => Raises e
  | OutOfFuel => OutOfFuel
  end.

Record LogEntry : Type := {
  log_task_id : string;
  log_status : string;
  log_attempts : Z;
  log_result : json;
}.

Record Report : Type := {
  success : bool;
  total_tasks : Z;
  completed_tasks : Z;
  failed_tasks : Z;
  completed_task_ids : list string;
  failed_task_ids : list string;
  execution_log : list LogEntry;
}.

(** The executor: its worker and the log it accumulates. *)
Record t : Type := {
  worker : WorkerAgent.t;
  self_execution_log : list LogEntry;
}.

(** The local state of the loop over the tasks. *)
Record Progress : Type := {
  completed : list string;
  failed : list string;
  log : list LogEntry;
}.

(** One pass of [for i, task in enumerate(tasks)]. *)
Definition task_body (E : WorkerAgent.Env) (w : WorkerAgent.t)
    (context : WorkerAgent.Context) (task : Task) (p : Progress)
    : res unit * Progress * list event :=
  match WorkerAgent.execute_task E w (task_id task) (description task) context with
  | (Raise e, evs) => (Raise e, p, evs)
  | (Ok result, evs) =>
      let entry := {| log_task_id := task_id task;
                      log_status := if WorkerAgent.out_success result
                                    then "success" else "failed";
                      log_attempts := WorkerAgent.out_attempts result;
                      log_result := WorkerAgent.out_result result |} in
      if WorkerAgent.out_success result then
        (Ok tt, {| completed := completed p ++ [task_id task]; failed := failed p;
                   log := log p ++ [entry] |}, evs)
      else
        let p' := {| completed := completed p; failed := failed p ++ [task_id task];
                     log := log p ++ [entry] |} in
        (* print(f"Error: {result.get('last_error', 'Unknown')[:300]}") *)
        match Py.slice_upto 300 (WorkerAgent.out_last_error result) with
        | Raise e => (Raise e, p', evs)
        | Ok _ => (Ok tt, p', evs)
        end
  end.

Fixpoint tasks_loop (E : WorkerAgent.Env) (w : WorkerAgent.t)
    (context : WorkerAgent.Context) (tasks : list Task) (p : Progress)
    : res unit * Progress * list event :=
  match tasks with
  | [] => (Ok tt, p, [])
  | task :: rest =>
      match task_body E w context task p with
      | (Raise e, p', evs) => (Raise e, p', evs)
      | (Ok _, p', evs) =>
          let '(r, p'', evs') := tasks_loop E w context rest p' in
          (r, p'', evs ++ evs')
      end
  end.

Definition make_report (tasks : list Task) (p : Progress) : Report :=
  {| success := bool_decide (length (failed p) = 0%nat);
     total_tasks := Z.of_nat (length tasks);
     completed_tasks := Z.of_nat (length (completed p));
     failed_tasks := Z.of_nat (length (failed p));
     completed_task_ids := completed p;
     failed_task_ids := failed p;
     execution_log := log p |}.

(** The body of the [try] of [execute_migration]. *)
Definition try_body (E : WorkerAgent.Env) (O : SetOrder)
    (describe : string -> list string -> list Table -> string)
    (start : start_outcome) (ex : t) (context : WorkerAgent.Context)
    : run (list Task * Progress) * t * list event :=
  let '(w, failure, ev0) := WorkerAgent.start_kernel start (worker ex) in
  let ex1 := {| worker := w; self_execution_log := self_execution_log ex |} in
  match failure with
  | Some e => (Raises e, ex1, ev0)
  | None =>
      match _build_mega_tasks O describe (WorkerAgent.catalog context) with
      | Raises e => (Raises e, ex1, ev0)
      | OutOfFuel => (OutOfFuel, ex1, ev0)
      | Returns tasks =>
          let p0 := {| completed := []; failed := []; log := self_execution_log ex |} in
          let '(r, p, evs) := tasks_loop E w context tasks p0 in
          let ex2 := {| worker := w; self_execution_log := log p |} in
          match r with
          | Raise e => (Raises e, ex2, ev0 ++ evs)
          | Ok _ => (Returns (tasks, p), ex2, ev0 ++ evs)
          end
      end
  end.

(** [execute_migration]: the [try] body, the [finally] that shuts the
    kernel down, then the report. *)
Definition execute_migration (E : WorkerAgent.Env) (O : SetOrder)
    (describe : string -> list string -> list Table -> string)
    (start : start_outcome) (ex : t) (context : WorkerAgent.Context)
    : run Report * t * list event :=
  let '(r, ex1, evs) := try_body E O describe start ex context in
  match r with
  | OutOfFuel => (OutOfFuel, ex1, evs)
  | Raises e =>
      let '(w, ev_down) := WorkerAgent.shutdown_kernel (worker ex1) in
      (Raises e, {| worker := w; self_execution_log := self_execution_log ex1 |},
       evs ++ ev_down)
  | Returns (tasks, p) =>
      let '(w, ev_down) := WorkerAgent.shutdown_kernel (worker ex1) in
      (Returns (make_report tasks p),
       {| worker := w; self_execution_log := self_execution_log ex1 |},
       evs ++ ev_down ++ [EvReport])
  end.

(** [__init__]: a worker with seven attempts per task and an empty log. *)
Definition __init__ : t :=
  {| worker := WorkerAgent.__init__ (Some 7); self_execution_log := [] |}.

End MigrationExecutor.

(** ** The discovery phase: fingerprint, convergence detector, orchestrator *)

Module SchemaAnalyzerAgent.
Import PyStr.

Definition RESULT_START : string := "SCHEMA_ANALYSIS_RESULT_START".
Definition RESULT_END : string := "SCHEMA_ANALYSIS_RESULT_END".

(** What [json.loads] hands back: a dict, read through
    [payload.get("tables", [])] and [payload.get("relationships", [])] as
    the catalog document, or a value that is not a dict. *)
Inductive payload : Type :=
  | PayloadDict (tables : list Table) (relationships : list Relationship)
  | PayloadOther (v : json).

(** The collaborators of one run, indexed by the iteration.  [log_sink]
    is [_log_kernel_execution] (two file writes); [dump_markdown] and
    [dump_json] write the reports and return the file names. *)
Record Env : Type := {
  llm_create : Z -> list Message -> res string;
  kernel_run : Z -> string -> res string;
  json_loads : string -> payload + string;
  log_sink : Z -> string -> string -> option exn;
  dump_markdown : list Table -> list Relationship -> Z -> bool -> res string;
  dump_json : list Table -> list Relationship -> Z -> bool -> res string;
  system_prompt : string;
  first_prompt : string;
}.

Record t : Type := {
  max_iterations : Z;
  stable_rounds_required : Z;
}.

(** The heuristic of [_extract_code]: does a stripped line start code? *)
Definition starts_code (stripped : string) : bool :=
  startswith_any ["import "; "from "; "def "; "class "; "#"; "db_"; "DB_";
                  "config"; "CONFIG"] stripped
  || (contains "=" stripped
      && negb (startswith_any ["Note:"; "Warning:"; "Error:"] stripped)).

(** [for line in lines: ...] collecting [code_lines]. *)
Fixpoint code_lines (in_code : bool) (lines : list string) : list string :=
  match lines with
  | [] => []
  | line :: rest =>
      let stripped := strip line in
      let in_code := if in_code then true else starts_code stripped in
      if in_code then line :: code_lines in_code rest else code_lines in_code rest
  end.

Definition _extract_code (response : string) : string :=
  if negb (truthy response) then EmptyString
  else
    let response := strip response in
    match CodeFence.python_block response with
    | Some code => code
    | None =>
        match CodeFence.any_block response with
        | Some code => code
        | None =>
            match code_lines false (split_lines response) with
            | [] => response
            | ls => strip (join_lines ls)
            end
        end
    end.

Definition _parse_kernel_output (E : Env) (raw_output : string) : res payload :=
  let start_idx := find raw_output RESULT_START 0 in
  let end_idx := find raw_output RESULT_END 0 in
  if (start_idx =? -1) || (end_idx =? -1) || (end_idx <=? start_idx) then
    Raise (PyException
             ("Unable to parse schema payload from kernel output. Expected markers '"
              +:+ RESULT_START +:+ "' and '" +:+ RESULT_END
              +:+ "' not found or in wrong order. Output preview: "
              +:+ upto 500 raw_output))
  else
    let json_text := strip (slice raw_output (start_idx + len RESULT_START) end_idx) in
    match json_loads E json_text with
    | inl p => Ok p
    | inr e =>
        Raise (PyException ("Failed to parse JSON from kernel output: " +:+ e +:+ nl
                            +:+ "JSON text: " +:+ upto 500 json_text))
    end.

(** [sorted(metadata, key=table_name)]: a stable sort, here by insertion
    from the right. *)
Fixpoint insert_by_name (t : Table) (l : list Table) : list Table :=
  match l with
  | [] => [t]
  | u :: l' =>
      if String.leb (table_name t) (table_name u) then t :: l
      else u :: insert_by_name t l'
  end.

Definition sorted_by_name (metadata : list Table) : list Table :=
  foldr insert_by_name [] metadata.

Definition fk_signature (fk : ForeignKey) : option string * list string * list string :=
  (referred_table fk, constrained_columns fk, referred_columns fk).

Definition Entry : Type :=
  string * option Z * list string * list string
  * list (option string * list string * list string).

Definition entry (table : Table) : Entry :=
  (table_name table, row_count table, map col_name (columns table),
   primary_key table, map fk_signature (foreign_keys table)).

Definition _build_fingerprint (metadata : list Table) : list Entry :=
  map entry (sorted_by_name metadata).

(** The messages of one generation request. *)
Definition request_messages (E : Env) (iteration : Z) (last_error : option string)
    (conversation : list Message) : list Message :=
  let messages := [{| msg_role := System; msg_content := system_prompt E |}] in
  if iteration =? 1 then
    messages ++ [{| msg_role := User; msg_content := first_prompt E |}]
  else
    let messages := messages ++ Py.last_n 8 conversation in
    match last_error with
    | Some err =>
        if truthy err then
          messages ++
          [{| msg_role := User;
              msg_content := "The previous code failed. Please fix it and generate new code."
                             +:+ nl +:+ nl +:+ "Error: " +:+ err |}]
        else
          messages ++
          [{| msg_role := User;
              msg_content := "Please regenerate the inspection code to verify the schema analysis is stable and complete." |}]
    | None =>
        messages ++
        [{| msg_role := User;
            msg_content := "Please regenerate the inspection code to verify the schema analysis is stable and complete." |}]
    end.

Definition _ask_llm_for_code (E : Env) (iteration : Z) (last_error : option string)
    (conversation : list Message) : res string * list event :=
  let messages := request_messages E iteration last_error conversation in
  match llm_create E iteration messages with
  | Raise e => (Raise e, [EvRequest messages])
  | Ok response_text => (Ok (_extract_code response_text), [EvRequest messages])
  end.

(** The local variables of [analyze_schema]. *)
Record Locals : Type := {
  metadata : list Table;
  relationships : list Relationship;
  iteration : Z;
  satisfied : bool;
  prev_fingerprint : option (list Entry);
  stable_rounds : Z;
  conversation : list Message;
  last_error : option string;
  last_output : option string;
}.

Definition locals0 : Locals :=
  {| metadata := []; relationships := []; iteration := 0; satisfied := false;
     prev_fingerprint := None; stable_rounds := 0; conversation := [];
     last_error := None; last_output := None |}.

(** Lines 230-236: the convergence detector.  Returns the new
    [stable_rounds], [prev_fingerprint] and [satisfied]. *)
Definition check_stability (required : Z) (fingerprint : list Entry)
    (prev : option (list Entry)) (rounds : Z) : Z * option (list Entry) * bool :=
  let rounds := if decide (Some fingerprint = prev) then rounds + 1 else 1 in
  (rounds, Some fingerprint, required <=? rounds).

Definition generated (code : string) : Message :=
  {| msg_role := Assistant;
     msg_content := "I generated this code:" +:+ nl +:+ "```python" +:+ nl
                    +:+ code +:+ nl +:+ "```" |}.

Inductive flow : Type := Next | Break.

(** One pass through the body of [while iteration < self.max_iterations].
    A [Raise] is an exception that leaves the loop: it is handled by the
    [except Exception] of [analyze_schema] or propagates. *)
Definition iteration_body (E : Env) (a : t) (session : JupyterKernelSession.t)
    (it : Z) (st : Locals) : res (Locals * flow) * list event :=
  let '(asked, ev1) := _ask_llm_for_code E it (last_error st) (conversation st) in
  match asked with
  | Raise e => (Raise e, ev1)
  | Ok code =>
      if CodeFence.insufficient code then
        let err := "LLM returned empty or insufficient code. Please generate complete Python code." in
        (Ok ({| metadata := metadata st; relationships := relationships st;
                iteration := it; satisfied := satisfied st;
                prev_fingerprint := prev_fingerprint st;
                stable_rounds := stable_rounds st;
                conversation := conversation st
                                ++ [{| msg_role := User; msg_content := err |}];
                last_error := Some err; last_output := last_output st |}, Next), ev1)
      else
        let '(ran, ev2) := JupyterKernelSession.execute (kernel_run E it) session code in
        let parsed :=
          match ran with
          | Raise e => Raise e
          | Ok raw_output =>
              match _parse_kernel_output E raw_output with
              | Raise e => Raise e
              | Ok p => Ok (raw_output, p)
              end
          end in
        match parsed with
        | Raise e =>
            if caught_by_except_Exception e then
              let err := exn_str e in
              match log_sink E it code ("ERROR: " +:+ err) with
              | Some e' => (Raise e', ev1 ++ ev2)
              | None =>
                  (Ok ({| metadata := metadata st; relationships := relationships st;
                          iteration := it; satisfied := satisfied st;
                          prev_fingerprint := prev_fingerprint st;
                          stable_rounds := stable_rounds st;
                          conversation :=
                            conversation st ++
                            [generated code;
                             {| msg_role := User;
                                msg_content := "The code failed with this error:" +:+ nl
                                               +:+ err +:+ nl +:+ nl
                                               +:+ "Please analyze the error and generate fixed code." |}];
                          last_error := Some err; last_output := None |}, Next),
                   ev1 ++ ev2)
              end
            else (Raise e, ev1 ++ ev2)
        | Ok (raw_output, PayloadOther v) =>
            (Raise (Py.no_attribute v "get"), ev1 ++ ev2)
        | Ok (raw_output, PayloadDict tables rels) =>
            match log_sink E it code raw_output with
            | Some e' => (Raise e', ev1 ++ ev2)
            | None =>
                match tables with
                | [] =>
                    (Ok ({| metadata := tables; relationships := rels;
                            iteration := it; satisfied := satisfied st;
                            prev_fingerprint := prev_fingerprint st;
                            stable_rounds := stable_rounds st;
                            conversation :=
                              conversation st ++
                              [generated code;
                               {| msg_role := User;
                                  msg_content := "The code ran successfully but the payload contained no tables. Output was:"
                                                 +:+ nl +:+ upto 1000 raw_output +:+ nl +:+ nl
                                                 +:+ "Please investigate and fix the code." |}];
                            last_error := Some "Code executed but returned no tables in the payload.";
                            last_output := Some raw_output |}, Next),
                     ev1 ++ ev2)
                | _ =>
                    let fingerprint := _build_fingerprint tables in
                    let '(rounds, prev, sat) :=
                      check_stability (stable_rounds_required a) fingerprint
                        (prev_fingerprint st) (stable_rounds st) in
                    (Ok ({| metadata := tables; relationships := rels;
                            iteration := it; satisfied := sat;
                            prev_fingerprint := prev; stable_rounds := rounds;
                            conversation :=
                              conversation st ++
                              [generated code;
                               {| msg_role := User;
                                  msg_content :=
                                    "Code executed successfully! Found "
                                    +:+ pretty (Z.of_nat (length tables)) +:+ " tables with "
                                    +:+ pretty (Z.of_nat (length rels)) +:+ " relationships. "
                                    +:+ "Stable rounds: " +:+ pretty rounds +:+ "/"
                                    +:+ pretty (stable_rounds_required a) +:+ ". "
                                    +:+ (if sat then "Analysis complete!"
                                         else "Please regenerate to verify stability.") |}];
                            last_error := None; last_output := Some raw_output |},
                         if sat then Break else Next),
                     ev1 ++ ev2)
                end
            end
        end
  end.

(** The [while] loop: [iteration] counts 1, 2, ..., [max_iterations]. *)
Fixpoint iterations_loop (E : Env) (a : t) (session : JupyterKernelSession.t)
    (its : list Z) (st : Locals) : res Locals * Locals * list event :=
  match its with
  | [] => (Ok st, st, [])
  | it :: rest =>
      let entered := {| metadata := metadata st; relationships := relationships st;
                        iteration := it; satisfied := satisfied st;
                        prev_fingerprint := prev_fingerprint st;
                        stable_rounds := stable_rounds st;
                        conversation := conversation st;
                        last_error := last_error st; last_output := last_output st |} in
      match iteration_body E a session it st with
      | (Raise e, evs) => (Raise e, entered, evs)
      | (Ok (st', Break), evs) => (Ok st', st', evs)
      | (Ok (st', Next), evs) =>
          let '(r, last, evs') := iterations_loop E a session rest st' in
          (r, last, evs ++ evs')
      end
  end.

(** The returned dict. *)
Record Result : Type := {
  res_success : bool;
  analysis_file : option string;
  schema_file : option string;
  iterations : Z;
  res_satisfied : bool;
}.

(** The statements after the [try]: the two dumps and the [return]. *)
Definition finish (E : Env) (st : Locals) : res Result * list event :=
  match metadata st with
  | [] =>
      (Ok {| res_success := false; analysis_file := None; schema_file := None;
             iterations := iteration st; res_satisfied := satisfied st |}, [])
  | _ =>
      match dump_markdown E (metadata st) (relationships st) (iteration st)
              (satisfied st) with
      | Raise e => (Raise e, [])
      | Ok md =>
          match dump_json E (metadata st) (relationships st) (iteration st)
                  (satisfied st) with
          | Raise e => (Raise e, [EvReport])
          | Ok js =>
              (Ok {| res_success := true; analysis_file := Some md;
                     schema_file := Some js; iterations := iteration st;
                     res_satisfied := satisfied st |}, [EvReport; EvReport])
          end
      end
  end.

(** The [except Exception] handler of [analyze_schema]. *)
Definition on_error (st : Locals) : Locals :=
  {| metadata := []; relationships := []; iteration := iteration st;
     satisfied := false; prev_fingerprint := prev_fingerprint st;
     stable_rounds := stable_rounds st; conversation := conversation st;
     last_error := last_error st; last_output := last_output st |}.

Definition analyze_schema (E : Env) (a : t) (start : start_outcome)
    : res Result * list event :=
  let '(session, failure, ev0) :=
    JupyterKernelSession.start start JupyterKernelSession.init in
  match failure with
  | Some e =>
      (* session_started is still False: the [finally] does nothing *)
      if caught_by_except_Exception e then
        let '(r, ev3) := finish E (on_error locals0) in (r, ev0 ++ ev3)
      else (Raise e, ev0)
  | None =>
      let '(r, last, ev1) :=
        iterations_loop E a session (Py.range 1 (max_iterations a + 1)) locals0 in
      let '(_, ev2) := JupyterKernelSession.shutdown session in
      match r with
      | Ok st => let '(r', ev3) := finish E st in (r', ev0 ++ ev1 ++ ev2 ++ ev3)
      | Raise e =>
          if caught_by_except_Exception e then
            let '(r', ev3) := finish E (on_error last) in (r', ev0 ++ ev1 ++ ev2 ++ ev3)
          else (Raise e, ev0 ++ ev1 ++ ev2)
      end
  end.

(** *** The entry point [analyze] *)

Definition CONFIG_START : string := "SOURCE_CONFIG_START".
Definition CONFIG_END : string := "SOURCE_CONFIG_END".

(** The agent as [analyze] sees it: the settings of the analysis loop,
    the user's instructions and the run folder. *)
Record Agent : Type := {
  settings : t;
  instructions : string;
  run_folder : option string;
}.

(** The collaborators of [analyze]: the client's answer to the extraction
    request, the JSON decoder, the wording of the extraction prompt, the
    write of [source_config.json] into the run folder, and the
    collaborators of the schema analysis for the extracted connection
    details. *)
Record Intake : Type := {
  extract_create : list Message -> res string;
  config_loads : string -> json + string;
  extract_system_prompt : string;
  save_config : string -> json -> option exn;
  analysis : json -> Env;
}.

Definition extraction_messages (I : Intake) (a : Agent) : list Message :=
  [ {| msg_role := System; msg_content := extract_system_prompt I |};
    {| msg_role := User;
       msg_content := "Extract connection details from these instructions:" +:+ nl +:+ nl
                      +:+ instructions a |} ].

(** [Ok None] is [return None]; a decoded value that is not a dict has no
    [get], and the [AttributeError] is not caught here. *)
Definition _extract_connection_from_instructions (I : Intake) (a : Agent)
    : res (option json) * list event :=
  let messages := extraction_messages I a in
  match extract_create I messages with
  | Raise e => (Raise e, [EvRequest messages])
  | Ok response_text =>
      if contains CONFIG_START response_text && contains CONFIG_END response_text then
        let start_idx := find response_text CONFIG_START 0 + len CONFIG_START in
        let end_idx := find response_text CONFIG_END 0 in
        let json_str := strip (slice response_text start_idx end_idx) in
        match config_loads I json_str with
        | inl config =>
            match config with
            | JObj _ => (Ok (Some config), [EvRequest messages])
            | _ => (Raise (Py.no_attribute config "get"), [EvRequest messages])
            end
        | inr _ => (Ok None, [EvRequest messages])
        end
      else (Ok None, [EvRequest messages])
  end.

(** What [analyze] returns: an error dict, or the result of
    [analyze_schema]. *)
Inductive Analysis : Type :=
  | AnalysisError (error : string)
  | AnalysisResult (r : Result).

Definition analyze (I : Intake) (a : Agent) (start : start_outcome)
    : res Analysis * list event :=
  if negb (truthy (instructions a))
  then (Ok (AnalysisError "No instructions provided"), [])
  else
    let '(extracted, ev0) := _extract_connection_from_instructions I a in
    match extracted with
    | Raise e => (Raise e, ev0)
    | Ok found =>
        let db_config := default JNull found in
        if negb (Py.truthy db_config)
        then (Ok (AnalysisError "Could not extract connection details from instructions"),
              ev0)
        else
          match db_config with
          | JObj _ =>
              let saved :=
                match run_folder a with
                | Some folder =>
                    if truthy folder then save_config I folder db_config else None
                | None => None
                end in
              match saved with
              | Some e => (Raise e, ev0)
              | None =>
                  let '(r, evs) := analyze_schema (analysis I db_config) (settings a) start in
                  (match r with
                   | Ok r => Ok (AnalysisResult r)
                   | Raise e => Raise e
                   end, ev0 ++ evs)
              end
          | _ => (Raise (Py.no_attribute db_config "get"), ev0)
          end
    end.

End SchemaAnalyzerAgent.

(** ** The planner's request builder *)

Module PlannerAgent.
Import PyStr.

(** The generation service, indexed by the number of messages already in
    the history and by the retry attempt. *)
Record Env : Type := {
  client_create : nat -> Z -> list Message -> res string;
}.

Record t : Type := {
  name : string;
  system_prompt : string;
  history : list Message;
  max_retries : Z;
}.

Definition nudge : Message :=
  {| msg_role := User;
     msg_content := "Please provide your response. Do not return empty content." |}.

(** The retry loop for empty responses. *)
Fixpoint retry_loop (E : Env) (p : t) (attempts : list Z) (messages : list Message)
    (response_content : string) : res string * list event :=
  match attempts with
  | [] => (Ok response_content, [])
  | attempt :: rest =>
      match client_create E (length (history p)) attempt messages with
      | Raise e => (Raise e, [EvRequest messages])
      | Ok response_content =>
          if truthy (strip response_content) then
            (Ok response_content, [EvRequest messages])
          else
            let messages' := if attempt <? max_retries p
                             then messages ++ [nudge] else messages in
            let '(r, evs) := retry_loop E p rest messages' response_content in
            (r, EvRequest messages :: evs)
      end
  end.

(** [messages]: system + history + new instruction. *)
Definition request_messages (p : t) (instruction : string) : list Message :=
  [{| msg_role := System; msg_content := system_prompt p |}]
  ++ history p ++ [{| msg_role := User; msg_content := instruction |}].

Definition send_instruction (E : Env) (p : t) (instruction : string)
    : res (string * t) * list event :=
  let messages := request_messages p instruction in
  match retry_loop E p (Py.range 1 (max_retries p + 1)) messages EmptyString with
  | (Raise e, evs) => (Raise e, evs)
  | (Ok response_content, evs) =>
      let response_content :=
        if negb (truthy (strip response_content))
        then "[" +:+ name p +:+ " returned empty response after "
             +:+ pretty (max_retries p) +:+ " attempts]"
        else response_content in
      (Ok (response_content,
           {| name := name p; system_prompt := system_prompt p;
              history := history p
                         ++ [{| msg_role := User; msg_content := instruction |};
                             {| msg_role := Assistant; msg_content := response_content |}];
              max_retries := max_retries p |}), evs)
  end.

(** A sequence of instructions sent one after the other. *)
Fixpoint send_all (E : Env) (p : t) (instructions : list string) : res t :=
  match instructions with
  | [] => Ok p
  | instruction :: rest =>
      match send_instruction E p instruction with
      | (Raise e, _) => Raise e
      | (Ok (_, p'), _) => send_all E p' rest
      end
  end.

End PlannerAgent.

(** ** The planner debate ([DebateRunner]) *)

Module DebateRunner.

Record t : Type := {
  planner_alpha : PlannerAgent.t;
  planner_beta : PlannerAgent.t;
  max_rounds : Z;
}.

(** The generation services of the two planners, the text of
    [_summarize_catalog] (which raises on a catalog whose tables cannot be
    iterated) and the wording of the three prompts (each an f-string
    around one text).  The files of [_log_iteration] are taken to be
    written without error. *)
Record Env : Type := {
  alpha_client : PlannerAgent.Env;
  beta_client : PlannerAgent.Env;
  _summarize_catalog : list (string * json) -> res string;
  alpha_initial_prompt : string -> string;
  beta_prompt : string -> string;
  alpha_revision_prompt : string -> string;
}.

(** One entry of [conversation]. *)
Record Turn : Type := { speaker : string; message : string }.

(** The returned dict (without its timestamp). *)
Record Plan : Type := {
  plan_schema : json;
  database_type : json;
  catalog_summary : string;
  final_plan : string;
  final_critique : string;
  conversation : list Turn;
  run_rounds : Z;
}.

(** The local variables of [run_debate]; [beta_response] is unbound until
    the first round has run. *)
Record Locals : Type := {
  alpha : PlannerAgent.t;
  beta : PlannerAgent.t;
  alpha_response : string;
  beta_response : option string;
  turns : list Turn;
}.

(** One pass of [for round_number in range(1, self.max_rounds + 1)]. *)
Definition round_body (E : Env) (st : Locals) : res unit * Locals * list event :=
  match PlannerAgent.send_instruction (beta_client E) (beta st)
          (beta_prompt E (alpha_response st)) with
  | (Raise e, ev1) => (Raise e, st, ev1)
  | (Ok (critique, beta'), ev1) =>
      let st1 := {| alpha := alpha st; beta := beta'; alpha_response := alpha_response st;
                    beta_response := Some critique;
                    turns := turns st ++ [{| speaker := PlannerAgent.name (beta st);
                                             message := critique |}] |} in
      match PlannerAgent.send_instruction (alpha_client E) (alpha st)
              (alpha_revision_prompt E critique) with
      | (Raise e, ev2) => (Raise e, st1, ev1 ++ ev2)
      | (Ok (revision, alpha'), ev2) =>
          (Ok tt,
           {| alpha := alpha'; beta := beta'; alpha_response := revision;
              beta_response := Some critique;
              turns := turns st1 ++ [{| speaker := PlannerAgent.name (alpha st);
                                        message := revision |}] |},
           ev1 ++ ev2)
      end
  end.

Fixpoint rounds_loop (E : Env) (rounds : list Z) (st : Locals)
    : res unit * Locals * list event :=
  match rounds with
  | [] => (Ok tt, st, [])
  | _ :: rest =>
      match round_body E st with
      | (Raise e, st', evs) => (Raise e, st', evs)
      | (Ok _, st', evs) =>
          let '(r, st'', evs') := rounds_loop E rest st' in
          (r, st'', evs ++ evs')
      end
  end.

(** The statements after the banner: Alpha's initial plan, then
    [max_rounds] rounds of critique and revision, then the returned dict.
    Reading [beta_response] when no round has run raises
    [UnboundLocalError] (the message is that of Python 3.11 and later).
    The planners are returned with the histories they have accumulated,
    also when an exception leaves the debate. *)
Definition debate (E : Env) (d : t) (catalog : list (string * json)) (summary : string)
    : res Plan * t * list event :=
  match PlannerAgent.send_instruction (alpha_client E) (planner_alpha d)
          (alpha_initial_prompt E summary) with
  | (Raise e, ev0) => (Raise e, d, ev0)
  | (Ok (plan, alpha'), ev0) =>
      let st0 := {| alpha := alpha'; beta := planner_beta d; alpha_response := plan;
                    beta_response := None;
                    turns := [{| speaker := PlannerAgent.name (planner_alpha d);
                                 message := plan |}] |} in
      let '(r, st, evs) := rounds_loop E (Py.range 1 (max_rounds d + 1)) st0 in
      let d' := {| planner_alpha := alpha st; planner_beta := beta st;
                   max_rounds := max_rounds d |} in
      match r with
      | Raise e => (Raise e, d', ev0 ++ evs)
      | Ok _ =>
          match beta_response st with
          | None =>
              (Raise (PyException "cannot access local variable 'beta_response' where it is not associated with a value"),
               d', ev0 ++ evs)
          | Some critique =>
              (Ok {| plan_schema := Py.lookup catalog "schema";
                     database_type := default (JStr "unknown") (Py.assoc "database_type" catalog);
                     catalog_summary := summary;
                     final_plan := alpha_response st;
                     final_critique := critique;
                     conversation := turns st;
                     run_rounds := max_rounds d |},
               d', ev0 ++ evs)
          end
      end
  end.

(** [run_debate]: the summary, the banner (which prints the lengths of
    the catalog's tables and relationships), then the debate. *)
Definition run_debate (E : Env) (d : t) (catalog : list (string * json))
    : res Plan * t * list event :=
  match _summarize_catalog E catalog with
  | Raise e => (Raise e, d, [])
  | Ok summary =>
      match Py.len_ (default (JArr []) (Py.assoc "tables" catalog)) with
      | Raise e => (Raise e, d, [])
      | Ok _ =>
          match Py.len_ (default (JArr []) (Py.assoc "relationships" catalog)) with
          | Raise e => (Raise e, d, [])
          | Ok _ => debate E d catalog summary
          end
      end
  end.

End DebateRunner.

(** ** The diagram generator's extractor *)

Module DiagramGeneratorAgent.
Import PyStr.

Definition fence_mermaid : string := "```mermaid".

(** The block [if "```mermaid" in response: ...]. *)
Definition mermaid_block (response : string) : option string :=
  if contains fence_mermaid response then
    let start := find response fence_mermaid 0 + len fence_mermaid in
    let end_ := find response CodeFence.fence start in
    if end_ >? start then Some (strip (slice response start end_)) else None
  else None.

Definition _extract_mermaid (response : string) : string :=
  if negb (truthy response) then EmptyString
  else
    let response := strip response in
    match mermaid_block response with
    | Some code => code
    | None =>
        match CodeFence.any_block response with
        | Some code => code
        | None => if startswith "erDiagram" response then response else response
        end
    end.

End DiagramGeneratorAgent.

(** ** Configuration ([config.py]) *)

Module Config.
Import PyStr.

(** The character class [[a-zA-Z0-9_-]]. *)
Definition safe_char (c : ascii) : bool :=
  let n := nat_of_ascii c in
  ((97 <=? n)%nat && (n <=? 122)%nat) || ((65 <=? n)%nat && (n <=? 90)%nat)
  || ((48 <=? n)%nat && (n <=? 57)%nat) || Ascii.eqb c "_" || Ascii.eqb c "-".

(** [re.sub(r"[^a-zA-Z0-9_-]+", "-", s)]: every maximal run of other
    characters becomes one ["-"]; [in_run] tells whether the previous
    character belonged to such a run. *)
Fixpoint sub_unsafe (in_run : bool) (s : string) : string :=
  match s with
  | EmptyString => EmptyString
  | String c s' =>
      if safe_char c then String c (sub_unsafe false s')
      else if in_run then sub_unsafe true s'
      else String "-" (sub_unsafe true s')
  end.

Definition sanitize_run_id (run_id : string) : string :=
  if negb (truthy run_id) then "run"
  else
    let normalized := sub_unsafe false run_id in
    let normalized := upto 64 (strip_chars "-" normalized) in
    if truthy normalized then normalized else "run".

Definition env_keys : list string :=
  ["AZURE_OPENAI_API_KEY"; "AZURE_OPENAI_ENDPOINT"; "AZURE_OPENAI_API_VERSION";
   "SNOWFLAKE_ACCOUNT"; "SNOWFLAKE_USER"; "SNOWFLAKE_PASSWORD";
   "SNOWFLAKE_WAREHOUSE"; "SNOWFLAKE_DATABASE"; "SNOWFLAKE_SCHEMA"].

(** The first loop of [load_credentials]: the environment variables that
    are set and not empty. *)
Definition from_environ (environ : gmap string string) : gmap string string :=
  foldl (fun creds key =>
           match environ !! key with
           | Some value => if truthy value then <[key := value]> creds else creds
           | None => creds
           end) ∅ env_keys.

(** [creds.get(key)] is truthy: the key is there and its value is not
    empty. *)
Definition has (creds : gmap string string) (key : string) : bool :=
  match creds !! key with
  | Some value => truthy value
  | None => false
  end.

(** One line of [credentials.txt]. *)
Definition read_line (creds : gmap string string) (line : string) : gmap string string :=
  let line := strip line in
  if truthy line && negb (startswith "#" line) && contains "=" line then
    match split_once "=" line with
    | Some (key, value) =>
        match creds !! strip key with
        | None => <[strip key := strip value]> creds
        | Some _ => creds
        end
    | None => creds
    end
  else creds.

(** [load_credentials]: [environ] is [os.environ], [cred_file] the lines
    of [credentials.txt], [None] when the file does not exist. *)
Definition load_credentials (environ : gmap string string)
    (cred_file : option (list string)) : res (gmap string string) :=
  let creds := from_environ environ in
  if has creds "AZURE_OPENAI_API_KEY" && has creds "SNOWFLAKE_ACCOUNT" then Ok creds
  else
    let creds :=
      match cred_file with
      | Some lines => foldl read_line creds lines
      | None => creds
      end in
    if negb (has creds "AZURE_OPENAI_API_KEY")
    then Raise (PyException "AZURE_OPENAI_API_KEY not found in environment or credentials.txt")
    else Ok creds.

Record AzureConfig : Type := {
  deployment : string;
  api_key : option string;
  base_url : string;
  api_version : string;
  reasoning_effort : string;
}.

(** [get_azure_openai_config]: a missing endpoint is [None], and
    [None.rstrip] raises [AttributeError]. *)
Definition get_azure_openai_config (environ : gmap string string)
    (cred_file : option (list string)) (reasoning_effort : string)
    (deployment : option string) : res AzureConfig :=
  match load_credentials environ cred_file with
  | Raise e => Raise e
  | Ok creds =>
      let endpoint := creds !! "AZURE_OPENAI_ENDPOINT" in
      let api_key := creds !! "AZURE_OPENAI_API_KEY" in
      let api_version := default "2024-12-01-preview" (creds !! "AZURE_OPENAI_API_VERSION") in
      let deployment :=
        match deployment with
        | Some d => if truthy d then d else "enmapper-gpt-5.1-codex"
        | None => "enmapper-gpt-5.1-codex"
        end in
      match endpoint with
      | None => Raise (PyException "'NoneType' object has no attribute 'rstrip'")
      | Some endpoint =>
          Ok {| deployment := deployment; api_key := api_key;
                base_url := rstrip_chars "/" endpoint; api_version := api_version;
                reasoning_effort := reasoning_effort |}
      end
  end.

End Config.

(** ** The catalog pickers of the runners *)

Module RunMigration.
Import PyStr.

(** [l.sort(reverse=True)] on names, by insertion from the right. *)
Fixpoint insert_reverse (f : string) (l : list string) : list string :=
  match l with
  | [] => [f]
  | g :: l' => if String.leb g f then f :: l else g :: insert_reverse f l'
  end.

Definition sort_reverse (l : list string) : list string := foldr insert_reverse [] l.

(** [f.startswith("schema_catalog_") and f.endswith(".json")] *)
Definition is_catalog_file (f : string) : bool :=
  startswith "schema_catalog_" f && endswith ".json" f.

(** [find_latest_catalog] of [run_migration.py]: [listdir] is the listing
    of the [schema_agent] directory, [None] when it is not a directory;
    [load] opens and decodes the chosen file.  The result is the catalog
    and the name of its file, [None] for the pair [(None, None)]. *)
Definition find_latest_catalog (listdir : option (list string))
    (load : string -> res json) : res (option (json * string)) :=
  match listdir with
  | None => Ok None
  | Some names =>
      match sort_reverse (List.filter is_catalog_file names) with
      | [] => Ok None
      | latest :: _ =>
          match load latest with
          | Raise e => Raise e
          | Ok catalog => Ok (Some (catalog, latest))
          end
      end
  end.

End RunMigration.

Module RunDebate.

(** [sorted(candidates)], by insertion from the right. *)
Fixpoint insert_sorted (f : string) (l : list string) : list string :=
  match l with
  | [] => [f]
  | g :: l' => if String.leb f g then f :: l else g :: insert_sorted f l'
  end.

Definition sorted (l : list string) : list string := foldr insert_sorted [] l.

(** [find_latest_catalog] of [run_debate.py]: [candidates] is what
    [glob.glob] finds for [schema_catalog_*.json]. *)
Definition find_latest_catalog (run_folder : string) (candidates : list string)
    : res string :=
  match List.rev (sorted candidates) with
  | [] => Raise (PyException ("No schema catalog found for run folder " +:+ run_folder))
  | latest :: _ => Ok latest
  end.

End RunDebate.

(** ** The API server ([api_server.py]) *)

Module ApiServer.
Import PyStr.

(** The characters stripped from the value: the double and the single
    quote. *)
Definition quotes : string := String "034"%char (String "039"%char EmptyString).

(** The loop of [parse_instructions_for_target]. *)
Fixpoint scan_target (lines : list string) (target_schema : string) : string :=
  match lines with
  | [] => target_schema
  | line :: rest =>
      let line_lower := strip (lower line) in
      if contains "target" line_lower && contains "schema" line_lower && contains ":" line
      then
        match split_once ":" line with
        | Some (_, value) =>
            let schema_val := upper (strip_chars quotes (strip value)) in
            if truthy schema_val then schema_val else scan_target rest target_schema
        | None => scan_target rest target_schema
        end
      else scan_target rest target_schema
  end.

Definition parse_instructions_for_target (instructions source_schema : string) : string :=
  scan_target (split_lines instructions) (upper source_schema).

(** One entry of a migration's [logs] (without its time). *)
Record LogLine : Type := { log_message : string; log_type : string }.

(** A phase entry of a migration: its status, its error, and the other
    entries written when the phase completes. *)
Record Phase : Type := {
  status : string;
  phase_error : option string;
  facts : list (string * json);
}.

(** One value of the [migrations] dict (without its start time). *)
Record Migration : Type := {
  id : string;
  run_id : string;
  run_folder : string;
  complete : bool;
  success : bool;
  error : option string;
  phase1 : Phase;
  phase2 : Phase;
  phase3 : Phase;
  logs : list LogLine;
}.

Definition pending : Phase :=
  {| status := "pending"; phase_error := None; facts := [] |}.

(** The entry [start_migration] creates. *)
Definition new_migration (migration_id run_id run_folder : string) : Migration :=
  {| id := migration_id; run_id := run_id; run_folder := run_folder;
     complete := false; success := false; error := None;
     phase1 := pending; phase2 := pending; phase3 := pending; logs := [] |}.

Definition with_logs (m : Migration) (logs : list LogLine) : Migration :=
  {| id := id m; run_id := run_id m; run_folder := run_folder m;
     complete := complete m; success := success m; error := error m;
     phase1 := phase1 m; phase2 := phase2 m; phase3 := phase3 m; logs := logs |}.

Definition with_outcome (m : Migration) (complete success : bool) (error : option string)
    : Migration :=
  {| id := id m; run_id := run_id m; run_folder := run_folder m;
     complete := complete; success := success; error := error;
     phase1 := phase1 m; phase2 := phase2 m; phase3 := phase3 m; logs := logs m |}.

Inductive phase_name : Type := Phase1 | Phase2 | Phase3.

Definition phase_of (m : Migration) (k : phase_name) : Phase :=
  match k with Phase1 => phase1 m | Phase2 => phase2 m | Phase3 => phase3 m end.

Definition with_phase (m : Migration) (k : phase_name) (p : Phase) : Migration :=
  {| id := id m; run_id := run_id m; run_folder := run_folder m;
     complete := complete m; success := success m; error := error m;
     phase1 := match k with Phase1 => p | _ => phase1 m end;
     phase2 := match k with Phase2 => p | _ => phase2 m end;
     phase3 := match k with Phase3 => p | _ => phase3 m end;
     logs := logs m |}.

(** [HTTPException(status_code, detail)] *)
Definition HTTPException (status_code : Z) (detail : string) : exn :=
  PyException (pretty status_code +:+ ": " +:+ detail).

(** [add_log]: nothing happens for an unknown id. *)
Definition add_log (migrations : gmap string Migration) (migration_id message log_type : string)
    : gmap string Migration :=
  match migrations !! migration_id with
  | Some m =>
      <[migration_id := with_logs m (logs m ++ [{| log_message := message;
                                                   log_type := log_type |}])]> migrations
  | None => migrations
  end.

(** [get_migration_status]: the status with the pending logs, which are
    cleared in the store. *)
Definition get_migration_status (migrations : gmap string Migration) (migration_id : string)
    : res Migration * gmap string Migration :=
  match migrations !! migration_id with
  | None => (Raise (HTTPException 404 "Migration not found"), migrations)
  | Some m => (Ok m, <[migration_id := with_logs m []]> migrations)
  end.

(** The statement [migrations[migration_id][...] = ...]: [KeyError] for
    an unknown id (its message is the quoted id). *)
Definition update (migrations : gmap string Migration) (migration_id : string)
    (f : Migration -> Migration) : res (gmap string Migration) :=
  match migrations !! migration_id with
  | Some m => Ok (<[migration_id := f m]> migrations)
  | None => Raise (PyException ("'" +:+ migration_id +:+ "'"))
  end.

Definition set_status (k : phase_name) (status : string) (m : Migration) : Migration :=
  with_phase m k {| status := status; phase_error := phase_error (phase_of m k);
                    facts := facts (phase_of m k) |}.

Definition set_complete (k : phase_name) (found : list (string * json)) (m : Migration)
    : Migration :=
  with_phase m k {| status := "complete"; phase_error := phase_error (phase_of m k);
                    facts := facts (phase_of m k) ++ found |}.

Definition set_failed (k : phase_name) (e : exn) (m : Migration) : Migration :=
  with_phase m k {| status := "failed"; phase_error := Some (exn_str e);
                    facts := facts (phase_of m k) |}.

(** The request of [start_migration], as the pipeline reads it. *)
Record MigrationRequest : Type := {
  phase1_instructions : string;
  phase2_instructions : string;
  phase3_instructions : string;
  debate_rounds : Z;
}.

(** The collaborators of [run_migration_pipeline]: the three phase
    runners, the two loaders, the entries a completed phase writes into
    the status (functions of the phase's result: the entries written, and
    the exception that stopped the writing, if any), the wording of the
    log lines that quote a result. *)
Record Pipeline : Type := {
  run_phase1 : string -> res (list (string * json));
  phase1_facts : list (string * json) -> list (string * json) * option exn;
  phase1_summary : list (string * json) -> string;
  load_source_config_from_run : res (list (string * json));
  source_line : list (string * json) -> json -> string;
  load_credentials : res (gmap string string);
  run_phase2 : list (string * json) -> string -> Z -> string -> res unit;
  run_phase3 : list (string * json) -> list (string * json) -> list (string * json)
               -> string -> res (list (string * json));
  phase3_facts : list (string * json) -> list (string * json) * option exn;
  phase3_summary : list (string * json) -> string;
}.

(** A step of the pipeline: the store after it, with the exception it
    raised, if any. *)
Definition step : Type := res unit * gmap string Migration.

(** One guarded phase: the status becomes [running]; the runner is
    called; the status becomes [complete] and the phase's entries are
    written, then a log line; on [except Exception] the status becomes
    [failed] with the error, a log line is added, and the exception goes
    on. *)
Definition guarded_phase {A} (migrations : gmap string Migration) (migration_id : string)
    (k : phase_name) (label : string) (runner : res A)
    (found : A -> list (string * json) * option exn) (done_line : A -> string)
    : res A * gmap string Migration :=
  match update migrations migration_id (set_status k "running") with
  | Raise e => (Raise e, migrations)
  | Ok migrations =>
      let '(r, migrations) :=
        match runner with
        | Raise e => (Raise e, migrations)
        | Ok a =>
            let '(entries, failure) := found a in
            match update migrations migration_id (set_complete k entries) with
            | Raise e => (Raise e, migrations)
            | Ok migrations =>
                match failure with
                | Some e => (Raise e, migrations)
                | None => (Ok a, add_log migrations migration_id (done_line a) "success")
                end
            end
        end in
      match r with
      | Ok a => (Ok a, migrations)
      | Raise e =>
          if caught_by_except_Exception e then
            match update migrations migration_id (set_failed k e) with
            | Raise e' => (Raise e', migrations)
            | Ok migrations =>
                (Raise e,
                 add_log migrations migration_id (label +:+ " failed: " +:+ exn_str e) "error")
            end
          else (Raise e, migrations)
      end
  end.

(** The body of the outer [try] of [run_migration_pipeline]. *)
Definition pipeline_body (P : Pipeline) (migrations : gmap string Migration)
    (migration_id : string) (request : MigrationRequest) : step :=
  let migrations :=
    add_log migrations migration_id
      "Phase 1 will extract connection details from instructions" "info" in
  let migrations :=
    add_log migrations migration_id "Starting Phase 1: Schema Analysis" "phase1" in
  match guarded_phase migrations migration_id Phase1 "Phase 1"
          (run_phase1 P (phase1_instructions request)) (phase1_facts P)
          (phase1_summary P) with
  | (Raise e, migrations) => (Raise e, migrations)
  | (Ok catalog, migrations) =>
      match load_source_config_from_run P with
      | Raise e => (Raise e, migrations)
      | Ok source_db =>
          let source_schema := default (JStr "public") (Py.assoc "schema" source_db) in
          let migrations :=
            add_log migrations migration_id (source_line P source_db source_schema) "info" in
          match source_schema with
          | JStr source_schema =>
              let target_schema :=
                parse_instructions_for_target (phase3_instructions request) source_schema in
              match load_credentials P with
              | Raise e => (Raise e, migrations)
              | Ok creds =>
                  let target_db :=
                    [("account", JStr (default EmptyString (creds !! "SNOWFLAKE_ACCOUNT")));
                     ("user", JStr (default EmptyString (creds !! "SNOWFLAKE_USER")));
                     ("password", JStr (default EmptyString (creds !! "SNOWFLAKE_PASSWORD")));
                     ("warehouse", JStr (default "COMPUTE_WH" (creds !! "SNOWFLAKE_WAREHOUSE")));
                     ("database", JStr (default "MIGRATION_DB" (creds !! "SNOWFLAKE_DATABASE")));
                     ("schema", JStr target_schema)] in
                  let migrations :=
                    add_log migrations migration_id
                      ("Target: Snowflake "
                       +:+ default "MIGRATION_DB" (creds !! "SNOWFLAKE_DATABASE")
                       +:+ "." +:+ target_schema) "info" in
                  let migrations :=
                    add_log migrations migration_id "Starting Phase 2: Migration Planning"
                      "phase2" in
                  match guarded_phase migrations migration_id Phase2 "Phase 2"
                          (run_phase2 P catalog source_schema (debate_rounds request)
                             (phase2_instructions request))
                          (fun _ => ([("rounds", JNum (debate_rounds request));
                                      ("summary", JStr "Migration plan created successfully")],
                                     None))
                          (fun _ => "Phase 2 complete: Migration plan ready") with
                  | (Raise e, migrations) => (Raise e, migrations)
                  | (Ok _, migrations) =>
                      let migrations :=
                        add_log migrations migration_id "Starting Phase 3: Migration Execution"
                          "phase3" in
                      match guarded_phase migrations migration_id Phase3 "Phase 3"
                              (run_phase3 P catalog source_db target_db
                                 (phase3_instructions request))
                              (phase3_facts P) (phase3_summary P) with
                      | (Raise e, migrations) => (Raise e, migrations)
                      | (Ok _, migrations) =>
                          match update migrations migration_id
                                  (fun m => with_outcome m true true (error m)) with
                          | Raise e => (Raise e, migrations)
                          | Ok migrations =>
                              (Ok tt,
                               add_log migrations migration_id
                                 "Migration completed successfully!" "success")
                          end
                      end
                  end
              end
          | v => (Raise (Py.no_attribute v "upper"), migrations)
          end
      end
  end.

(** [run_migration_pipeline]: the body, and the outer [except Exception]
    that marks the migration complete and failed. *)
Definition run_migration_pipeline (P : Pipeline) (migrations : gmap string Migration)
    (migration_id : string) (request : MigrationRequest) : step :=
  match pipeline_body P migrations migration_id request with
  | (Ok _, migrations) => (Ok tt, migrations)
  | (Raise e, migrations) =>
      if caught_by_except_Exception e then
        match update migrations migration_id
                (fun m => with_outcome m true false (Some (exn_str e))) with
        | Raise e' => (Raise e', migrations)
        | Ok migrations => (Ok tt, migrations)
        end
      else (Raise e, migrations)
  end.

End ApiServer.

(** ** Vocabulary of the statements *)

(** The ways one attempt of the retry controller fails, with the error it
    records: the artifact is empty or too short; the execution raises; the
    parsed envelope is a dict that does not report success and whose
    reported error is a string; the parsed value is not a dict at all. *)
Inductive attempt_fails (E : WorkerAgent.Env) (w : WorkerAgent.t) (task_id : string)
    (att : Z) (code : string) : json -> Prop :=
  | fails_insufficient :
      CodeFence.insufficient code = true ->
      attempt_fails E w task_id att code (JStr "LLM returned empty or insufficient code")
  | fails_execution (msg : string) (evs : list event) :
      CodeFence.insufficient code = false ->
      WorkerAgent.kernel_execute E w task_id att code = (Raise (PyException msg), evs) ->
      attempt_fails E w task_id att code (JStr msg)
  | fails_envelope (raw : string) (evs : list event) (kvs : list (string * json))
      (msg : string) :
      CodeFence.insufficient code = false ->
      WorkerAgent.kernel_execute E w task_id att code = (Ok raw, evs) ->
      WorkerAgent._parse_task_result E raw = JObj kvs ->
      Py.truthy (Py.lookup kvs "success") = false ->
      WorkerAgent.reported_error kvs = JStr msg ->
      attempt_fails E w task_id att code (JStr msg)
  | fails_not_a_dict (raw : string) (evs : list event) (v : json) :
      CodeFence.insufficient code = false ->
      WorkerAgent.kernel_execute E w task_id att code = (Ok raw, evs) ->
      WorkerAgent._parse_task_result E raw = v ->
      (forall kvs, v <> JObj kvs) ->
      attempt_fails E w task_id att code (JStr (exn_str (Py.no_attribute v "get"))).

(** Every attempt [1..n] of the task fails, whatever request it is sent. *)
Definition always_fails (E : WorkerAgent.Env) (w : WorkerAgent.t) (task_id : string)
    (n : Z) : Prop :=
  forall att messages, 1 <= att <= n ->
    exists response err,
      WorkerAgent.llm_create E task_id att messages = Ok response
      /\ attempt_fails E w task_id att (WorkerAgent._extract_code response) err.

(** [u] depends on [d]: [d] is a dependency recorded for [u], and [d] is
    itself a table of the input. *)
Definition depends_on (tables : list Table) (u d : string) : Prop :=
  exists D, MigrationExecutor.table_deps tables !! u = Some D /\ d ∈ D
            /\ d ∈ dom (MigrationExecutor.table_deps tables).

(** No table reaches itself through one or more dependencies. *)
Definition acyclic (tables : list Table) : Prop :=
  forall u, ~ tc (depends_on tables) u u.

(** [x] occurs before [y] in [l]. *)
Definition precedes (x y : string) (l : list string) : Prop :=
  exists l1 l2 l3, l = l1 ++ x :: l2 ++ y :: l3.

(** A set order for examples: the enumeration [elements] of stdpp. *)
Definition elements_order : SetOrder :=
  {| set_list := fun _ X => elements X;
     set_list_perm := fun _ X => reflexivity (elements X) |}.

(** A table with the given name and referred tables, and nothing else. *)
Definition table_referring (name : string) (refs : list string) : Table :=
  {| table_name := name; columns := []; primary_key := [];
     foreign_keys :=
       map (fun r => {| constrained_columns := ["id"]; referred_table := Some r;
                        referred_columns := ["id"]; fk_options := JNull |}) refs;
     row_count := None |}.

(** A table with one of its three sequences replaced. *)
Definition with_columns (t : Table) (cols : list Column) : Table :=
  {| table_name := table_name t; columns := cols; primary_key := primary_key t;
     foreign_keys := foreign_keys t; row_count := row_count t |}.

Definition with_primary_key (t : Table) (pk : list string) : Table :=
  {| table_name := table_name t; columns := columns t; primary_key := pk;
     foreign_keys := foreign_keys t; row_count := row_count t |}.

Definition with_foreign_keys (t : Table) (fks : list ForeignKey) : Table :=
  {| table_name := table_name t; columns := columns t; primary_key := primary_key t;
     foreign_keys := fks; row_count := row_count t |}.

(** The convergence detector fed one fingerprint per round: the counter
    and the verdict after each round. *)
Fixpoint detector_rounds (required : Z) (fingerprints : list (list SchemaAnalyzerAgent.Entry))
    (prev : option (list SchemaAnalyzerAgent.Entry)) (rounds : Z) : list (Z * bool) :=
  match fingerprints with
  | [] => []
  | fingerprint :: rest =>
      let '(rounds', prev', stable) :=
        SchemaAnalyzerAgent.check_stability required fingerprint prev rounds in
      (rounds', stable) :: detector_rounds required rest prev' rounds'
  end.

(** Events that use the session. *)
Definition uses_session (ev : event) : Prop :=
  match ev with
  | EvStart _ | EvExecute _ => True
  | _ => False
  end.

(** The log shows a shutdown after which the session is not used. *)
Definition shut_down (evs : list event) : Prop :=
  exists before after,
    evs = before ++ EvShutdown :: after /\ Forall (fun ev => ~ uses_session ev) after.

(** The collaborators behave as the execution phase expects (see the
    error taxonomy): the generation service answers every request, the
    kernel fails only with exceptions that [except Exception] catches, and
    a decoded envelope that does not report success carries its error (or
    message) as a string, as the envelope protocol says. *)
Definition cooperative (E : WorkerAgent.Env) : Prop :=
  (forall id att messages, exists response,
      WorkerAgent.llm_create E id att messages = Ok response)
  /\ (forall id att code e,
        WorkerAgent.kernel_run E id att code = Raise e ->
        caught_by_except_Exception e = true)
  /\ (forall text kvs,
        WorkerAgent.json_loads E text = inl (JObj kvs) ->
        Py.truthy (Py.lookup kvs "success") = false ->
        exists msg, WorkerAgent.reported_error kvs = JStr msg).

(** Was the unit of a log entry recorded as succeeded? *)
Definition entry_succeeded (entry : MigrationExecutor.LogEntry) : bool :=
  String.eqb (MigrationExecutor.log_status entry) "success".

(** [ready] is topologically valid: each of its elements comes after all
    of its dependencies that are tables of the input. *)
Definition valid_prefix (deps : gmap string (gset string)) (ready : list string) : Prop :=
  forall l1 u l2 D d,
    ready = l1 ++ u :: l2 -> deps !! u = Some D -> d ∈ D -> d ∈ dom deps -> d ∈ l1.

(** Every element of [rest] still waits for an element of [rest]. *)
Definition all_blocked (deps : gmap string (gset string)) (rest : list string) : Prop :=
  forall u, u ∈ rest -> exists D d, deps !! u = Some D /\ d ∈ D /\ d ∈ rest.

(** The order in which [sorted] puts two tables. *)
Definition name_le (t u : Table) : Prop :=
  String.leb (table_name t) (table_name u) = true.

(** The order in which [sorted] puts two fingerprint entries. *)
Definition entry_le (e f : SchemaAnalyzerAgent.Entry) : Prop :=
  String.leb (e.1.1.1.1) (f.1.1.1.1) = true.

(** Names identify the entities of [metadata]: two of its tables with
    the same name have the same fingerprint entry. *)
Definition names_identify (metadata : list Table) : Prop :=
  forall t u, t ∈ metadata -> u ∈ metadata -> table_name t = table_name u ->
    SchemaAnalyzerAgent.entry t = SchemaAnalyzerAgent.entry u.

(** The last error of the retry loop is absent or a string. *)
Definition tidy (st : WorkerAgent.Locals) : Prop :=
  WorkerAgent.last_error st = JNull \/ exists s, WorkerAgent.last_error st = JStr s.

(** ** Sample collaborators, for evaluating the model on concrete runs *)

Module Sample.
Import PyStr.

(** The double quote character, as a string. *)
Definition dq : string := String "034"%char EmptyString.

(** The text [{"success": true}]. *)
Definition success_json : string :=
  "{" +:+ dq +:+ "success" +:+ dq +:+ ": true}".

(** The text [{"success": false, "error": "boom"}]. *)
Definition failure_json : string :=
  "{" +:+ dq +:+ "success" +:+ dq +:+ ": false, " +:+ dq +:+ "error" +:+ dq +:+ ": "
  +:+ dq +:+ "boom" +:+ dq +:+ "}".

(** A decoder that knows the two texts above and rejects everything
    else the way [json.loads] rejects the text [{]. *)
Definition decode (text : string) : json + string :=
  if String.eqb text success_json then inl (JObj [("success", JBool true)])
  else if String.eqb text failure_json
       then inl (JObj [("success", JBool false); ("error", JStr "boom")])
       else inr "Expecting property name enclosed in double quotes: line 1 column 2 (char 1)".

(** An artifact long enough to be executed. *)
Definition artifact : string :=
  "import json" +:+ nl +:+ "print('TASK_RESULT_START')" +:+ nl
  +:+ "print(json.dumps({'success': True}))" +:+ nl +:+ "print('TASK_RESULT_END')".

Definition fenced (code : string) : string :=
  "```python" +:+ nl +:+ code +:+ nl +:+ "```".

Definition reports_success : string :=
  "Loaded 3 rows" +:+ nl +:+ WorkerAgent.RESULT_START +:+ nl +:+ success_json +:+ nl
  +:+ WorkerAgent.RESULT_END +:+ nl.

Definition context : WorkerAgent.Context :=
  {| WorkerAgent.source_db := JObj [("schema", JStr "ecommerce")];
     WorkerAgent.target_db := JObj [("schema", JStr "PUBLIC")];
     WorkerAgent.catalog :=
       [table_referring "orders" ["customers"]; table_referring "customers" []] |}.

(** The second unit never gets through: its first attempt yields no
    artifact, its later attempts fail in the kernel.  Every other unit
    succeeds on its first attempt. *)
Definition one_unit_fails : WorkerAgent.Env :=
  {| WorkerAgent.llm_create := fun id att _ =>
       Ok (if String.eqb id "2_extract_and_load_all_data" && (att =? 1)
           then "I cannot do that." else fenced artifact);
     WorkerAgent.kernel_run := fun id _ _ =>
       if String.eqb id "2_extract_and_load_all_data"
       then Raise (PyException "Kernel execution error: connection refused")
       else Ok reports_success;
     WorkerAgent.json_loads := decode;
     WorkerAgent.repr := fun _ => "<object>";
     WorkerAgent.system_prompt := fun description _ => "TASK: " +:+ description;
     WorkerAgent.first_prompt := fun description _ => "Execute this task: " +:+ description;
     WorkerAgent.fix_reminder := fun _ => "Fix the code." |}.

Definition worker : WorkerAgent.t :=
  {| WorkerAgent.max_attempts := 7; WorkerAgent.kernel := None |}.

Definition executor : MigrationExecutor.t :=
  {| MigrationExecutor.worker := worker; MigrationExecutor.self_execution_log := [] |}.

Definition describe (id : string) (order : list string) (tables : list Table) : string :=
  "MEGA-TASK " +:+ id.

(** A worker whose session is up. *)
Definition started_worker : WorkerAgent.t :=
  {| WorkerAgent.max_attempts := 7;
     WorkerAgent.kernel :=
       Some {| JupyterKernelSession.km := true; JupyterKernelSession.kc := true;
               JupyterKernelSession._started := true |} |}.

Definition customers : Table :=
  {| table_name := "customers";
     columns := [ {| col_name := "id"; col_type := "integer"; col_nullable := false;
                     col_default := JNull |};
                  {| col_name := "email"; col_type := "text"; col_nullable := true;
                     col_default := JNull |} ];
     primary_key := ["id"]; foreign_keys := []; row_count := Some 3 |}.

Definition orders : Table :=
  {| table_name := "orders";
     columns := [ {| col_name := "id"; col_type := "integer"; col_nullable := false;
                     col_default := JNull |};
                  {| col_name := "customer_id"; col_type := "integer";
                     col_nullable := false; col_default := JNull |} ];
     primary_key := ["id"];
     foreign_keys := [ {| constrained_columns := ["customer_id"];
                          referred_table := Some "customers";
                          referred_columns := ["id"]; fk_options := JNull |} ];
     row_count := Some 5 |}.

(** The kernel output of an inspection script. *)
Definition catalog_output : string :=
  SchemaAnalyzerAgent.RESULT_START +:+ nl +:+ "{...}" +:+ nl
  +:+ SchemaAnalyzerAgent.RESULT_END +:+ nl.

(** The first iteration discovers two tables; the request of the second
    iteration fails upstream. *)
Definition discovers_then_fails : SchemaAnalyzerAgent.Env :=
  {| SchemaAnalyzerAgent.llm_create := fun it _ =>
       if it =? 1 then Ok (fenced artifact)
       else Raise (PyException "upstream unavailable");
     SchemaAnalyzerAgent.kernel_run := fun _ _ => Ok catalog_output;
     SchemaAnalyzerAgent.json_loads := fun _ =>
       inl (SchemaAnalyzerAgent.PayloadDict [orders; customers] []);
     SchemaAnalyzerAgent.log_sink := fun _ _ _ => None;
     SchemaAnalyzerAgent.dump_markdown := fun _ _ _ _ => Ok "schema_analysis.md";
     SchemaAnalyzerAgent.dump_json := fun _ _ _ _ => Ok "schema_catalog.json";
     SchemaAnalyzerAgent.system_prompt := "You are an expert database schema analyzer agent.";
     SchemaAnalyzerAgent.first_prompt := "Generate Python code to analyze the database schema." |}.

(** Every iteration discovers the same two tables, in changing order. *)
Definition converges : SchemaAnalyzerAgent.Env :=
  {| SchemaAnalyzerAgent.llm_create := fun _ _ => Ok (fenced artifact);
     SchemaAnalyzerAgent.kernel_run := fun _ _ => Ok catalog_output;
     SchemaAnalyzerAgent.json_loads := fun _ =>
       inl (SchemaAnalyzerAgent.PayloadDict [orders; customers] []);
     SchemaAnalyzerAgent.log_sink := fun _ _ _ => None;
     SchemaAnalyzerAgent.dump_markdown := fun _ _ _ _ => Ok "schema_analysis.md";
     SchemaAnalyzerAgent.dump_json := fun _ _ _ _ => Ok "schema_catalog.json";
     SchemaAnalyzerAgent.system_prompt := "You are an expert database schema analyzer agent.";
     SchemaAnalyzerAgent.first_prompt := "Generate Python code to analyze the database schema." |}.

Definition analyzer : SchemaAnalyzerAgent.t :=
  {| SchemaAnalyzerAgent.max_iterations := 7;
     SchemaAnalyzerAgent.stable_rounds_required := 2 |}.

(** A planner whose generation service always answers. *)
Definition planner_env : PlannerAgent.Env :=
  {| PlannerAgent.client_create := fun _ _ _ => Ok "plan" |}.

Definition planner : PlannerAgent.t :=
  {| PlannerAgent.name := "Planner Alpha";
     PlannerAgent.system_prompt := "You plan migrations.";
     PlannerAgent.history := []; PlannerAgent.max_retries := 3 |}.

End Sample.

(** [sub] occurs in [s] at position [n]; [n] is the first such position
    from [start] on. *)
Definition occurs_at (sub s : string) (n : nat) : Prop :=
  String.substring n (String.length sub) s = sub.

Definition first_from (sub s : string) (start n : nat) : Prop :=
  (start <= n)%nat /\ occurs_at sub s n
  /\ forall p, (start <= p < n)%nat -> ~ occurs_at sub s p.


(** ** Vocabulary of the further properties

    Beside the control core, the development covers the IOPub loop of the
    kernel session, the entry point [analyze] of the schema analyzer with
    its extraction of the connection details, the planner debate, the
    extractor of the diagram generator, [config.py], the catalog picker of
    [run_migration.py] and the status store of [api_server.py]. *)

(** Counting the generation requests and the executions of an event log. *)
Definition is_request (ev : event) : bool :=
  match ev with EvRequest _ => true | _ => false end.

Definition is_execute (ev : event) : bool :=
  match ev with EvExecute _ => true | _ => false end.

Definition count_requests (evs : list event) : nat := length (List.filter is_request evs).

Definition count_executes (evs : list event) : nat := length (List.filter is_execute evs).

(** The messages of the IOPub channel that answer the request [msg_id]. *)
Definition addressed_to (msg_id : string) (msg : JupyterKernelSession.IopubMessage) : bool :=
  bool_decide (JupyterKernelSession.parent_msg_id msg = Some msg_id).

Definition is_error (msg : JupyterKernelSession.IopubMessage) : bool :=
  String.eqb (JupyterKernelSession.msg_type msg) "error".

Definition is_idle (msg : JupyterKernelSession.IopubMessage) : bool :=
  String.eqb (JupyterKernelSession.msg_type msg) "status"
  && bool_decide (JupyterKernelSession.execution_state msg = Some "idle"%string).

(** The text a message adds to the output: the text of a stream message,
    the non-empty plain text of an execution result. *)
Definition chunk_of (msg : JupyterKernelSession.IopubMessage) : list string :=
  if String.eqb (JupyterKernelSession.msg_type msg) "stream"
  then [default EmptyString (JupyterKernelSession.text msg)]
  else if String.eqb (JupyterKernelSession.msg_type msg) "execute_result"
  then match JupyterKernelSession.text_plain msg with
       | Some payload_text => if PyStr.truthy payload_text then [payload_text] else []
       | None => []
       end
  else [].

(** No message of [msgs] that answers [msg_id] ends the reply. *)
Definition reply_open (msg_id : string) (msgs : list JupyterKernelSession.IopubMessage)
    : Prop :=
  Forall (fun msg => addressed_to msg_id msg = true ->
                     is_error msg = false /\ is_idle msg = false) msgs.

(** An attempt of the retry controller succeeds: the artifact is long
    enough, its execution returns, and the parsed envelope reports
    success. *)
Definition attempt_succeeds (E : WorkerAgent.Env) (w : WorkerAgent.t) (task_id : string)
    (att : Z) (code : string) (envelope : list (string * json)) : Prop :=
  CodeFence.insufficient code = false
  /\ exists raw evs,
       WorkerAgent.kernel_execute E w task_id att code = (Ok raw, evs)
       /\ WorkerAgent._parse_task_result E raw = JObj envelope
       /\ Py.truthy (Py.lookup envelope "success") = true.

(** Every iteration of the discovery finds a catalog with the fingerprint
    [fp]: the generation service answers with code that is long enough,
    the kernel runs it, the payload decodes to a non-empty list of tables
    with that fingerprint, and the iteration is logged. *)
Definition steady (E : SchemaAnalyzerAgent.Env) (fp : list SchemaAnalyzerAgent.Entry)
    : Prop :=
  forall it messages, exists response raw tables rels,
    SchemaAnalyzerAgent.llm_create E it messages = Ok response
    /\ CodeFence.insufficient (SchemaAnalyzerAgent._extract_code response) = false
    /\ SchemaAnalyzerAgent.kernel_run E it (SchemaAnalyzerAgent._extract_code response)
       = Ok raw
    /\ SchemaAnalyzerAgent._parse_kernel_output E raw
       = Ok (SchemaAnalyzerAgent.PayloadDict tables rels)
    /\ tables <> []
    /\ SchemaAnalyzerAgent._build_fingerprint tables = fp
    /\ SchemaAnalyzerAgent.log_sink E it (SchemaAnalyzerAgent._extract_code response) raw
       = None.

(** The two report files can be written. *)
Definition dumps_succeed (E : SchemaAnalyzerAgent.Env) : Prop :=
  (forall tables rels it sat, exists name,
      SchemaAnalyzerAgent.dump_markdown E tables rels it sat = Ok name)
  /\ (forall tables rels it sat, exists name,
        SchemaAnalyzerAgent.dump_json E tables rels it sat = Ok name).

(** [t] is a contiguous part of [s]. *)
Definition part_of (t s : string) : Prop :=
  exists before after, s = before +:+ t +:+ after.

(** An occurrence of [sub] that begins inside a text [x] put in front of
    [sub] shows in [x] itself: [x] contains [g]. *)
Definition no_overlap (sub g : string) : Prop :=
  forall x rest, x <> EmptyString ->
    String.prefix sub (x +:+ sub +:+ rest) = true -> PyStr.contains g x = true.

(** A debate as a script: Alpha's initial plan [plan0] and, for each
    round, Beta's critique and Alpha's revision.  [script_turns] is the
    conversation this script leaves, [alpha_dialogue] and [beta_dialogue]
    what it adds to the histories of the two planners. *)
Definition script_turns (a b plan0 : string) (rounds : list (string * string))
    : list DebateRunner.Turn :=
  {| DebateRunner.speaker := a; DebateRunner.message := plan0 |}
  :: flat_map (fun cr => [ {| DebateRunner.speaker := b; DebateRunner.message := cr.1 |};
                           {| DebateRunner.speaker := a; DebateRunner.message := cr.2 |} ])
       rounds.

Definition alpha_revisions (E : DebateRunner.Env) (rounds : list (string * string))
    : list Message :=
  flat_map (fun cr => [ {| msg_role := User;
                           msg_content := DebateRunner.alpha_revision_prompt E cr.1 |};
                        {| msg_role := Assistant; msg_content := cr.2 |} ]) rounds.

Definition alpha_dialogue (E : DebateRunner.Env) (summary plan0 : string)
    (rounds : list (string * string)) : list Message :=
  [ {| msg_role := User; msg_content := DebateRunner.alpha_initial_prompt E summary |};
    {| msg_role := Assistant; msg_content := plan0 |} ]
  ++ alpha_revisions E rounds.

Fixpoint beta_dialogue (E : DebateRunner.Env) (plan : string)
    (rounds : list (string * string)) : list Message :=
  match rounds with
  | [] => []
  | (critique, revision) :: rest =>
      [ {| msg_role := User; msg_content := DebateRunner.beta_prompt E plan |};
        {| msg_role := Assistant; msg_content := critique |} ]
      ++ beta_dialogue E revision rest
  end.

(** No message of the conversation is blank. *)
Definition no_blank_turn (turns : list DebateRunner.Turn) : Prop :=
  Forall (fun t => PyStr.truthy (PyStr.strip (DebateRunner.message t)) = true) turns.

(** Every character of [s] satisfies [p]. *)
Definition all_chars (p : ascii -> bool) (s : string) : Prop :=
  Forall (fun c => p c = true) (list_ascii_of_string s).

(** The value the environment gives to [key], when it is set and not
    empty. *)
Definition environ_value (environ : gmap string string) (key : string) : option string :=
  match environ !! key with
  | Some value => if PyStr.truthy value then Some value else None
  | None => None
  end.

(** Several log lines added one after the other. *)
Definition add_logs (migrations : gmap string ApiServer.Migration) (migration_id : string)
    (lines : list ApiServer.LogLine) : gmap string ApiServer.Migration :=
  foldl (fun store line =>
           ApiServer.add_log store migration_id (ApiServer.log_message line)
             (ApiServer.log_type line)) migrations lines.

(** ** Further sample collaborators *)

Module Scenario.
Import PyStr.

(** Messages of the IOPub channel. *)
Definition stream_msg (parent text : string) : JupyterKernelSession.IopubMessage :=
  {| JupyterKernelSession.parent_msg_id := Some parent;
     JupyterKernelSession.msg_type := "stream";
     JupyterKernelSession.text := Some text;
     JupyterKernelSession.text_plain := None;
     JupyterKernelSession.traceback := None;
     JupyterKernelSession.execution_state := None |}.

Definition idle_msg (parent : string) : JupyterKernelSession.IopubMessage :=
  {| JupyterKernelSession.parent_msg_id := Some parent;
     JupyterKernelSession.msg_type := "status";
     JupyterKernelSession.text := None;
     JupyterKernelSession.text_plain := None;
     JupyterKernelSession.traceback := None;
     JupyterKernelSession.execution_state := Some "idle"%string |}.

(** The first attempt of every unit yields no artifact, the second one
    an artifact whose execution reports success. *)
Definition second_attempt_succeeds : WorkerAgent.Env :=
  {| WorkerAgent.llm_create := fun _ att _ =>
       Ok (if att =? 1 then "I cannot do that." else Sample.fenced Sample.artifact);
     WorkerAgent.kernel_run := fun _ _ _ => Ok Sample.reports_success;
     WorkerAgent.json_loads := Sample.decode;
     WorkerAgent.repr := fun _ => "<object>";
     WorkerAgent.system_prompt := fun description _ => "TASK: " +:+ description;
     WorkerAgent.first_prompt := fun description _ => "Execute this task: " +:+ description;
     WorkerAgent.fix_reminder := fun _ => "Fix the code." |}.

(** The connection details of the sample instructions. *)
Definition connection : json :=
  JObj [("db_type", JStr "postgresql"); ("host", JStr "db.example.com");
        ("schema", JStr "ecommerce")].

(** A reply of the extraction request that carries the configuration
    between its markers. *)
Definition extraction_reply : string :=
  "Here are the details." +:+ nl +:+ SchemaAnalyzerAgent.CONFIG_START +:+ nl +:+ "{...}"
  +:+ nl +:+ SchemaAnalyzerAgent.CONFIG_END +:+ nl.

Definition intake (reply : string) : SchemaAnalyzerAgent.Intake :=
  {| SchemaAnalyzerAgent.extract_create := fun _ => Ok reply;
     SchemaAnalyzerAgent.config_loads := fun text =>
       if String.eqb text "{...}" then inl connection
       else inr "Expecting value: line 1 column 1 (char 0)";
     SchemaAnalyzerAgent.extract_system_prompt := "You are a configuration extractor.";
     SchemaAnalyzerAgent.save_config := fun _ _ => None;
     SchemaAnalyzerAgent.analysis := fun _ => Sample.converges |}.

Definition agent : SchemaAnalyzerAgent.Agent :=
  {| SchemaAnalyzerAgent.settings := Sample.analyzer;
     SchemaAnalyzerAgent.instructions := "Analyze the ecommerce schema on db.example.com";
     SchemaAnalyzerAgent.run_folder := None |}.

(** A debate of two planners that always answer. *)
Definition critic : PlannerAgent.t :=
  {| PlannerAgent.name := "Planner Beta";
     PlannerAgent.system_prompt := "You review migration plans.";
     PlannerAgent.history := []; PlannerAgent.max_retries := 3 |}.

Definition debate_env : DebateRunner.Env :=
  {| DebateRunner.alpha_client := Sample.planner_env;
     DebateRunner.beta_client :=
       {| PlannerAgent.client_create := fun _ _ _ => Ok "critique" |};
     DebateRunner._summarize_catalog := fun _ => Ok "Schema: ecommerce";
     DebateRunner.alpha_initial_prompt := fun summary => "Plan this: " +:+ summary;
     DebateRunner.beta_prompt := fun plan => "Review this: " +:+ plan;
     DebateRunner.alpha_revision_prompt := fun critique => "Revise against: " +:+ critique |}.

Definition runner (max_rounds : Z) : DebateRunner.t :=
  {| DebateRunner.planner_alpha := Sample.planner;
     DebateRunner.planner_beta := critic;
     DebateRunner.max_rounds := max_rounds |}.

Definition catalog : list (string * json) :=
  [("schema", JStr "ecommerce"); ("tables", JArr [])].

(** An environment that sets the API key and an endpoint with a trailing
    slash. *)
Definition environ : gmap string string :=
  <["AZURE_OPENAI_API_KEY" := "secret"]>
    (<["AZURE_OPENAI_ENDPOINT" := "https://example.openai.azure.com/"]> ∅).

End Scenario.

(** * Theorems *)

(** ** Retry controller *)

Lemma last_nonempty_default {A} (x : A) (l : list A) (d d' : A) :
  List.last (x :: l) d = List.last (x :: l) d'.
Proof. revert x. induction l as [|y l IH]; intros x; [done|]. cbn in *. apply IH. Qed.

Section RetryController.
Import WorkerAgent.
Variables (E : Env) (w : t) (task_id task_description : string) (context : Context).

(** A failed attempt leaves the loop with [Next], records its error and
    the attempt number, and keeps [success] as it was. *)
Lemma attempt_body_fails att st messages response err :
  request_messages E task_description context att (last_error st) (last_output st)
    (conversation st) = Ok messages ->
  llm_create E task_id att messages = Ok response ->
  attempt_fails E w task_id att (_extract_code response) err ->
  exists st' evs,
    attempt_body E w task_id task_description context att st = (Ok (st', Next), evs)
    /\ last_error st' = err /\ attempt st' = att /\ success st' = success st.
Proof.
  intros Hreq Hllm Hfail.
  unfold attempt_body, _ask_llm_for_code. cbn [last_error last_output conversation].
  rewrite Hreq, Hllm.
  inversion Hfail as [Hins | msg evs Hins Hrun | raw evs kvs msg Hins Hrun Hparse Hflag Herr
                     | raw evs v Hins Hrun Hparse Hnd]; subst; rewrite Hins.
  - eauto 10.
  - rewrite Hrun. cbn. eauto 10.
  - rewrite Hrun, Hparse, Hflag, Herr. eauto 10.
  - rewrite Hrun. destruct (_parse_task_result E raw) eqn:Hp; try (cbn; eauto 10).
    exfalso. eapply Hnd. reflexivity.
Qed.

(** A request can always be built when the last error is absent or a
    string. *)
Lemma request_messages_ok att err out conv :
  (err = JNull \/ exists s, err = JStr s) ->
  exists messages, request_messages E task_description context att err out conv = Ok messages.
Proof.
  intros Herr. unfold request_messages.
  destruct (att =? 1); [eauto|].
  destruct Herr as [-> | [s ->]]; cbn; [eauto|].
  destruct (PyStr.truthy s); eauto.
Qed.

Lemma attempt_fails_str att code err :
  attempt_fails E w task_id att code err -> exists s, err = JStr s.
Proof. destruct 1; eauto. Qed.

(** The loop over attempts that all fail runs through every attempt. *)
Lemma attempts_loop_all_fail n atts st :
  always_fails E w task_id n ->
  Forall (fun a => 1 <= a <= n) atts ->
  (last_error st = JNull \/ exists s, last_error st = JStr s) ->
  exists st' evs,
    attempts_loop E w task_id task_description context atts st = (Ok st', evs)
    /\ success st' = success st
    /\ attempt st' = List.last atts (attempt st)
    /\ (atts <> [] ->
        exists messages response,
          llm_create E task_id (attempt st') messages = Ok response
          /\ attempt_fails E w task_id (attempt st') (_extract_code response)
               (last_error st')).
Proof.
  intros Hall Hatts. revert st.
  induction Hatts as [|a atts Ha Hatts IH]; intros st Hst.
  - exists st, []. cbn. repeat split; try done.
  - destruct (request_messages_ok a (last_error st) (last_output st) (conversation st) Hst)
      as [messages Hreq].
    destruct (Hall a messages Ha) as (response & err & Hllm & Hfail).
    destruct (attempt_body_fails a st messages response err Hreq Hllm Hfail)
      as (st1 & evs1 & Hbody & Herr & Hatt & Hsucc).
    assert (Hst1 : last_error st1 = JNull \/ exists s, last_error st1 = JStr s).
    { right. rewrite Herr. eapply attempt_fails_str, Hfail. }
    destruct (IH st1 Hst1) as (st2 & evs2 & Hloop & Hsucc2 & Hatt2 & Hlast2).
    exists st2, (evs1 ++ evs2). cbn [attempts_loop]. rewrite Hbody, Hloop.
    split; [done|]. split; [congruence|]. split.
    + rewrite Hatt2, Hatt. destruct atts as [|b atts']; [reflexivity|].
      change (List.last (a :: b :: atts') (attempt st))
        with (List.last (b :: atts') (attempt st)).
      apply last_nonempty_default.
    + intros _. destruct atts as [|b atts'].
      * cbn in Hloop. injection Hloop as <- <-. rewrite Hatt, Herr. eauto.
      * apply Hlast2. done.
Qed.

End RetryController.

Lemma range_bounds a b : Forall (fun i => a <= i <= b - 1) (Py.range a b).
Proof.
  unfold Py.range. apply List.Forall_forall. intros x Hx.
  apply in_map_iff in Hx as (i & <- & Hi). apply in_seq in Hi. lia.
Qed.

Lemma range_last a b d : a < b -> List.last (Py.range a b) d = b - 1.
Proof.
  intros Hab. unfold Py.range.
  replace (Z.to_nat (b - a)) with (S (Z.to_nat (b - a - 1))) by lia.
  rewrite seq_S, map_app. cbn [map]. rewrite last_last. lia.
Qed.

Lemma range_empty a b : b <= a -> Py.range a b = [].
Proof. intros Hab. unfold Py.range. replace (Z.to_nat (b - a)) with 0%nat by lia. done. Qed.



(** With a budget of zero or less the loop body never runs: no attempt is
    made, and the outcome has [attempts = 0] and no error. *)
Lemma execute_task_no_attempts (E : WorkerAgent.Env) (w : WorkerAgent.t)
    (task_id task_description : string) (context : WorkerAgent.Context) :
  WorkerAgent.max_attempts w <= 0 ->
  WorkerAgent.execute_task E w task_id task_description context
  = (Ok {| WorkerAgent.out_task_id := task_id; WorkerAgent.out_success := false;
           WorkerAgent.out_attempts := 0; WorkerAgent.out_result := JObj [];
           WorkerAgent.out_last_error := JNull |}, []).
Proof.
  intros Hmax. unfold WorkerAgent.execute_task. by rewrite range_empty by lia.
Qed.

(** The follow-up message slices the last error: an error that is neither
    a string nor a list makes the request builder raise. *)
Lemma request_messages_needs_text (E : WorkerAgent.Env) (task_description : string)
    (context : WorkerAgent.Context) (conversation : list Message) :
  WorkerAgent.request_messages E task_description context 2 (JNum 500) None conversation
  = Raise (PyException "'int' object is not subscriptable").
Proof. reflexivity. Qed.

(** ** Context window *)

Lemma last_n_length {A} (k : nat) (l : list A) : (length (Py.last_n k l) <= k)%nat.
Proof. unfold Py.last_n. rewrite length_drop. lia. Qed.

Lemma last_n_suffix {A} (k : nat) (l : list A) : Py.last_n k l `suffix_of` l.
Proof. unfold Py.last_n. apply suffix_drop. Qed.

(** Each instruction adds two messages to the history. *)
Lemma send_instruction_history E p instruction reply p' evs :
  PlannerAgent.send_instruction E p instruction = (Ok (reply, p'), evs) ->
  PlannerAgent.history p'
  = PlannerAgent.history p
    ++ [{| msg_role := User; msg_content := instruction |};
        {| msg_role := Assistant; msg_content := reply |}].
Proof.
  unfold PlannerAgent.send_instruction.
  destruct (PlannerAgent.retry_loop _ _ _ _ _) as [[r|e] evs']; [|discriminate].
  intros [= <- <- <-]. reflexivity.
Qed.

Lemma planner_env_send p instruction :
  1 <= PlannerAgent.max_retries p ->
  exists p' evs,
    PlannerAgent.send_instruction Sample.planner_env p instruction = (Ok ("plan"%string, p'), evs)
    /\ PlannerAgent.max_retries p' = PlannerAgent.max_retries p.
Proof.
  intros Hr. unfold PlannerAgent.send_instruction, Py.range.
  replace (Z.to_nat (PlannerAgent.max_retries p + 1 - 1))
    with (S (Z.to_nat (PlannerAgent.max_retries p - 1))) by lia.
  cbn. eauto.
Qed.

Lemma planner_env_send_all instructions : forall p,
  1 <= PlannerAgent.max_retries p ->
  exists p',
    PlannerAgent.send_all Sample.planner_env p instructions = Ok p'
    /\ length (PlannerAgent.history p')
       = (length (PlannerAgent.history p) + 2 * length instructions)%nat.
Proof.
  induction instructions as [|i rest IH]; intros p Hr.
  - exists p. cbn. split; [done|lia].
  - destruct (planner_env_send p i Hr) as (p1 & evs & Hsend & Hr1).
    destruct (IH p1 ltac:(lia)) as (p2 & Hall & Hlen).
    exists p2. cbn [PlannerAgent.send_all]. rewrite Hsend. split; [done|].
    rewrite Hlen, (send_instruction_history _ _ _ _ _ _ Hsend), length_app. cbn. lia.
Qed.

(** The planner's request carries the whole history: no constant bounds
    the number of earlier turns in it. *)
Lemma planner_context_unbounded :
  ~ exists K : nat,
      forall (E : PlannerAgent.Env) (p p' : PlannerAgent.t) (instructions : list string)
             (instruction : string) (earlier : list Message),
        PlannerAgent.send_all E p instructions = Ok p' ->
        PlannerAgent.request_messages p' instruction
        = [{| msg_role := System; msg_content := PlannerAgent.system_prompt p' |}]
          ++ earlier ++ [{| msg_role := User; msg_content := instruction |}] ->
        (length earlier <= K)%nat.
Proof.
  intros [K HK].
  destruct (planner_env_send_all (replicate (S K) "go"%string) Sample.planner ltac:(cbn; lia))
    as (p' & Hall & Hlen).
  specialize (HK Sample.planner_env Sample.planner p' _ "next"%string (PlannerAgent.history p') Hall eq_refl).
  rewrite Hlen, length_replicate in HK. cbn in HK. lia.
Qed.

(** C8 (amended).  The worker's request after the first attempt is the
    system prompt, the last four turns of the conversation and at most
    one follow-up message; the schema analyzer's is the system prompt, the
    last eight turns and one follow-up message; the planner's is the
    system prompt, its whole history and the instruction, and each
    instruction adds two turns to that history. *)
Theorem request_context_window :
  (forall E task_description context attempt last_error last_output conversation messages,
      attempt <> 1 ->
      WorkerAgent.request_messages E task_description context attempt last_error
        last_output conversation = Ok messages ->
      exists follow_up,
        messages
        = [{| msg_role := System;
              msg_content := WorkerAgent.system_prompt E task_description context |}]
          ++ Py.last_n 4 conversation ++ follow_up
        /\ Py.last_n 4 conversation `suffix_of` conversation
        /\ (length (Py.last_n 4 conversation) <= 4)%nat
        /\ (length follow_up <= 1)%nat)
  /\ (forall E iteration last_error conversation,
        iteration <> 1 ->
        exists follow_up,
          SchemaAnalyzerAgent.request_messages E iteration last_error conversation
          = [{| msg_role := System; msg_content := SchemaAnalyzerAgent.system_prompt E |}]
            ++ Py.last_n 8 conversation ++ [follow_up]
          /\ Py.last_n 8 conversation `suffix_of` conversation
          /\ (length (Py.last_n 8 conversation) <= 8)%nat)
  /\ (forall E p instruction reply p' evs,
        PlannerAgent.request_messages p instruction
        = [{| msg_role := System; msg_content := PlannerAgent.system_prompt p |}]
          ++ PlannerAgent.history p ++ [{| msg_role := User; msg_content := instruction |}]
        /\ (PlannerAgent.send_instruction E p instruction = (Ok (reply, p'), evs) ->
            length (PlannerAgent.history p') = (length (PlannerAgent.history p) + 2)%nat)).
Proof.
  split; [|split].
  - intros E td ctx att err out conv messages Hne Hreq.
    unfold WorkerAgent.request_messages in Hreq.
    destruct (att =? 1) eqn:Hatt; [lia|].
    destruct (Py.truthy err).
    + destruct (Py.slice_upto 1500 err) as [v|e]; [|discriminate].
      injection Hreq as <-. eexists [_].
      repeat split; [apply last_n_suffix|apply last_n_length|cbn; lia].
    + injection Hreq as <-. exists []. rewrite app_nil_r.
      repeat split; [apply last_n_suffix|apply last_n_length|cbn; lia].
  - intros E it err conv Hne. unfold SchemaAnalyzerAgent.request_messages.
    destruct (it =? 1) eqn:Hit; [lia|].
    destruct err as [err|]; [destruct (PyStr.truthy err)|];
      (eexists; repeat split; [apply last_n_suffix|apply last_n_length]).
  - intros E p instruction reply p' evs. split; [reflexivity|].
    intros Hsend. rewrite (send_instruction_history _ _ _ _ _ _ Hsend), length_app.
    cbn. lia.
Qed.

(** ** Dependency orderer *)

Section DependencyOrderer.
Import MigrationExecutor.

(** *** Self-dependencies *)

Lemma deps_of_fold_not_self (t : Table) (fks : list ForeignKey) (acc : gset string) :
  table_name t ∉ acc ->
  table_name t ∉
    foldl (fun deps fk =>
             match referred_table fk with
             | Some ref_table =>
                 if PyStr.truthy ref_table && negb (String.eqb ref_table (table_name t))
                 then deps ∪ {[ref_table]} else deps
             | None => deps
             end) acc fks.
Proof.
  revert acc. induction fks as [|fk fks IH]; intros acc Hacc; [done|].
  cbn [foldl]. apply IH.
  destruct (referred_table fk) as [r|]; [|done].
  destruct (PyStr.truthy r); cbn; [|done].
  destruct (String.eqb r (table_name t)) eqn:Heq; cbn; [done|].
  apply String.eqb_neq in Heq. set_solver.
Qed.

Lemma deps_of_not_self (t : Table) : table_name t ∉ deps_of t.
Proof. apply deps_of_fold_not_self. set_solver. Qed.

Lemma table_deps_fold_spec (tables : list Table) (m : gmap string (gset string)) u D :
  foldl (fun m t => <[table_name t := deps_of t]> m) m tables !! u = Some D ->
  m !! u = Some D \/ exists t, t ∈ tables /\ table_name t = u /\ D = deps_of t.
Proof.
  revert m. induction tables as [|t tables IH]; intros m H; [by left|].
  cbn [foldl] in H. apply IH in H as [H | (t' & Hin & Hn & HD)].
  - destruct (decide (table_name t = u)) as [Heq|Hne].
    + rewrite Heq, lookup_insert_eq in H. injection H as <-.
      right. exists t. split; [left|done].
    + rewrite lookup_insert_ne in H by done. by left.
  - right. exists t'. split; [by right|done].
Qed.

Lemma table_deps_spec (tables : list Table) u D :
  table_deps tables !! u = Some D ->
  exists t, t ∈ tables /\ table_name t = u /\ D = deps_of t.
Proof.
  intros H. apply table_deps_fold_spec in H as [H|H]; [|done].
  by rewrite lookup_empty in H.
Qed.

Lemma table_deps_fold_dom (tables : list Table) (m : gmap string (gset string)) :
  dom (foldl (fun m t => <[table_name t := deps_of t]> m) m tables)
  = dom m ∪ list_to_set (map table_name tables).
Proof.
  revert m. induction tables as [|t tables IH]; intros m; cbn [foldl map list_to_set].
  - set_solver.
  - rewrite IH, dom_insert_L. set_solver.
Qed.

Lemma table_deps_dom (tables : list Table) :
  dom (table_deps tables) = list_to_set (map table_name tables).
Proof. unfold table_deps. rewrite table_deps_fold_dom, dom_empty_L. set_solver. Qed.

(** *** The inner scan *)

Lemma first_ready_some deps remaining candidates t :
  first_ready deps remaining candidates = Ok (Some t) ->
  t ∈ candidates /\ exists D, deps !! t = Some D /\ D ∩ remaining = ∅.
Proof.
  induction candidates as [|c cs IH]; cbn; [done|].
  destruct (deps !! c) as [D|] eqn:Hc; [|done].
  destruct (decide (D ∩ remaining = ∅)) as [Hd|Hd].
  - intros [= <-]. split; [left|eauto].
  - intros H. apply IH in H as [Hin HD]. split; [by right|done].
Qed.

Lemma first_ready_none deps remaining candidates :
  first_ready deps remaining candidates = Ok None ->
  forall t, t ∈ candidates -> exists D, deps !! t = Some D /\ D ∩ remaining <> ∅.
Proof.
  induction candidates as [|c cs IH]; cbn; intros H t Ht.
  - by apply elem_of_nil in Ht.
  - destruct (deps !! c) as [D|] eqn:Hc; [|done].
    destruct (decide (D ∩ remaining = ∅)) as [Hd|Hd]; [done|].
    apply elem_of_cons in Ht as [->|Ht]; [eauto|]. by apply IH.
Qed.

Lemma first_ready_raise deps remaining candidates e :
  first_ready deps remaining candidates = Raise e ->
  exists t, t ∈ candidates /\ deps !! t = None.
Proof.
  induction candidates as [|c cs IH]; cbn; [done|].
  destruct (deps !! c) as [D|] eqn:Hc.
  - destruct (decide (D ∩ remaining = ∅)); [done|].
    intros H. apply IH in H as (t & Ht & Hn). exists t. split; [by right|done].
  - intros _. exists c. split; [left|done].
Qed.

(** *** The loop *)

Lemma valid_prefix_snoc deps ready t D :
  valid_prefix deps ready ->
  t ∉ ready ->
  deps !! t = Some D ->
  (forall d, d ∈ D -> d ∈ dom deps -> d ∈ ready) ->
  valid_prefix deps (ready ++ [t]).
Proof.
  intros Hv Hnot Ht Hd l1 u l2 D' d Heq Hu HdD Hdom.
  destruct l2 as [|x l2 _] using rev_ind.
  - apply app_inj_tail in Heq as [-> ->]. rewrite Ht in Hu. injection Hu as <-. by apply Hd.
  - rewrite app_comm_cons, app_assoc in Heq. apply app_inj_tail in Heq as [-> ->].
    by eapply Hv.
Qed.

Lemma topo_loop_spec (O : SetOrder) (deps : gmap string (gset string)) (fuel : nat) :
  forall (remaining : gset string) (ready : list string),
    (size remaining <= fuel)%nat ->
    remaining ⊆ dom deps ->
    NoDup ready ->
    (forall x, x ∈ ready <-> x ∈ dom deps /\ x ∉ remaining) ->
    valid_prefix deps ready ->
    exists order ready' rest,
      topo_loop O deps fuel remaining ready = Returns order
      /\ order = ready' ++ rest
      /\ NoDup order
      /\ (forall x, x ∈ order <-> x ∈ dom deps)
      /\ valid_prefix deps ready'
      /\ all_blocked deps rest
      /\ rest = set_list O (length ready') (list_to_set rest).
Proof.
  induction fuel as [|fuel IH]; intros remaining ready Hfuel Hsub Hnd Hset Hvalid.
  - assert (remaining = ∅) as -> by (apply leibniz_equiv, size_empty_iff; lia).
    exists ready, ready, []. cbn. rewrite app_nil_r.
    repeat split; try done.
    + intros Hx. by apply Hset in Hx as [? _].
    + intros Hx. apply Hset. set_solver.
    + intros u Hu. by apply elem_of_nil in Hu.
    + pose proof (set_list_perm O (length ready) (∅ : gset string)) as Hp.
      rewrite elements_empty in Hp. by apply Permutation_nil_r in Hp.
  - cbn [topo_loop]. destruct (decide (remaining = ∅)) as [->|Hne].
    + exists ready, ready, []. rewrite app_nil_r.
      repeat split; try done.
      * intros Hx. by apply Hset in Hx as [? _].
      * intros Hx. apply Hset. set_solver.
      * intros u Hu. by apply elem_of_nil in Hu.
      * pose proof (set_list_perm O (length ready) (∅ : gset string)) as Hp.
        cbn [list_to_set]. rewrite elements_empty in Hp. by apply Permutation_nil_r in Hp.
    + pose proof (set_list_perm O (length ready) remaining) as Hperm.
      set (candidates := set_list O (length ready) remaining) in *.
      assert (Hcand : forall x, x ∈ candidates <-> x ∈ remaining).
      { intros x. rewrite Hperm. apply elem_of_elements. }
      destruct (first_ready deps remaining candidates) as [[t|]|e] eqn:Hfr.
      * apply first_ready_some in Hfr as (Hin & D & Ht & HD).
        apply Hcand in Hin.
        assert (Hnot : t ∉ ready).
        { intros Hr. apply Hset in Hr as [_ Hr]. done. }
        destruct (IH (remaining ∖ {[t]}) (ready ++ [t]))
          as (order & ready' & rest & Hloop & Hrest); try done.
        -- assert (size remaining = S (size (remaining ∖ {[t]}))) as Hs.
           { rewrite size_difference by set_solver. rewrite size_singleton.
             assert (size remaining <> 0)%nat
               by (intros ?%size_empty_iff%leibniz_equiv; done).
             lia. }
           lia.
        -- set_solver.
        -- apply NoDup_app. repeat split; [done| |apply NoDup_singleton].
           intros x Hx Hx'. apply list_elem_of_singleton in Hx' as ->. done.
        -- intros x. rewrite elem_of_app, list_elem_of_singleton, Hset.
           split.
           ++ intros [[Hd Hr] | ->]; [set_solver|]. split; [by apply Hsub|set_solver].
           ++ intros [Hd Hr]. destruct (decide (x = t)) as [->|Hxt]; [by right|].
              left. split; [done|set_solver].
        -- eapply valid_prefix_snoc; [done..|].
           intros d HdD Hdom. apply Hset. split; [done|]. set_solver.
        -- exists order, ready', rest. done.
      * exists (ready ++ candidates), ready, candidates.
        assert (Hl2s : list_to_set candidates = remaining).
        { apply set_eq. intros x. rewrite elem_of_list_to_set. apply Hcand. }
        repeat split; try done.
        -- apply NoDup_app. repeat split; [done| |].
           ++ intros x Hx Hx'. apply Hset in Hx as [_ Hx]. by apply Hcand in Hx'.
           ++ rewrite Hperm. apply NoDup_elements.
        -- rewrite elem_of_app, Hset, Hcand. intros [[? _]|?]; [done|by apply Hsub].
        -- rewrite elem_of_app, Hset, Hcand. intros Hx.
           destruct (decide (x ∈ remaining)); [by right|by left].
        -- intros u Hu. destruct (first_ready_none _ _ _ Hfr u Hu) as (D & HuD & Hne').
           apply set_choose_L in Hne' as [d Hd]. exists D, d.
           split; [done|]. split; [set_solver|]. apply Hcand. set_solver.
        -- by rewrite Hl2s.
      * apply first_ready_raise in Hfr as (t & Ht & Hnone).
        apply Hcand, Hsub, elem_of_dom in Ht as [D Ht]. congruence.
Qed.

(** *** Acyclic graphs *)

(** In an acyclic graph every non-empty set of tables has a member none of
    whose dependencies is in the set. *)
Lemma acyclic_sink (tables : list Table) :
  acyclic tables ->
  forall (n : nat) (S : gset string) (x : string),
    size S = n -> S ⊆ dom (table_deps tables) -> x ∈ S ->
    exists y, y ∈ S /\ rtc (depends_on tables) x y
              /\ forall D, table_deps tables !! y = Some D -> D ∩ S = ∅.
Proof.
  intros Hacyc. induction n as [|n IH]; intros S x Hsize Hsub Hx.
  - apply size_empty_iff in Hsize. set_solver.
  - destruct (proj1 (elem_of_dom _ _) (Hsub _ Hx)) as [D HD].
    destruct (decide (D ∩ S = ∅)) as [Hempty|Hne].
    + exists x. split; [done|]. split; [done|]. intros D' HD'. congruence.
    + apply set_choose_L in Hne as [z Hz].
      assert (Hxz : depends_on tables x z).
      { exists D. split; [done|]. split; [set_solver|]. apply Hsub. set_solver. }
      assert (z <> x) as Hzx.
      { intros ->. eapply Hacyc. apply tc_once, Hxz. }
      destruct (IH (S ∖ {[x]}) z) as (y & Hy & Hzy & Hsink).
      * assert (size S = Datatypes.S (size (S ∖ {[x]}))) as Hs.
        { rewrite size_difference by set_solver. rewrite size_singleton. lia. }
        lia.
      * set_solver.
      * set_solver.
      * exists y. split; [set_solver|]. split; [by eapply rtc_l|].
        intros D' HD'. apply set_eq. intros d. split; [|set_solver].
        intros Hd. destruct (decide (d = x)) as [->|Hdx].
        -- exfalso. eapply (Hacyc x). eapply tc_l; [exact Hxz|].
           eapply tc_rtc_l; [exact Hzy|]. apply tc_once.
           exists D'. split; [done|]. split; [set_solver|]. by apply Hsub.
        -- specialize (Hsink D' HD'). set_solver.
Qed.

Lemma acyclic_no_blocked (tables : list Table) (rest : list string) :
  acyclic tables ->
  (forall x, x ∈ rest -> x ∈ dom (table_deps tables)) ->
  all_blocked (table_deps tables) rest ->
  rest = [].
Proof.
  intros Hacyc Hdom Hblocked. destruct rest as [|x rest']; [done|]. exfalso.
  set (rest := x :: rest') in *.
  destruct (acyclic_sink tables Hacyc _ (list_to_set rest) x eq_refl)
    as (y & Hy & _ & Hsink).
  - intros u Hu. apply elem_of_list_to_set in Hu. by apply Hdom.
  - apply elem_of_list_to_set. left.
  - apply elem_of_list_to_set in Hy.
    destruct (Hblocked y Hy) as (D & d & HD & Hd & Hdr).
    specialize (Hsink D HD). apply (elem_of_list_to_set (C := gset string)) in Hdr. set_solver.
Qed.

Lemma valid_prefix_precedes deps (ready : list string) u d D :
  valid_prefix deps ready -> u ∈ ready ->
  deps !! u = Some D -> d ∈ D -> d ∈ dom deps ->
  precedes d u ready.
Proof.
  intros Hv Hu HD Hd Hdom.
  apply list_elem_of_split in Hu as (l1 & l2 & ->).
  pose proof (Hv l1 u l2 D d eq_refl HD Hd Hdom) as Hin.
  apply list_elem_of_split in Hin as (l3 & l4 & ->).
  exists l3, l4, l2. by rewrite <- app_assoc.
Qed.

End DependencyOrderer.

Lemma ordered_tables_returns (O : SetOrder) (tables : list Table) :
  exists order, MigrationExecutor.ordered_tables O tables = Returns order.
Proof.
  unfold MigrationExecutor.ordered_tables.
  destruct (topo_loop_spec O (MigrationExecutor.table_deps tables)
              (size (dom (MigrationExecutor.table_deps tables)))
              (dom (MigrationExecutor.table_deps tables)) [])
    as (order & _ & _ & Hloop & _); try done.
  - apply NoDup_nil_2.
  - intros x. split; [by intros ?%elem_of_nil|]. set_solver.
  - intros l1 u l2 D d Heq. by destruct l1.
  - eauto.
Qed.

(** C2 (amended).  The dependency orderer of [_build_mega_tasks]: no table
    depends on itself; the ordering always returns (it neither raises nor
    runs out of passes) and lists every table name of the input exactly
    once; it is a block [ready], in which every table comes after all of
    its dependencies that are tables of the input, followed by a block
    [rest] of tables each of which waits for another table of [rest],
    listed in the order in which the set of remaining names is enumerated;
    for an acyclic graph [rest] is empty, so every dependency precedes
    its dependent in the output. *)
Theorem dependency_order (O : SetOrder) (tables : list Table) :
  (forall u D, MigrationExecutor.table_deps tables !! u = Some D -> u ∉ D)
  /\ exists order ready rest,
      MigrationExecutor.ordered_tables O tables = Returns order
      /\ NoDup order
      /\ (forall x, x ∈ order <-> x ∈ map table_name tables)
      /\ order = ready ++ rest
      /\ (forall u d, u ∈ ready -> depends_on tables u d -> precedes d u ready)
      /\ (forall u, u ∈ rest -> exists d, d ∈ rest /\ depends_on tables u d)
      /\ rest = set_list O (length ready) (list_to_set rest)
      /\ (acyclic tables ->
          rest = []
          /\ forall u d, depends_on tables u d -> precedes d u order).
Proof.
  split.
  - intros u D HD. apply table_deps_spec in HD as (t & _ & <- & ->).
    apply deps_of_not_self.
  - unfold MigrationExecutor.ordered_tables.
    destruct (topo_loop_spec O (MigrationExecutor.table_deps tables)
                (size (dom (MigrationExecutor.table_deps tables)))
                (dom (MigrationExecutor.table_deps tables)) [])
      as (order & ready & rest & Hloop & Horder & Hnd & Hdom & Hvalid & Hblocked & Hrest);
      try done.
    { apply NoDup_nil_2. }
    { intros x. split; [by intros ?%elem_of_nil|]. set_solver. }
    { intros l1 u l2 D d Heq. by destruct l1. }
    exists order, ready, rest. split; [done|]. split; [done|].
    split.
    { intros x. rewrite Hdom, table_deps_dom, elem_of_list_to_set. done. }
    split; [done|].
    assert (Hready : forall u d, u ∈ ready -> depends_on tables u d -> precedes d u ready).
    { intros u d Hu (D & HD & Hd & Hdomd). by eapply valid_prefix_precedes. }
    split; [done|].
    assert (Hrestdom : forall x, x ∈ rest -> x ∈ dom (MigrationExecutor.table_deps tables)).
    { intros x Hx. apply Hdom. rewrite Horder. apply elem_of_app. by right. }
    split.
    { intros u Hu. destruct (Hblocked u Hu) as (D & d & HD & Hd & Hdr).
      exists d. split; [done|]. exists D. split; [done|]. split; [done|]. by apply Hrestdom. }
    split; [done|].
    intros Hacyc.
    assert (rest = []) as Hnil by (by eapply acyclic_no_blocked).
    split; [done|].
    intros u d Hdep. subst rest. rewrite app_nil_r in Horder. subst order.
    apply Hready; [|done].
    apply Hdom. destruct Hdep as (D & HD & _). apply elem_of_dom. eauto.
Qed.

(** The two-cycle [B -> A], [A -> B], listed as [B; A]: both tables wait
    for each other, the enumeration of the set of remaining names yields
    [A; B], and that, not the input order, is the output. *)
Lemma cyclic_remainder_not_in_input_order :
  let tables := [table_referring "B" ["A"]; table_referring "A" ["B"]]%string in
  depends_on tables "A" "B" /\ depends_on tables "B" "A"
  /\ map table_name tables = ["B"; "A"]%string
  /\ MigrationExecutor.ordered_tables elements_order tables = Returns ["A"; "B"]%string
  /\ MigrationExecutor.ordered_tables elements_order tables
     <> Returns (map table_name tables).
Proof.
  cbn zeta. split; [|split; [|split; [|split]]].
  - exists {["B"%string]}. split; [by vm_compute|]. split; [set_solver|].
    rewrite table_deps_dom. cbn. set_solver.
  - exists {["A"%string]}. split; [by vm_compute|]. split; [set_solver|].
    rewrite table_deps_dom. cbn. set_solver.
  - reflexivity.
  - by vm_compute.
  - by vm_compute.
Qed.

(** ** Fingerprint *)

(** *** The order on names *)

Lemma string_leb_trans a : forall b c,
  String.leb a b = true -> String.leb b c = true -> String.leb a c = true.
Proof.
  unfold String.leb.
  induction a as [|x a IH]; intros [|y b] [|z c]; cbn; try done.
  unfold Ascii.compare.
  destruct (N.compare_spec (N_of_ascii x) (N_of_ascii y)) as [Hxy|Hxy|Hxy];
    destruct (N.compare_spec (N_of_ascii y) (N_of_ascii z)) as [Hyz|Hyz|Hyz];
    try done.
  - rewrite Hxy, Hyz, N.compare_refl. apply IH.
  - intros _ _. rewrite Hxy. by apply N.compare_lt_iff in Hyz as ->.
  - intros _ _. rewrite <- Hyz. by apply N.compare_lt_iff in Hxy as ->.
  - intros _ _. assert (N_of_ascii x < N_of_ascii z)%N as H by lia.
    by apply N.compare_lt_iff in H as ->.
Qed.

(** *** The stable sort *)

Section Fingerprint.
Import SchemaAnalyzerAgent.

Lemma insert_by_name_perm t l : insert_by_name t l ≡ₚ t :: l.
Proof.
  induction l as [|u l IH]; cbn; [done|].
  destruct (String.leb _ _); [done|]. rewrite IH. apply perm_swap.
Qed.

Lemma sorted_by_name_perm l : sorted_by_name l ≡ₚ l.
Proof.
  induction l as [|t l IH]; cbn; [done|].
  rewrite insert_by_name_perm. by constructor.
Qed.

Lemma insert_by_name_sorted t l :
  Sorted name_le l -> Sorted name_le (insert_by_name t l).
Proof.
  induction 1 as [|u l Hs IH Hhd]; cbn.
  - by repeat constructor.
  - destruct (String.leb (table_name t) (table_name u)) eqn:Hle.
    + constructor; [by constructor|]. by constructor.
    + constructor; [done|].
      assert (name_le u t) as Hut.
      { destruct (String.leb_total (table_name t) (table_name u)); [congruence|done]. }
      destruct Hhd as [|v l' Huv]; cbn.
      * by constructor.
      * destruct (String.leb (table_name t) (table_name v)); by constructor.
Qed.

Lemma sorted_by_name_sorted l : Sorted name_le (sorted_by_name l).
Proof.
  induction l as [|t l IH]; cbn; [constructor|]. by apply insert_by_name_sorted.
Qed.

Lemma fingerprint_sorted l : Sorted entry_le (_build_fingerprint l).
Proof.
  unfold _build_fingerprint.
  induction (sorted_by_name_sorted l) as [|t l' Hs IH Hhd]; cbn; [constructor|].
  constructor; [done|]. destruct Hhd; cbn; by constructor.
Qed.

#[local] Instance entry_le_trans : Transitive entry_le.
Proof. intros e f g. apply string_leb_trans. Qed.

Lemma names_identify_nodup l : NoDup (map table_name l) -> names_identify l.
Proof.
  intros Hnd t u Ht Hu Hname. f_equal.
  apply list_elem_of_lookup in Ht as [i Hi]. apply list_elem_of_lookup in Hu as [j Hj].
  assert (i = j) as ->; [|congruence].
  eapply NoDup_lookup; [apply Hnd| |].
  - change (map table_name l) with (table_name <$> l).
    rewrite list_lookup_fmap, Hi. reflexivity.
  - change (map table_name l) with (table_name <$> l).
    rewrite list_lookup_fmap, Hj. cbn. by rewrite Hname.
Qed.

Lemma fingerprint_perm l : _build_fingerprint l ≡ₚ map entry l.
Proof. unfold _build_fingerprint. apply Permutation_map, sorted_by_name_perm. Qed.

(** When names identify the entities, the fingerprint does not depend on
    the input order. *)
Lemma fingerprint_permutation l1 l2 :
  l1 ≡ₚ l2 -> names_identify l1 -> _build_fingerprint l1 = _build_fingerprint l2.
Proof.
  intros Hperm Hid.
  apply (Sorted_unique_strong entry_le); [|apply fingerprint_sorted..|].
  - intros e f He Hf Hef Hfe.
    rewrite fingerprint_perm in He. rewrite fingerprint_perm, <- Hperm in Hf.
    apply list_elem_of_In, in_map_iff in He as (t & <- & Ht).
    apply list_elem_of_In, in_map_iff in Hf as (u & <- & Hu).
    apply list_elem_of_In in Ht, Hu.
    apply Hid; [done..|]. exact (String.leb_antisym _ _ Hef Hfe).
  - rewrite !fingerprint_perm. by apply Permutation_map.
Qed.

(** Replacing one table by a table with another entry changes the
    fingerprint. *)
Lemma fingerprint_entry_sensitive pre post t t' :
  entry t <> entry t' ->
  _build_fingerprint (pre ++ t :: post) <> _build_fingerprint (pre ++ t' :: post).
Proof.
  intros Hne Heq.
  assert (Hperm : map entry (pre ++ t :: post) ≡ₚ map entry (pre ++ t' :: post)).
  { rewrite <- !fingerprint_perm. by rewrite Heq. }
  rewrite !map_app in Hperm. cbn [map] in Hperm.
  apply Permutation_app_inv_l in Hperm.
  pose proof (proj1 (Permutation_count_occ (decide_rel (=)) _ _) Hperm (entry t)) as Hcount.
  cbn [count_occ] in Hcount.
  destruct (decide_rel eq (entry t) (entry t)); [|done].
  destruct (decide_rel eq (entry t') (entry t)); [congruence|lia].
Qed.

End Fingerprint.


(** ** Convergence detector *)

Lemma check_stability_agree required fp rounds :
  SchemaAnalyzerAgent.check_stability required fp (Some fp) rounds
  = (rounds + 1, Some fp, required <=? rounds + 1).
Proof. unfold SchemaAnalyzerAgent.check_stability. by rewrite decide_True. Qed.

Lemma check_stability_mismatch required fp prev rounds :
  prev <> Some fp ->
  SchemaAnalyzerAgent.check_stability required fp prev rounds
  = (1, Some fp, required <=? 1).
Proof. intros H. unfold SchemaAnalyzerAgent.check_stability. by rewrite decide_False. Qed.

Lemma detector_rounds_agree required fp n : forall rounds (k : nat),
  (k < n)%nat ->
  detector_rounds required (replicate n fp) (Some fp) rounds !! k
  = Some (rounds + Z.of_nat k + 1, required <=? rounds + Z.of_nat k + 1).
Proof.
  induction n as [|n IH]; intros rounds k Hk; [lia|].
  cbn [replicate detector_rounds]. rewrite check_stability_agree.
  destruct k as [|k]; cbn [lookup list_lookup].
  - do 3 f_equal; lia.
  - rewrite IH by lia. do 3 f_equal; lia.
Qed.

(** An iteration of [analyze_schema] that discovers tables feeds their
    fingerprint to the detector and leaves the loop when the verdict is
    "stable". *)
Lemma iteration_updates_detector (E : SchemaAnalyzerAgent.Env) (a : SchemaAnalyzerAgent.t)
    (session : JupyterKernelSession.t) (it : Z) (st : SchemaAnalyzerAgent.Locals)
    (code raw : string) (ev1 ev2 : list event) (t : Table) (tables : list Table)
    (rels : list Relationship) :
  SchemaAnalyzerAgent._ask_llm_for_code E it (SchemaAnalyzerAgent.last_error st)
    (SchemaAnalyzerAgent.conversation st) = (Ok code, ev1) ->
  CodeFence.insufficient code = false ->
  JupyterKernelSession.execute (SchemaAnalyzerAgent.kernel_run E it) session code
  = (Ok raw, ev2) ->
  SchemaAnalyzerAgent._parse_kernel_output E raw
  = Ok (SchemaAnalyzerAgent.PayloadDict (t :: tables) rels) ->
  SchemaAnalyzerAgent.log_sink E it code raw = None ->
  exists st' fl,
    SchemaAnalyzerAgent.iteration_body E a session it st = (Ok (st', fl), ev1 ++ ev2)
    /\ (SchemaAnalyzerAgent.stable_rounds st', SchemaAnalyzerAgent.prev_fingerprint st',
        SchemaAnalyzerAgent.satisfied st')
       = SchemaAnalyzerAgent.check_stability (SchemaAnalyzerAgent.stable_rounds_required a)
           (SchemaAnalyzerAgent._build_fingerprint (t :: tables))
           (SchemaAnalyzerAgent.prev_fingerprint st) (SchemaAnalyzerAgent.stable_rounds st)
    /\ fl = (if SchemaAnalyzerAgent.satisfied st'
             then SchemaAnalyzerAgent.Break else SchemaAnalyzerAgent.Next).
Proof.
  intros Hask Hins Hrun Hparse Hlog. unfold SchemaAnalyzerAgent.iteration_body.
  rewrite Hask, Hins, Hrun, Hparse, Hlog.
  destruct (SchemaAnalyzerAgent.check_stability _ _ _ _) as [[rounds prev] sat].
  eexists _, _. split; [reflexivity|]. split; reflexivity.
Qed.

(** C3.  The stability counter is incremented when the current
    fingerprint equals the previous one and reset to 1 otherwise (the
    first round, which has no previous fingerprint, included); the round
    is declared stable exactly when the counter has reached
    [required]; so for identical fingerprints the counter after round [k]
    is [k], and round [k] is stable if and only if [required <= k]:
    stability first holds at round [required] and holds in every later
    round.  Every iteration of [analyze_schema] that discovers tables
    updates [stable_rounds], [prev_fingerprint] and [satisfied] in this
    way. *)
Theorem convergence_detector :
  (forall required fp rounds,
      SchemaAnalyzerAgent.check_stability required fp (Some fp) rounds
      = (rounds + 1, Some fp, required <=? rounds + 1))
  /\ (forall required fp prev rounds,
        prev <> Some fp ->
        SchemaAnalyzerAgent.check_stability required fp prev rounds
        = (1, Some fp, required <=? 1))
  /\ (forall required fp (n k : nat),
        (1 <= k <= n)%nat ->
        exists stable,
          detector_rounds required (replicate n fp) None 0 !! (k - 1)%nat
          = Some (Z.of_nat k, stable)
          /\ (stable = true <-> required <= Z.of_nat k))
  /\ (forall E a session it st code raw ev1 ev2 t tables rels,
        SchemaAnalyzerAgent._ask_llm_for_code E it (SchemaAnalyzerAgent.last_error st)
          (SchemaAnalyzerAgent.conversation st) = (Ok code, ev1) ->
        CodeFence.insufficient code = false ->
        JupyterKernelSession.execute (SchemaAnalyzerAgent.kernel_run E it) session code
        = (Ok raw, ev2) ->
        SchemaAnalyzerAgent._parse_kernel_output E raw
        = Ok (SchemaAnalyzerAgent.PayloadDict (t :: tables) rels) ->
        SchemaAnalyzerAgent.log_sink E it code raw = None ->
        exists st' fl,
          SchemaAnalyzerAgent.iteration_body E a session it st = (Ok (st', fl), ev1 ++ ev2)
          /\ (SchemaAnalyzerAgent.stable_rounds st',
              SchemaAnalyzerAgent.prev_fingerprint st',
              SchemaAnalyzerAgent.satisfied st')
             = SchemaAnalyzerAgent.check_stability
                 (SchemaAnalyzerAgent.stable_rounds_required a)
                 (SchemaAnalyzerAgent._build_fingerprint (t :: tables))
                 (SchemaAnalyzerAgent.prev_fingerprint st)
                 (SchemaAnalyzerAgent.stable_rounds st)).
Proof.
  split; [|split; [|split]].
  - apply check_stability_agree.
  - apply check_stability_mismatch.
  - intros required fp n k Hk. exists (required <=? Z.of_nat k).
    split; [|apply Z.leb_le].
    destruct n as [|n]; [lia|].
    cbn [replicate detector_rounds]. rewrite check_stability_mismatch by done.
    destruct k as [|[|k]]; [lia|done|].
    replace (S (S k) - 1)%nat with (S k) by lia. cbn [lookup list_lookup].
    rewrite detector_rounds_agree by lia. do 3 f_equal; lia.
  - intros E a session it st code raw ev1 ev2 t tables rels Hask Hins Hrun Hparse Hlog.
    destruct (iteration_updates_detector E a session it st code raw ev1 ev2 t tables rels
                Hask Hins Hrun Hparse Hlog) as (st' & fl & Hbody & Hdet & _).
    eauto.
Qed.

(** ** Envelope parser *)

(** [find] answers [-1] exactly when the text is absent. *)
Lemma find_absent (s sub : string) :
  PyStr.find s sub 0 = -1 <-> PyStr.contains sub s = false.
Proof.
  unfold PyStr.find, PyStr.contains. change (Z.to_nat 0) with 0%nat.
  destruct (String.index 0 sub s); split; intros; try done; try lia; exfalso; lia.
Qed.

Lemma find_present (s sub : string) :
  0 <= PyStr.find s sub 0 <-> PyStr.contains sub s = true.
Proof.
  unfold PyStr.find, PyStr.contains. change (Z.to_nat 0) with 0%nat.
  destruct (String.index 0 sub s); split; intros; try done; try lia; exfalso; lia.
Qed.

Section EnvelopeParser.
Import WorkerAgent PyStr.
Variable E : Env.

(** The guard of the fallback tier. *)
Lemma strict_tier_guard raw :
  let start_idx := find raw RESULT_START 0 in
  let end_idx := find raw RESULT_END 0 in
  (start_idx =? -1) || (end_idx =? -1) || (end_idx <=? start_idx) = false
  <-> contains RESULT_START raw = true /\ contains RESULT_END raw = true
      /\ start_idx < end_idx.
Proof.
  cbn zeta. rewrite <- !find_present.
  pose proof (find_present raw RESULT_START). pose proof (find_absent raw RESULT_START).
  pose proof (find_present raw RESULT_END). pose proof (find_absent raw RESULT_END).
  destruct (contains RESULT_START raw), (contains RESULT_END raw);
    destruct (Z.eqb_spec (find raw RESULT_START 0) (-1));
    destruct (Z.eqb_spec (find raw RESULT_END 0) (-1));
    destruct (Z.leb_spec (find raw RESULT_END 0) (find raw RESULT_START 0));
    cbn; intuition (try lia; try congruence).
Qed.

End EnvelopeParser.



(** ** Code extractor *)

(** *** [find] and first occurrences *)

Lemma index_ge (sub : string) (s : string) : forall (start m : nat),
  String.index start sub s = Some m -> (start <= m)%nat.
Proof.
  induction s as [|c s IH]; intros start m; cbn.
  - destruct start; [|done]. destruct sub; [|done]. intros [= <-]. lia.
  - destruct start as [|start].
    + lia.
    + destruct (String.index start sub s) as [k|] eqn:Hk; [|done].
      intros [= <-]. apply IH in Hk. lia.
Qed.

Lemma index_first_from (sub s : string) (start n : nat) :
  sub <> EmptyString ->
  first_from sub s start n ->
  String.index start sub s = Some n.
Proof.
  intros Hsub (Hle & Hocc & Hfirst). unfold occurs_at in *.
  destruct (String.index start sub s) as [m|] eqn:Hidx.
  - pose proof (index_ge _ _ _ _ Hidx) as Hge.
    pose proof (String.index_correct1 _ _ _ _ Hidx) as Hm.
    pose proof (String.index_correct2 _ _ _ _ Hidx) as Hbefore.
    f_equal. destruct (Nat.lt_trichotomy m n) as [Hlt|[->|Hgt]]; [|done|].
    + exfalso. apply (Hfirst m); [lia|done].
    + exfalso. apply (Hbefore n); [lia..|done].
  - exfalso. by apply (String.index_correct3 _ n _ _ Hidx).
Qed.

Lemma find_first_from (sub s : string) (start n : nat) :
  sub <> EmptyString ->
  first_from sub s start n ->
  PyStr.find s sub (Z.of_nat start) = Z.of_nat n.
Proof.
  intros Hsub Hfirst. unfold PyStr.find. rewrite Nat2Z.id.
  by rewrite (index_first_from _ _ _ _ Hsub Hfirst).
Qed.

Lemma contains_first_from (sub s : string) (n : nat) :
  sub <> EmptyString -> first_from sub s 0 n -> PyStr.contains sub s = true.
Proof.
  intros Hsub Hfirst. unfold PyStr.contains.
  by rewrite (index_first_from _ _ _ _ Hsub Hfirst).
Qed.

(** *** The two fenced-block steps *)

Lemma python_block_first (r : string) (i e : nat) :
  first_from CodeFence.fence_python r 0 i ->
  first_from CodeFence.fence r (i + 9) e ->
  (i + 9 < e)%nat ->
  CodeFence.python_block r
  = Some (PyStr.strip (String.substring (i + 9) (e - (i + 9)) r)).
Proof.
  intros Hopen Hclose Hlt. unfold CodeFence.python_block.
  rewrite (contains_first_from _ _ i) by done.
  rewrite (find_first_from _ _ 0 i) by done.
  change (PyStr.len CodeFence.fence_python) with 9.
  replace (Z.of_nat i + 9) with (Z.of_nat (i + 9)) by lia.
  rewrite (find_first_from _ _ (i + 9) e) by done.
  destruct (Z.gtb_spec (Z.of_nat e) (Z.of_nat (i + 9))); [|lia].
  unfold PyStr.slice. do 3 f_equal; lia.
Qed.

Lemma any_block_first (r : string) (i j e : nat) :
  first_from CodeFence.fence r 0 i ->
  first_from PyStr.nl r (i + 3) j ->
  (i + 3 < j < i + 23)%nat ->
  first_from CodeFence.fence r (j + 1) e ->
  (j + 1 < e)%nat ->
  CodeFence.any_block r
  = Some (PyStr.strip (String.substring (j + 1) (e - (j + 1)) r)).
Proof.
  intros Hopen Hnl Hj Hclose Hlt. unfold CodeFence.any_block.
  rewrite (contains_first_from _ _ i) by done.
  rewrite (find_first_from _ _ 0 i) by done.
  replace (Z.of_nat i + 3) with (Z.of_nat (i + 3)) by lia.
  rewrite (find_first_from _ _ (i + 3) j) by done.
  destruct (Z.gtb_spec (Z.of_nat j) (Z.of_nat (i + 3))); [|lia].
  destruct (Z.ltb_spec (Z.of_nat j - Z.of_nat (i + 3)) 20); [|lia].
  cbn [andb].
  replace (Z.of_nat j + 1) with (Z.of_nat (j + 1)) by lia.
  rewrite (find_first_from _ _ (j + 1) e) by done.
  destruct (Z.gtb_spec (Z.of_nat e) (Z.of_nat (j + 1))); [|lia].
  unfold PyStr.slice. do 3 f_equal; lia.
Qed.

Lemma no_fence_no_block (r : string) :
  PyStr.contains CodeFence.fence r = false ->
  CodeFence.python_block r = None /\ CodeFence.any_block r = None.
Proof.
  intros Hno. unfold CodeFence.python_block, CodeFence.any_block. rewrite Hno.
  split; [|done].
  destruct (PyStr.contains CodeFence.fence_python r) eqn:Hpy; [|done].
  exfalso. unfold PyStr.contains in *.
  destruct (String.index 0 CodeFence.fence_python r) as [m|] eqn:Hm; [|done].
  apply String.index_correct1 in Hm.
  destruct (String.index 0 CodeFence.fence r) as [k|] eqn:Hk; [done|].
  apply (String.index_correct3 _ m) in Hk; [|done|lia].
  apply Hk. clear Hk Hno Hpy.
  change (String.length CodeFence.fence_python) with (3 + 6)%nat in Hm.
  revert r Hm. induction m as [|m IH]; intros r Hm.
  - unfold CodeFence.fence_python, CodeFence.fence in *.
    destruct r as [|a [|b [|c r]]]; cbn in *; simplify_eq. by destruct r.
  - destruct r as [|a r]; [done|]. cbn in *. by apply IH.
Qed.

(** *** The line heuristic *)

Lemma code_lines_in_code lines : SchemaAnalyzerAgent.code_lines true lines = lines.
Proof. induction lines as [|l ls IH]; cbn; [done|]. by rewrite IH. Qed.

Lemma code_lines_first prose first rest :
  Forall (fun l => SchemaAnalyzerAgent.starts_code (PyStr.strip l) = false) prose ->
  SchemaAnalyzerAgent.starts_code (PyStr.strip first) = true ->
  SchemaAnalyzerAgent.code_lines false (prose ++ first :: rest) = first :: rest.
Proof.
  intros Hprose Hfirst. induction Hprose as [|l ls Hl _ IH]; cbn.
  - rewrite Hfirst. by rewrite code_lines_in_code.
  - by rewrite Hl.
Qed.

Lemma code_lines_none lines :
  Forall (fun l => SchemaAnalyzerAgent.starts_code (PyStr.strip l) = false) lines ->
  SchemaAnalyzerAgent.code_lines false lines = [].
Proof. induction 1 as [|l ls Hl _ IH]; cbn; [done|]. by rewrite Hl. Qed.



(** ** Execution phase *)

Section ExecutionPhase.
Import WorkerAgent.
Variable E : Env.
Hypothesis Hcoop : cooperative E.

(** A parsed envelope that does not report success carries a string. *)
Lemma parse_failure_reports_string raw kvs :
  _parse_task_result E raw = JObj kvs ->
  Py.truthy (Py.lookup kvs "success") = false ->
  exists msg, reported_error kvs = JStr msg.
Proof.
  destruct Hcoop as (_ & _ & Hjson).
  unfold _parse_task_result.
  destruct (_ || _ || _).
  - destruct (_ || _ || _).
    + intros [= <-] _. cbn. eauto.
    + destruct (_ || _ || _).
      * intros [= <-]. cbn. done.
      * intros [= <-] _. cbn. eauto.
  - destruct (json_loads E _) as [v|e] eqn:Hl.
    + intros ->. by eapply Hjson.
    + intros [= <-] _. cbn. eauto.
Qed.

(** With cooperative collaborators one attempt either succeeds and
    leaves the loop, or records a string as its error and goes on. *)
Lemma attempt_body_cooperative w task_id task_description context att st :
  tidy st ->
  exists st' fl evs,
    attempt_body E w task_id task_description context att st = (Ok (st', fl), evs)
    /\ match fl with
       | Break => success st' = true
       | Next => success st' = success st /\ exists s, last_error st' = JStr s
       end.
Proof.
  intros Hst. destruct Hcoop as (Hllm & Hkernel & _).
  unfold attempt_body, _ask_llm_for_code. cbn [last_error last_output conversation].
  destruct (request_messages_ok E task_description context att (last_error st)
              (last_output st) (conversation st) Hst) as [messages ->].
  destruct (Hllm task_id att messages) as [response ->].
  destruct (CodeFence.insufficient _).
  { eexists _, Next, _. split; [reflexivity|]. cbn. eauto. }
  destruct (kernel_execute E w task_id att (_extract_code response)) as [ran ev2] eqn:Hrun.
  destruct ran as [raw|e].
  - destruct (_parse_task_result E raw) as [| | | | |kvs] eqn:Hparse;
      try (eexists _, Next, _; split; [reflexivity|]; cbn; eauto).
    destruct (Py.truthy (Py.lookup kvs "success")) eqn:Hflag.
    + eexists _, Break, _. split; [reflexivity|]. done.
    + destruct (parse_failure_reports_string raw kvs Hparse Hflag) as [msg Hmsg].
      eexists _, Next, _. split; [reflexivity|]. cbn. eauto.
  - assert (caught_by_except_Exception e = true) as ->.
    { unfold kernel_execute in Hrun. destruct (kernel w) as [s|].
      - unfold JupyterKernelSession.execute in Hrun.
        destruct (_ || _); [by injection Hrun as <- _|].
        injection Hrun as Hrun _. by eapply Hkernel.
      - by injection Hrun as <- _. }
    eexists _, Next, _. split; [reflexivity|]. cbn. eauto.
Qed.

Lemma attempts_loop_cooperative w task_id task_description context atts : forall st,
  tidy st ->
  exists st' evs,
    attempts_loop E w task_id task_description context atts st = (Ok st', evs)
    /\ (success st' = true
        \/ (success st' = success st
            /\ (atts <> [] -> exists s, last_error st' = JStr s))).
Proof.
  induction atts as [|att atts IH]; intros st Hst.
  - exists st, []. split; [done|]. right. done.
  - destruct (attempt_body_cooperative w task_id task_description context att st Hst)
      as (st1 & fl & evs1 & Hbody & Hfl).
    cbn [attempts_loop]. rewrite Hbody. destruct fl.
    + destruct Hfl as [Hsucc [s Hs]].
      destruct (IH st1) as (st2 & evs2 & Hloop & Hres); [right; eauto|].
      rewrite Hloop. exists st2, (evs1 ++ evs2). split; [done|].
      destruct Hres as [?|[Hs2 Hl2]]; [by left|]. right. split; [congruence|].
      intros _. destruct atts as [|b atts']; [|by apply Hl2].
      cbn in Hloop. injection Hloop as <- _. eauto.
    + exists st1, evs1. split; [done|]. by left.
Qed.

(** With cooperative collaborators and a positive attempt budget
    [execute_task] returns, and a failed outcome carries a string. *)
Lemma execute_task_cooperative w task_id task_description context :
  1 <= max_attempts w ->
  exists out evs,
    execute_task E w task_id task_description context = (Ok out, evs)
    /\ out_task_id out = task_id
    /\ (out_success out = false -> exists s, out_last_error out = JStr s).
Proof.
  intros Hmax. unfold execute_task.
  destruct (attempts_loop_cooperative w task_id task_description context
              (Py.range 1 (max_attempts w + 1)) locals0) as (st & evs & -> & Hres);
    [by left|].
  eexists _, evs. split; [reflexivity|]. cbn. split; [done|].
  intros Hfail. rewrite Hfail. destruct Hres as [?|[_ Hl]]; [congruence|].
  apply Hl. intros Hnil.
  pose proof (range_last 1 (max_attempts w + 1) 0 ltac:(lia)) as Hr.
  rewrite Hnil in Hr. cbn in Hr. lia.
Qed.

Import MigrationExecutor.

(** One task: the loop goes on whether the unit succeeded or failed, and
    records it in the log and in exactly one of the two lists. *)
Lemma task_body_cooperative w context task p :
  1 <= max_attempts w ->
  exists p' evs entry,
    task_body E w context task p = (Ok tt, p', evs)
    /\ log p' = log p ++ [entry]
    /\ log_task_id entry = task_id task
    /\ completed p'
       = completed p ++ (if entry_succeeded entry then [task_id task] else [])
    /\ failed p'
       = failed p ++ (if entry_succeeded entry then [] else [task_id task]).
Proof.
  intros Hmax.
  destruct (execute_task_cooperative w (task_id task) (description task) context Hmax)
    as (out & evs & Hrun & _ & Hfail).
  unfold task_body. rewrite Hrun.
  destruct (out_success out) eqn:Hs.
  - eexists _, evs, _. split; [reflexivity|]. cbn.
    split; [reflexivity|]. cbn. by rewrite app_nil_r.
  - destruct (Hfail eq_refl) as [s ->]. cbn.
    eexists _, evs, _. split; [reflexivity|]. cbn.
    split; [reflexivity|]. cbn. by rewrite app_nil_r.
Qed.

Lemma tasks_loop_cooperative w context tasks : forall p,
  1 <= max_attempts w ->
  exists p' evs entries,
    tasks_loop E w context tasks p = (Ok tt, p', evs)
    /\ log p' = log p ++ entries
    /\ map log_task_id entries = map task_id tasks
    /\ completed p'
       = completed p ++ map log_task_id (List.filter entry_succeeded entries)
    /\ failed p'
       = failed p
         ++ map log_task_id (List.filter (fun e => negb (entry_succeeded e)) entries).
Proof.
  induction tasks as [|task tasks IH]; intros p Hmax.
  - exists p, [], []. cbn. by rewrite !app_nil_r.
  - destruct (task_body_cooperative w context task p Hmax)
      as (p1 & evs1 & entry & Hbody & Hlog & Hid & Hc & Hf).
    destruct (IH p1 Hmax) as (p2 & evs2 & entries & Hloop & Hlog2 & Hids & Hc2 & Hf2).
    exists p2, (evs1 ++ evs2), (entry :: entries).
    cbn [tasks_loop]. rewrite Hbody, Hloop. split; [done|].
    split; [by rewrite Hlog2, Hlog, <- app_assoc|].
    split; [cbn; congruence|].
    rewrite Hc2, Hf2, Hc, Hf. cbn [List.filter].
    destruct (entry_succeeded entry); cbn [negb map];
      rewrite <- ?app_assoc, ?app_nil_r, <- Hid; done.
Qed.

End ExecutionPhase.

Lemma filter_split_perm {A B} (f : A -> B) (P : A -> bool) (l : list A) :
  map f (List.filter P l) ++ map f (List.filter (fun x => negb (P x)) l) ≡ₚ map f l.
Proof.
  induction l as [|x l IH]; cbn; [done|].
  destruct (P x); cbn.
  - by constructor.
  - rewrite <- Permutation_middle. by constructor.
Qed.


(** ** Session release *)

Lemma shut_down_intro (before after : list event) :
  Forall (fun ev => ~ uses_session ev) after -> shut_down (before ++ EvShutdown :: after).
Proof. intros H. by exists before, after. Qed.

Lemma start_kernel_some o w w' failure evs :
  WorkerAgent.start_kernel o w = (w', failure, evs) ->
  exists s, WorkerAgent.kernel w' = Some s.
Proof.
  unfold WorkerAgent.start_kernel. destruct (WorkerAgent.kernel w) as [s|] eqn:Hk.
  - intros [= <- <- <-]. eauto.
  - destruct (JupyterKernelSession.start o JupyterKernelSession.init) as [[s e] ev].
    intros [= <- <- <-]. cbn. eauto.
Qed.

(** The session of the execution phase is shut down on every exit. *)
Lemma execute_migration_shuts_down E O describe start ex context :
  let '(r, ex', evs) := MigrationExecutor.execute_migration E O describe start ex context in
  r <> OutOfFuel /\ shut_down evs /\ WorkerAgent.kernel (MigrationExecutor.worker ex') = None.
Proof.
  unfold MigrationExecutor.execute_migration, MigrationExecutor.try_body.
  destruct (WorkerAgent.start_kernel start (MigrationExecutor.worker ex))
    as [[w failure] ev0] eqn:Hstart.
  destruct (start_kernel_some _ _ _ _ _ Hstart) as [s Hs].
  assert (Hdown : WorkerAgent.shutdown_kernel w
                  = ({| WorkerAgent.max_attempts := WorkerAgent.max_attempts w;
                        WorkerAgent.kernel := None |}, [EvShutdown])).
  { unfold WorkerAgent.shutdown_kernel. by rewrite Hs. }
  destruct failure as [e|].
  - cbn. rewrite Hdown. cbn. split; [done|]. split; [|done].
    apply shut_down_intro. constructor.
  - unfold MigrationExecutor._build_mega_tasks.
    destruct (ordered_tables_returns O (WorkerAgent.catalog context)) as [order ->].
    destruct (MigrationExecutor.tasks_loop _ _ _ _ _) as [[r p] evs].
    destruct r as [[]|e]; cbn; rewrite Hdown; cbn.
    + split; [done|]. split; [|done].
      apply shut_down_intro. repeat constructor. cbn. tauto.
    + split; [done|]. split; [|done].
      apply shut_down_intro. constructor.
Qed.

(** The session of the discovery phase is shut down on every exit on
    which it was started. *)
Lemma analyze_schema_shuts_down E a start :
  let '(r, evs) := SchemaAnalyzerAgent.analyze_schema E a start in
  EvStart true ∈ evs -> shut_down evs.
Proof.
  unfold SchemaAnalyzerAgent.analyze_schema.
  assert (Hfinish : forall st, Forall (fun ev => ~ uses_session ev)
                                 (snd (SchemaAnalyzerAgent.finish E st))).
  { intros st. unfold SchemaAnalyzerAgent.finish.
    destruct (SchemaAnalyzerAgent.metadata st); [constructor|].
    destruct (SchemaAnalyzerAgent.dump_markdown _ _ _ _ _); [|constructor].
    destruct (SchemaAnalyzerAgent.dump_json _ _ _ _ _); cbn; repeat constructor; cbn; tauto. }
  destruct start as [|e|e]; cbn.
  - destruct (SchemaAnalyzerAgent.iterations_loop _ _ _ _ _) as [[r last] ev1].
    destruct r as [st|e].
    + specialize (Hfinish st). destruct (SchemaAnalyzerAgent.finish E st) as [r' ev3].
      intros _. exists (EvStart true :: ev1), ev3. split; [|done].
      reflexivity.
    + destruct (caught_by_except_Exception e); cbn; intros _;
        (exists (EvStart true :: ev1), []; split; [|constructor]);
        cbn; by rewrite ?app_nil_r.
  - destruct (caught_by_except_Exception e); cbn; intros Hin; exfalso;
      apply elem_of_cons in Hin as [Hin|Hin]; try done; by apply elem_of_nil in Hin.
  - destruct (caught_by_except_Exception e); cbn; intros Hin; exfalso;
      apply elem_of_cons in Hin as [Hin|Hin]; try done; by apply elem_of_nil in Hin.
Qed.

(** C9.  Whenever the session was successfully started inside a phase, it
    is shut down before the phase returns or lets an exception through:
    the event log of [analyze_schema] and of [execute_migration] shows a
    shutdown after which the session is no longer used, and
    [execute_migration] always runs to an end. *)
Theorem session_released_on_every_exit :
  (forall E a start r evs,
      SchemaAnalyzerAgent.analyze_schema E a start = (r, evs) ->
      EvStart true ∈ evs -> shut_down evs)
  /\ (forall E O describe start ex context r ex' evs,
        MigrationExecutor.execute_migration E O describe start ex context = (r, ex', evs) ->
        r <> OutOfFuel
        /\ (EvStart true ∈ evs -> shut_down evs)).
Proof.
  split.
  - intros E a start r evs Heq.
    pose proof (analyze_schema_shuts_down E a start) as H. by rewrite Heq in H.
  - intros E O describe start ex context r ex' evs Heq.
    pose proof (execute_migration_shuts_down E O describe start ex context) as H.
    rewrite Heq in H. destruct H as (? & ? & ?). done.
Qed.

(** ** Discovery failure *)

(** What escapes one iteration of the discovery loop, and what does not:
    a failing request and a payload that is not a dict leave the
    iteration as exceptions; a failing execution is handled inside it and
    keeps the tables found so far. *)
Lemma request_failure_escapes (E : SchemaAnalyzerAgent.Env) (a : SchemaAnalyzerAgent.t)
    (session : JupyterKernelSession.t) (it : Z) (st : SchemaAnalyzerAgent.Locals)
    (e : exn) :
  SchemaAnalyzerAgent.llm_create E it
    (SchemaAnalyzerAgent.request_messages E it (SchemaAnalyzerAgent.last_error st)
       (SchemaAnalyzerAgent.conversation st)) = Raise e ->
  fst (SchemaAnalyzerAgent.iteration_body E a session it st) = Raise e.
Proof.
  intros Hllm. unfold SchemaAnalyzerAgent.iteration_body,
    SchemaAnalyzerAgent._ask_llm_for_code. by rewrite Hllm.
Qed.

Lemma non_dict_payload_escapes (E : SchemaAnalyzerAgent.Env) (a : SchemaAnalyzerAgent.t)
    (session : JupyterKernelSession.t) (it : Z) (st : SchemaAnalyzerAgent.Locals)
    (code raw : string) (ev1 ev2 : list event) (v : json) :
  SchemaAnalyzerAgent._ask_llm_for_code E it (SchemaAnalyzerAgent.last_error st)
    (SchemaAnalyzerAgent.conversation st) = (Ok code, ev1) ->
  CodeFence.insufficient code = false ->
  JupyterKernelSession.execute (SchemaAnalyzerAgent.kernel_run E it) session code
  = (Ok raw, ev2) ->
  SchemaAnalyzerAgent._parse_kernel_output E raw = Ok (SchemaAnalyzerAgent.PayloadOther v) ->
  fst (SchemaAnalyzerAgent.iteration_body E a session it st)
  = Raise (Py.no_attribute v "get").
Proof.
  intros Hask Hins Hrun Hparse. unfold SchemaAnalyzerAgent.iteration_body.
  by rewrite Hask, Hins, Hrun, Hparse.
Qed.

Lemma execution_failure_is_handled (E : SchemaAnalyzerAgent.Env) (a : SchemaAnalyzerAgent.t)
    (session : JupyterKernelSession.t) (it : Z) (st : SchemaAnalyzerAgent.Locals)
    (code msg : string) (ev1 ev2 : list event) :
  SchemaAnalyzerAgent._ask_llm_for_code E it (SchemaAnalyzerAgent.last_error st)
    (SchemaAnalyzerAgent.conversation st) = (Ok code, ev1) ->
  CodeFence.insufficient code = false ->
  JupyterKernelSession.execute (SchemaAnalyzerAgent.kernel_run E it) session code
  = (Raise (PyException msg), ev2) ->
  SchemaAnalyzerAgent.log_sink E it code ("ERROR: " +:+ msg) = None ->
  exists st',
    SchemaAnalyzerAgent.iteration_body E a session it st
    = (Ok (st', SchemaAnalyzerAgent.Next), ev1 ++ ev2)
    /\ SchemaAnalyzerAgent.metadata st' = SchemaAnalyzerAgent.metadata st
    /\ SchemaAnalyzerAgent.last_error st' = Some msg.
Proof.
  intros Hask Hins Hrun Hlog. unfold SchemaAnalyzerAgent.iteration_body.
  rewrite Hask, Hins, Hrun. cbn. rewrite Hlog. eauto.
Qed.

(** C10.  When an ordinary exception escapes the per-iteration handling
    of [analyze_schema] (the session does not start, or the loop raises
    outside the guarded execute/parse steps), the result has
    [success = False], [satisfied = False], no analysis file and no schema
    file, whatever tables the state held when the exception was raised;
    the session, if started, is shut down, and no report is written. *)
Theorem discovery_failure_discards_entities (E : SchemaAnalyzerAgent.Env)
    (a : SchemaAnalyzerAgent.t) :
  (forall start msg session evs,
      JupyterKernelSession.start start JupyterKernelSession.init
      = (session, Some (PyException msg), evs) ->
      SchemaAnalyzerAgent.analyze_schema E a start
      = (Ok {| SchemaAnalyzerAgent.res_success := false;
               SchemaAnalyzerAgent.analysis_file := None;
               SchemaAnalyzerAgent.schema_file := None;
               SchemaAnalyzerAgent.iterations := 0;
               SchemaAnalyzerAgent.res_satisfied := false |}, evs))
  /\ (forall session ev0 msg last evs,
        JupyterKernelSession.start StartReady JupyterKernelSession.init
        = (session, None, ev0) ->
        SchemaAnalyzerAgent.iterations_loop E a session
          (Py.range 1 (SchemaAnalyzerAgent.max_iterations a + 1))
          SchemaAnalyzerAgent.locals0
        = (Raise (PyException msg), last, evs) ->
        SchemaAnalyzerAgent.analyze_schema E a StartReady
        = (Ok {| SchemaAnalyzerAgent.res_success := false;
                 SchemaAnalyzerAgent.analysis_file := None;
                 SchemaAnalyzerAgent.schema_file := None;
                 SchemaAnalyzerAgent.iterations := SchemaAnalyzerAgent.iteration last;
                 SchemaAnalyzerAgent.res_satisfied := false |},
           ev0 ++ evs ++ [EvShutdown])).
Proof.
  split.
  - intros start msg session evs Hstart.
    unfold SchemaAnalyzerAgent.analyze_schema. rewrite Hstart. cbn.
    by rewrite app_nil_r.
  - intros session ev0 msg last evs Hstart Hloop.
    unfold SchemaAnalyzerAgent.analyze_schema. rewrite Hstart, Hloop. cbn.
    reflexivity.
Qed.

(** * The statements on concrete runs *)


(** A ranking of the tables that decreases along every dependency rules
    out cycles. *)
Lemma ranked_acyclic (tables : list Table) (rank : string -> nat) :
  (forall u d, depends_on tables u d -> (rank d < rank u)%nat) -> acyclic tables.
Proof.
  intros Hrank u Hcycle.
  assert (Hlt : forall x y, tc (depends_on tables) x y -> (rank y < rank x)%nat).
  { induction 1 as [x y Hxy|x y z Hxy _ IH]; [by apply Hrank|].
    apply Hrank in Hxy. lia. }
  apply Hlt in Hcycle. lia.
Qed.

Lemma sample_catalog_acyclic : acyclic [Sample.orders; Sample.customers].
Proof.
  apply (ranked_acyclic _ (fun name => if String.eqb name "orders" then 1%nat else 0%nat)).
  intros u d (D & HD & Hd & _).
  apply table_deps_spec in HD as (t & Ht & <- & ->).
  apply elem_of_cons in Ht as [->|Ht].
  - cbn in Hd. assert (d = "customers"%string) as -> by set_solver. cbn. lia.
  - apply list_elem_of_singleton in Ht as ->. cbn in Hd. set_solver.
Qed.

(** [orders] refers to [customers]: the order puts [customers] first. *)
Lemma dependency_order_witness :
  acyclic [Sample.orders; Sample.customers]
  /\ exists order,
       MigrationExecutor.ordered_tables elements_order [Sample.orders; Sample.customers]
       = Returns order
       /\ NoDup order
       /\ forall u d, depends_on [Sample.orders; Sample.customers] u d -> precedes d u order.
Proof.
  split; [exact sample_catalog_acyclic|].
  destruct (dependency_order elements_order [Sample.orders; Sample.customers])
    as (_ & order & ready & rest & Hreturns & Hnd & _ & _ & _ & _ & _ & Hacyclic).
  exists order. split; [exact Hreturns|]. split; [exact Hnd|].
  exact (proj2 (Hacyclic sample_catalog_acyclic)).
Defined.

(** Three identical fingerprints, two rounds required: round 2 is stable. *)
Lemma convergence_detector_witness :
  (1 <= 2 <= 3)%nat
  /\ exists stable,
       detector_rounds 2
         (replicate 3 (SchemaAnalyzerAgent._build_fingerprint [Sample.orders; Sample.customers]))
         None 0 !! (2 - 1)%nat
       = Some (2, stable)
       /\ (stable = true <-> 2 <= 2).
Proof.
  split; [lia|].
  exact (proj1 (proj2 (proj2 convergence_detector)) 2
           (SchemaAnalyzerAgent._build_fingerprint [Sample.orders; Sample.customers])
           3%nat 2%nat ltac:(lia)).
Defined.



Lemma sample_cooperative : cooperative Sample.one_unit_fails.
Proof.
  split; [|split].
  - intros id att messages. eexists. reflexivity.
  - intros id att code e H. cbn in H.
    destruct (String.eqb id "2_extract_and_load_all_data"); [|discriminate H].
    injection H as <-. reflexivity.
  - intros text kvs Hload Hflag. cbn in Hload. unfold Sample.decode in Hload.
    destruct (String.eqb text Sample.success_json).
    + injection Hload as <-. discriminate Hflag.
    + destruct (String.eqb text Sample.failure_json); [|discriminate Hload].
      injection Hload as <-. eexists. reflexivity.
Qed.



(** The request of a third attempt over a conversation of six turns. *)
Lemma request_context_window_witness :
  let turn := {| msg_role := User; msg_content := "Attempt failed." |} in
  let conversation := replicate 6 turn in
  (3 <> 1)
  /\ exists messages follow_up,
       WorkerAgent.request_messages Sample.one_unit_fails "MEGA-TASK 2" Sample.context 3
         (JStr "boom") None conversation = Ok messages
       /\ messages
          = [{| msg_role := System;
                msg_content := WorkerAgent.system_prompt Sample.one_unit_fails
                                 "MEGA-TASK 2" Sample.context |}]
            ++ Py.last_n 4 conversation ++ follow_up
       /\ length (Py.last_n 4 conversation) = 4%nat
       /\ (length follow_up <= 1)%nat.
Proof.
  cbn zeta. split; [lia|].
  eexists. 
  destruct (proj1 request_context_window Sample.one_unit_fails "MEGA-TASK 2"%string
              Sample.context 3 (JStr "boom") None
              (replicate 6 {| msg_role := User; msg_content := "Attempt failed." |})
              _ ltac:(lia) eq_refl)
    as (follow_up & Hmessages & _ & _ & Hfollow).
  exists follow_up. split; [reflexivity|]. split; [exact Hmessages|].
  split; [reflexivity|exact Hfollow].
Defined.

Lemma triple_eta {A B C} (x : A * B * C) : x = (fst (fst x), snd (fst x), snd x).
Proof. destruct x as [[a b] c]. reflexivity. Defined.

(** The sample run of the execution phase starts the session and shuts it
    down. *)
Lemma session_released_on_every_exit_witness :
  let evs :=
    snd (MigrationExecutor.execute_migration Sample.one_unit_fails elements_order
           Sample.describe StartReady Sample.executor Sample.context) in
  EvStart true ∈ evs /\ shut_down evs.
Proof.
  cbn zeta.
  assert (Hstarted :
    EvStart true ∈
      snd (MigrationExecutor.execute_migration Sample.one_unit_fails elements_order
             Sample.describe StartReady Sample.executor Sample.context)).
  { vm_compute. apply elem_of_cons. left. reflexivity. }
  split; [exact Hstarted|].
  exact (proj2 (proj2 session_released_on_every_exit Sample.one_unit_fails elements_order
                  Sample.describe StartReady Sample.executor Sample.context _ _ _
                  (triple_eta _))
           Hstarted).
Defined.

(** The first iteration discovered two tables; the second failed
    upstream: the result reports failure and names no file. *)
Lemma discovery_failure_discards_entities_witness :
  exists last evs,
    SchemaAnalyzerAgent.iterations_loop Sample.discovers_then_fails Sample.analyzer
      {| JupyterKernelSession.km := true; JupyterKernelSession.kc := true;
         JupyterKernelSession._started := true |}
      (Py.range 1 (SchemaAnalyzerAgent.max_iterations Sample.analyzer + 1))
      SchemaAnalyzerAgent.locals0
    = (Raise (PyException "upstream unavailable"), last, evs)
    /\ SchemaAnalyzerAgent.metadata last = [Sample.orders; Sample.customers]
    /\ SchemaAnalyzerAgent.analyze_schema Sample.discovers_then_fails Sample.analyzer
         StartReady
       = (Ok {| SchemaAnalyzerAgent.res_success := false;
                SchemaAnalyzerAgent.analysis_file := None;
                SchemaAnalyzerAgent.schema_file := None;
                SchemaAnalyzerAgent.iterations := 2;
                SchemaAnalyzerAgent.res_satisfied := false |},
          [EvStart true] ++ evs ++ [EvShutdown]).
Proof.
  set (session := {| JupyterKernelSession.km := true; JupyterKernelSession.kc := true;
                     JupyterKernelSession._started := true |}).
  set (X := SchemaAnalyzerAgent.iterations_loop Sample.discovers_then_fails Sample.analyzer
              session (Py.range 1 (SchemaAnalyzerAgent.max_iterations Sample.analyzer + 1))
              SchemaAnalyzerAgent.locals0).
  assert (HX : X = (Raise (PyException "upstream unavailable"), snd (fst X), snd X)).
  { vm_compute. reflexivity. }
  exists (snd (fst X)), (snd X). split; [exact HX|]. split; [vm_compute; reflexivity|].
  rewrite (proj2 (discovery_failure_discards_entities Sample.discovers_then_fails
                    Sample.analyzer)
             session [EvStart true] "upstream unavailable"%string (snd (fst X)) (snd X)
             eq_refl HX).
  reflexivity.
Defined.

(** * Further runs of the model *)

(** The chain [C -> B -> A] is ordered [A; B; C]. *)
Example chain_is_ordered :
  MigrationExecutor.ordered_tables elements_order
    [table_referring "C" ["B"]; table_referring "B" ["A"]; table_referring "A" []]
  = Returns ["A"; "B"; "C"]%string.
Proof. by vm_compute. Qed.

(** The two-cycle [A -> B], [B -> A] with an independent [C]: the loop
    ends and lists each of the three once. *)
Example two_cycle_and_independent :
  MigrationExecutor.ordered_tables elements_order
    [table_referring "A" ["B"]; table_referring "B" ["A"]; table_referring "C" []]
  = Returns ["C"; "A"; "B"]%string.
Proof. by vm_compute. Qed.

(** Markers in reversed order: the fallback tier answers. *)
Example reversed_markers_fall_back :
  WorkerAgent._parse_task_result Sample.one_unit_fails
    (WorkerAgent.RESULT_END +:+ Sample.success_json +:+ WorkerAgent.RESULT_START)
  = JObj [("success", JBool true);
          ("message", JStr "Task appears successful based on output");
          ("data",
           JObj [("raw_output",
                  JStr (WorkerAgent.RESULT_END +:+ Sample.success_json
                        +:+ WorkerAgent.RESULT_START))])].
Proof. by vm_compute. Qed.

(** The scan of the fallback tier ignores case. *)
Example fallback_ignores_case :
  WorkerAgent._parse_task_result Sample.one_unit_fails "TRACEBACK (most recent call last)"
  = JObj [("success", JBool false);
          ("error", JStr "Execution error: TRACEBACK (most recent call last)")].
Proof. by vm_compute. Qed.

(** A discovery that finds the same tables twice is satisfied after the
    second iteration and writes both reports. *)
Example discovery_converges :
  fst (SchemaAnalyzerAgent.analyze_schema Sample.converges Sample.analyzer StartReady)
  = Ok {| SchemaAnalyzerAgent.res_success := true;
          SchemaAnalyzerAgent.analysis_file := Some "schema_analysis.md"%string;
          SchemaAnalyzerAgent.schema_file := Some "schema_catalog.json"%string;
          SchemaAnalyzerAgent.iterations := 2;
          SchemaAnalyzerAgent.res_satisfied := true |}.
Proof. by vm_compute. Qed.

(** The session does not come up: the discovery phase reports failure,
    and nothing is shut down. *)
Example discovery_without_session :
  SchemaAnalyzerAgent.analyze_schema Sample.converges Sample.analyzer
    (StartFailsReady (PyException "Kernel did not respond"))
  = (Ok {| SchemaAnalyzerAgent.res_success := false;
           SchemaAnalyzerAgent.analysis_file := None;
           SchemaAnalyzerAgent.schema_file := None;
           SchemaAnalyzerAgent.iterations := 0;
           SchemaAnalyzerAgent.res_satisfied := false |}, [EvStart false]).
Proof. by vm_compute. Qed.

(** The session does not come up in the execution phase: the exception
    propagates, after the shutdown. *)
Example execution_without_session :
  let '(r, _, evs) :=
    MigrationExecutor.execute_migration Sample.one_unit_fails elements_order
      Sample.describe (StartFailsReady (PyException "Kernel did not respond"))
      Sample.executor Sample.context in
  r = Raises (PyException "Kernel did not respond")
  /\ evs = [EvStart false; EvShutdown].
Proof. by vm_compute. Qed.

(** * Further properties of the code *)

(** ** The kernel channel *)

Section KernelChannel.
Import JupyterKernelSession.
Variable msg_id : string.

Lemma read_iopub_skip msg rest chunks :
  addressed_to msg_id msg = false ->
  read_iopub msg_id (msg :: rest) chunks = read_iopub msg_id rest chunks.
Proof. unfold addressed_to. cbn. by intros ->. Qed.

Lemma read_iopub_chunk msg rest chunks :
  addressed_to msg_id msg = true -> is_error msg = false -> is_idle msg = false ->
  read_iopub msg_id (msg :: rest) chunks = read_iopub msg_id rest (chunks ++ chunk_of msg).
Proof.
  unfold addressed_to, is_error, is_idle, chunk_of. cbn. intros -> Herr Hidle. cbn.
  destruct (String.eqb (msg_type msg) "stream"); [done|].
  destruct (String.eqb (msg_type msg) "execute_result").
  - destruct (text_plain msg) as [p|]; [destruct (PyStr.truthy p)|]; by rewrite ?app_nil_r.
  - rewrite Herr, Hidle. by rewrite app_nil_r.
Qed.

Lemma read_iopub_open pre rest : forall chunks,
  reply_open msg_id pre ->
  read_iopub msg_id (pre ++ rest) chunks
  = read_iopub msg_id rest
      (chunks ++ flat_map chunk_of (List.filter (addressed_to msg_id) pre)).
Proof.
  induction pre as [|msg pre IH]; intros chunks Hopen.
  - cbn. by rewrite app_nil_r.
  - apply Forall_cons in Hopen as [Hmsg Hpre]. cbn [app List.filter].
    destruct (addressed_to msg_id msg) eqn:Haddr.
    + destruct (Hmsg eq_refl) as [Herr Hidle].
      rewrite read_iopub_chunk by done. rewrite IH by done.
      cbn [flat_map]. by rewrite app_assoc.
    + rewrite read_iopub_skip by done. by apply IH.
Qed.

End KernelChannel.

(** X1.  Messages of the IOPub channel that answer another request are
    skipped: [execute] reads the same result whether or not they are
    interleaved with the messages of its own request. *)
Theorem iopub_foreign_messages_ignored (msg_id : string)
    (msgs : list JupyterKernelSession.IopubMessage) (output_chunks : list string) :
  JupyterKernelSession.read_iopub msg_id msgs output_chunks
  = JupyterKernelSession.read_iopub msg_id (List.filter (addressed_to msg_id) msgs)
      output_chunks.
Proof.
  revert output_chunks. induction msgs as [|msg msgs IH]; intros chunks; [done|].
  cbn [List.filter]. destruct (addressed_to msg_id msg) eqn:Haddr.
  - unfold addressed_to in Haddr. cbn. rewrite Haddr. cbn.
    repeat match goal with
           | |- context [if ?b then _ else _] => destruct b
           | |- context [match ?o with Some _ => _ | None => _ end] => destruct o
           end; try done; apply IH.
  - rewrite read_iopub_skip by done. apply IH.
Qed.

(** X2.  The reply to a request is decided by the first of its messages
    that is an error or the idle status.  Up to the idle status the output
    is the concatenation, in order of arrival, of the stream texts and the
    non-empty execution results, and later messages are not read; an error
    raises [RuntimeError] with the traceback lines joined, whatever output
    had arrived before it; when neither arrives the execution times
    out. *)
Theorem iopub_reply_outcome (msg_id : string)
    (pre post : list JupyterKernelSession.IopubMessage)
    (msg : JupyterKernelSession.IopubMessage) :
  reply_open msg_id pre ->
  (JupyterKernelSession.read_iopub msg_id pre []
   = Raise (PyException "Jupyter kernel did not respond within timeout."))
  /\ (addressed_to msg_id msg = true -> is_idle msg = true ->
      JupyterKernelSession.read_iopub msg_id (pre ++ msg :: post) []
      = Ok (String.concat EmptyString
              (flat_map chunk_of (List.filter (addressed_to msg_id) pre))))
  /\ (addressed_to msg_id msg = true -> is_error msg = true ->
      JupyterKernelSession.read_iopub msg_id (pre ++ msg :: post) []
      = Raise (PyException
                 ("Kernel execution error:" +:+ PyStr.nl
                  +:+ PyStr.join_lines
                        (default [] (JupyterKernelSession.traceback msg))))).
Proof.
  intros Hopen. split; [|split].
  - rewrite <- (app_nil_r pre). by rewrite read_iopub_open.
  - intros Haddr Hidle. rewrite read_iopub_open by done. cbn [app].
    unfold addressed_to, is_idle, is_error in *. cbn. rewrite Haddr. cbn.
    apply andb_true_iff in Hidle as [Htype Hstate].
    apply String.eqb_eq in Htype. rewrite Htype. cbn. by rewrite Hstate.
  - intros Haddr Herr. rewrite read_iopub_open by done. cbn [app].
    unfold addressed_to, is_error in *. cbn. rewrite Haddr. cbn.
    apply String.eqb_eq in Herr. rewrite Herr. done.
Qed.

(** ** The worker's session *)

(** X3.  A start of the worker's kernel that fails leaves a session
    object behind: a second [start_kernel] does nothing (it neither starts
    the kernel nor reports a failure), and every execution raises
    "Kernel session has not been started." without reaching the kernel,
    until [shutdown_kernel] has dropped the session, after which
    [start_kernel] starts a fresh one. *)
Theorem failed_start_is_not_retried (o : start_outcome) (w w' : WorkerAgent.t) (e : exn)
    (evs : list event) :
  WorkerAgent.start_kernel o w = (w', Some e, evs) ->
  (forall o', WorkerAgent.start_kernel o' w' = (w', None, []))
  /\ (forall E task_id att code,
        WorkerAgent.kernel_execute E w' task_id att code
        = (Raise (PyException "Kernel session has not been started."), []))
  /\ WorkerAgent.kernel (WorkerAgent.shutdown_kernel w').1 = None
  /\ exists started,
       WorkerAgent.start_kernel StartReady (WorkerAgent.shutdown_kernel w').1
       = (started, None, [EvStart true])
       /\ forall E task_id att code,
            WorkerAgent.kernel_execute E started task_id att code
            = (WorkerAgent.kernel_run E task_id att code, [EvExecute code]).
Proof.
  unfold WorkerAgent.start_kernel.
  destruct (WorkerAgent.kernel w) as [s|] eqn:Hk; [intros [= _ ? _]; done|].
  unfold JupyterKernelSession.start. cbn.
  destruct o as [|e0|e0]; [intros [= _ ? _]; done|..]; intros [= <- <- <-]; cbn;
    (split; [done|]); (split; [done|]); (split; [done|]); eexists; (split; [reflexivity|]);
    done.
Qed.

(** ** The retry controller: accounting *)

Lemma count_requests_app evs evs' :
  count_requests (evs ++ evs') = (count_requests evs + count_requests evs')%nat.
Proof. unfold count_requests. by rewrite List.filter_app, length_app. Qed.

Lemma count_executes_app evs evs' :
  count_executes (evs ++ evs') = (count_executes evs + count_executes evs')%nat.
Proof. unfold count_executes. by rewrite List.filter_app, length_app. Qed.

Lemma range_cons a b : a < b -> Py.range a b = a :: Py.range (a + 1) b.
Proof.
  intros Hab. unfold Py.range.
  replace (Z.to_nat (b - a)) with (S (Z.to_nat (b - (a + 1)))) by lia.
  cbn [seq map]. f_equal; [lia|].
  rewrite <- seq_shift, map_map. apply map_ext. intros i. lia.
Qed.

Section RetryAccounting.
Import WorkerAgent.
Variables (E : Env) (w : t) (task_id task_description : string) (context : Context).

(** The kernel is asked at most once per call, and only by an
    [EvExecute] event. *)
Lemma kernel_execute_events att code :
  let evs := (kernel_execute E w task_id att code).2 in
  count_requests evs = 0%nat /\ (count_executes evs <= 1)%nat.
Proof.
  unfold kernel_execute. destruct (kernel w) as [s|]; [|cbn; lia].
  unfold JupyterKernelSession.execute. destruct (_ || _); cbn; lia.
Qed.

(** One attempt sends at most one request and runs at most one
    execution, and only after its request; an attempt that ends normally
    has sent exactly one request. *)
Lemma attempt_body_events att st :
  let '(r, evs) := attempt_body E w task_id task_description context att st in
  (count_requests evs <= 1)%nat
  /\ (count_executes evs <= count_requests evs)%nat
  /\ (forall x, r = Ok x -> count_requests evs = 1%nat).
Proof.
  unfold attempt_body, _ask_llm_for_code. cbn [last_error last_output conversation].
  destruct (request_messages _ _ _ _ _ _ _) as [messages|e]; [|cbn; repeat split; try lia; done].
  destruct (llm_create E task_id att messages) as [response|e];
    [|cbn; repeat split; try lia; done].
  destruct (CodeFence.insufficient _); [cbn; repeat split; lia|].
  pose proof (kernel_execute_events att (_extract_code response)) as Hk. cbn zeta in Hk.
  destruct (kernel_execute E w task_id att (_extract_code response)) as [ran ev2].
  cbn [snd] in Hk. destruct Hk as [Hreq Hexe].
  assert (Hcount : (count_requests ([EvRequest messages] ++ ev2) = 1
                    /\ count_executes ([EvRequest messages] ++ ev2) <= 1)%nat).
  { rewrite count_requests_app, count_executes_app, Hreq. cbn. lia. }
  destruct ran as [raw|e].
  - destruct (_parse_task_result E raw) as [| | | | |kvs];
      try (repeat split; lia).
    destruct (Py.truthy _); repeat split; lia.
  - destruct (caught_by_except_Exception e); repeat split; lia.
Qed.

(** The state an attempt leaves: it carries the attempt number; it is
    successful exactly when the loop is left, and then it holds an
    envelope that reports success; a failed attempt records an error. *)
Lemma attempt_body_state att st st' fl evs :
  attempt_body E w task_id task_description context att st = (Ok (st', fl), evs) ->
  attempt st' = att
  /\ match fl with
     | Break => success st' = true
                /\ exists kvs, result_data st' = JObj kvs
                               /\ Py.truthy (Py.lookup kvs "success") = true
     | Next => success st' = success st /\ last_error st' <> JNull
     end.
Proof.
  unfold attempt_body.
  destruct (_ask_llm_for_code _ _ _ _ _ _ _ _) as [[code|e] ev1]; [|done].
  destruct (CodeFence.insufficient code); [intros [= <- <- _]; done|].
  destruct (kernel_execute E w task_id att code) as [[raw|e] ev2].
  - destruct (_parse_task_result E raw) as [| | | | |kvs] eqn:Hparse;
      try (intros [= <- <- _]; done).
    destruct (Py.truthy (Py.lookup kvs "success")) eqn:Hflag.
    + intros [= <- <- _]. cbn. eauto.
    + intros [= <- <- _]. cbn. split; [done|]. split; [done|].
      unfold reported_error, Py.or_.
      destruct (Py.truthy (Py.lookup kvs "error")) eqn:He; [by intros Hn; rewrite Hn in He|].
      destruct (Py.truthy (Py.lookup kvs "message")) eqn:Hm; [by intros Hn; rewrite Hn in Hm|].
      done.
  - destruct (caught_by_except_Exception e); [|done]. intros [= <- <- _]. done.
Qed.

Lemma attempts_loop_accounting (n : nat) : forall a b st,
  Z.to_nat (b - a) = n ->
  let '(r, evs) := attempts_loop E w task_id task_description context (Py.range a b) st in
  (count_requests evs <= n)%nat
  /\ (count_executes evs <= count_requests evs)%nat
  /\ (forall st', r = Ok st' ->
        (count_requests evs = 0%nat /\ st' = st)
        \/ ((0 < count_requests evs)%nat
            /\ attempt st' = a + Z.of_nat (count_requests evs) - 1)).
Proof.
  induction n as [|n IH]; intros a b st Hn.
  - rewrite range_empty by lia. cbn. split; [lia|]. split; [lia|].
    intros st' [= <-]. by left.
  - rewrite range_cons by lia. cbn [attempts_loop].
    pose proof (attempt_body_events a st) as Hev.
    destruct (attempt_body E w task_id task_description context a st) as [r1 evs1] eqn:Hbody.
    destruct Hev as (Hreq & Hexe & Hone).
    destruct r1 as [[st1 fl]|e]; [|repeat split; try lia; done].
    specialize (Hone _ eq_refl).
    destruct (attempt_body_state _ _ _ _ _ Hbody) as [Hatt _].
    destruct fl.
    + specialize (IH (a + 1) b st1 ltac:(lia)).
      destruct (attempts_loop E w task_id task_description context (Py.range (a + 1) b) st1)
        as [r2 evs2].
      destruct IH as (Hreq2 & Hexe2 & Hst2).
      rewrite count_requests_app, count_executes_app.
      split; [lia|]. split; [lia|].
      intros st' ->. right. split; [lia|].
      destruct (Hst2 st' eq_refl) as [[Hz ->]|[Hpos Hat]]; lia.
    + split; [lia|]. split; [lia|]. intros st' [= <-]. right. lia.
Qed.

(** The outcome of the loop, from a state that is not successful. *)
Lemma attempts_loop_outcome atts : forall st st' evs,
  success st = false ->
  attempts_loop E w task_id task_description context atts st = (Ok st', evs) ->
  (success st' = true
   /\ (exists kvs, result_data st' = JObj kvs
                   /\ Py.truthy (Py.lookup kvs "success") = true)
   /\ attempt st' ∈ atts)
  \/ (success st' = false
      /\ attempt st' = List.last atts (attempt st)
      /\ (atts <> [] -> last_error st' <> JNull)).
Proof.
  induction atts as [|a atts IH]; intros st st' evs Hs.
  - intros [= <- _]. right. done.
  - cbn [attempts_loop].
    destruct (attempt_body E w task_id task_description context a st)
      as [[[st1 fl]|e] evs1] eqn:Hbody; [|done].
    destruct (attempt_body_state _ _ _ _ _ Hbody) as [Hatt Hfl].
    destruct fl.
    + destruct Hfl as [Hs1 Herr].
      destruct (attempts_loop E w task_id task_description context atts st1)
        as [r2 evs2] eqn:Hloop.
      intros [= -> _]. destruct (IH st1 st' evs2 ltac:(congruence) Hloop)
        as [(? & ? & Hin)|(? & Hlast & Hne)].
      * left. split; [done|]. split; [done|]. by right.
      * right. split; [done|]. split.
        -- rewrite Hlast, Hatt. destruct atts as [|b atts']; [done|].
           change (List.last (a :: b :: atts') (attempt st))
             with (List.last (b :: atts') (attempt st)).
           apply last_nonempty_default.
        -- intros _. destruct atts as [|b atts']; [|by apply Hne].
           cbn in Hloop. by injection Hloop as <- _.
    + destruct Hfl as [Hs1 Hkvs]. intros [= <- _]. left.
      split; [done|]. split; [done|]. rewrite Hatt. left.
Qed.

End RetryAccounting.

(** The requests and executions of one [execute_task]. *)
Lemma execute_task_counts (E : WorkerAgent.Env) (w : WorkerAgent.t)
    (task_id task_description : string) (context : WorkerAgent.Context) :
  let run := WorkerAgent.execute_task E w task_id task_description context in
  (count_requests run.2 <= Z.to_nat (WorkerAgent.max_attempts w))%nat
  /\ (count_executes run.2 <= count_requests run.2)%nat
  /\ forall out, run.1 = Ok out ->
       WorkerAgent.out_attempts out = Z.of_nat (count_requests run.2).
Proof.
  cbn zeta. unfold WorkerAgent.execute_task.
  pose proof (attempts_loop_accounting E w task_id task_description context
                (Z.to_nat (WorkerAgent.max_attempts w)) 1 (WorkerAgent.max_attempts w + 1)
                WorkerAgent.locals0 ltac:(lia)) as H.
  destruct (WorkerAgent.attempts_loop _ _ _ _ _ _ _) as [r evs].
  destruct H as (Hreq & Hexe & Hst).
  destruct r as [st|e]; cbn [fst snd]; (split; [done|]); (split; [done|]); [|done].
  intros out [= <-]. cbn [WorkerAgent.out_attempts].
  destruct (Hst st eq_refl) as [[-> ->]|[_ ->]]; [done|lia].
Qed.

(** X4.  Whatever the collaborators do, [execute_task] sends at most
    [max_attempts] generation requests, and never runs more executions
    than it has sent requests; when it returns, the [attempts] it reports
    is the number of requests it sent. *)
Theorem execute_task_accounting (E : WorkerAgent.Env) (w : WorkerAgent.t)
    (task_id task_description : string) (context : WorkerAgent.Context) :
  let run := WorkerAgent.execute_task E w task_id task_description context in
  (count_requests run.2 <= Z.to_nat (WorkerAgent.max_attempts w))%nat
  /\ (count_executes run.2 <= count_requests run.2)%nat
  /\ forall out, run.1 = Ok out ->
       WorkerAgent.out_attempts out = Z.of_nat (count_requests run.2).
Proof. exact (execute_task_counts E w task_id task_description context). Qed.

(** X5.  The outcome of [execute_task] is consistent: a successful
    outcome carries no error, an envelope whose [success] entry is truthy
    and the number of the attempt that produced it; a failed outcome has
    used the whole attempt budget and, when at least one attempt was
    made, carries an error. *)
Theorem execute_task_outcome (E : WorkerAgent.Env) (w : WorkerAgent.t)
    (task_id task_description : string) (context : WorkerAgent.Context) :
  forall out,
    (WorkerAgent.execute_task E w task_id task_description context).1 = Ok out ->
    (WorkerAgent.out_success out = true ->
     WorkerAgent.out_last_error out = JNull
     /\ 1 <= WorkerAgent.out_attempts out <= WorkerAgent.max_attempts w
     /\ exists kvs, WorkerAgent.out_result out = JObj kvs
                    /\ Py.truthy (Py.lookup kvs "success") = true)
    /\ (WorkerAgent.out_success out = false ->
        WorkerAgent.out_attempts out = Z.max 0 (WorkerAgent.max_attempts w)
        /\ (1 <= WorkerAgent.max_attempts w -> WorkerAgent.out_last_error out <> JNull)).
Proof.
  intros out. unfold WorkerAgent.execute_task.
  destruct (WorkerAgent.attempts_loop _ _ _ _ _ _ _) as [[st|e] evs] eqn:Hloop; [|done].
  intros [= <-]. cbn.
  destruct (attempts_loop_outcome E w task_id task_description context _
              WorkerAgent.locals0 _ _ eq_refl Hloop)
    as [(Hs & Hkvs & Hin)|(Hs & Hlast & Hne)]; rewrite Hs.
  - split; [|done]. intros _. split; [done|]. split; [|done].
    pose proof (range_bounds 1 (WorkerAgent.max_attempts w + 1)) as Hb.
    rewrite List.Forall_forall in Hb. apply list_elem_of_In, Hb in Hin. lia.
  - split; [done|]. intros _. rewrite Hlast. cbn.
    destruct (Z.le_gt_cases 1 (WorkerAgent.max_attempts w)) as [Hpos|Hneg].
    + rewrite range_last by lia. split; [lia|]. intros _. apply Hne.
      rewrite range_cons by lia. done.
    + rewrite range_empty by lia. cbn. split; [lia|]. lia.
Qed.

(** ** The retry controller: the first success *)

Section FirstSuccess.
Import WorkerAgent.
Variables (E : Env) (w : t) (task_id task_description : string) (context : Context).

Lemma map_seq_from {A} (f : nat -> A) (q s : nat) :
  map f (seq s q) = map (fun i => f (s + i)%nat) (seq 0 q).
Proof.
  replace s with (s + 0)%nat at 1 by lia.
  rewrite <- (fmap_add_seq s 0 q). change (map f (Nat.add s <$> seq 0 q))
    with (f <$> (Nat.add s <$> seq 0 q)). by rewrite <- list_fmap_compose.
Qed.

Lemma range_split a k b : a <= k -> k < b ->
  Py.range a b = Py.range a k ++ k :: Py.range (k + 1) b.
Proof.
  intros Hak Hkb. unfold Py.range.
  replace (Z.to_nat (b - a)) with (Z.to_nat (k - a) + S (Z.to_nat (b - (k + 1))))%nat by lia.
  rewrite seq_app, map_app. f_equal. cbn [seq map]. f_equal; [lia|].
  rewrite map_seq_from. apply map_ext. intros i. lia.
Qed.

(** A run of failing attempts hands its state on to the attempts that
    follow, after one request per attempt. *)
Lemma attempts_loop_fail_then n atts : forall st,
  always_fails E w task_id n ->
  Forall (fun a => 1 <= a <= n) atts ->
  tidy st ->
  exists st1 evs1,
    (forall rest,
        attempts_loop E w task_id task_description context (atts ++ rest) st
        = (let '(r, evs') :=
             attempts_loop E w task_id task_description context rest st1 in
           (r, evs1 ++ evs')))
    /\ success st1 = success st /\ tidy st1
    /\ count_requests evs1 = length atts.
Proof.
  intros st Hall Hatts. revert st.
  induction Hatts as [|a atts Ha Hatts IH]; intros st Hst.
  - exists st, []. split; [|done]. intros rest. cbn. by destruct (attempts_loop _ _ _ _ _ _ _).
  - destruct (request_messages_ok E task_description context a (last_error st)
                (last_output st) (conversation st) Hst) as [messages Hreq].
    destruct (Hall a messages Ha) as (response & err & Hllm & Hfail).
    destruct (attempt_body_fails E w task_id task_description context a st messages
                response err Hreq Hllm Hfail) as (st1 & evs1 & Hbody & Herr & Hatt & Hsucc).
    assert (Hst1 : tidy st1).
    { right. rewrite Herr. eapply attempt_fails_str, Hfail. }
    destruct (IH st1 Hst1) as (st2 & evs2 & Hloop & Hsucc2 & Hst2 & Hcount).
    exists st2, (evs1 ++ evs2). split; [|split; [congruence|split; [done|]]].
    + intros rest. cbn [app attempts_loop]. rewrite Hbody, Hloop.
      destruct (attempts_loop E w task_id task_description context rest st2).
      by rewrite app_assoc.
    + rewrite count_requests_app, Hcount.
      pose proof (attempt_body_events E w task_id task_description context a st) as Hev.
      rewrite Hbody in Hev. destruct Hev as (_ & _ & Hone).
      rewrite (Hone _ eq_refl). done.
Qed.

(** A succeeding attempt leaves the loop. *)
Lemma attempt_body_succeeds att st messages response envelope :
  request_messages E task_description context att (last_error st) (last_output st)
    (conversation st) = Ok messages ->
  llm_create E task_id att messages = Ok response ->
  attempt_succeeds E w task_id att (_extract_code response) envelope ->
  exists st' evs,
    attempt_body E w task_id task_description context att st = (Ok (st', Break), evs)
    /\ success st' = true /\ attempt st' = att /\ result_data st' = JObj envelope
    /\ count_requests evs = 1%nat.
Proof.
  intros Hreq Hllm (Hins & raw & ev2 & Hrun & Hparse & Hflag).
  pose proof (attempt_body_events E w task_id task_description context att st) as Hev.
  revert Hev.
  unfold attempt_body, _ask_llm_for_code. cbn [last_error last_output conversation].
  rewrite Hreq, Hllm, Hins, Hrun, Hparse, Hflag. intros (_ & _ & Hone).
  eexists _, _. split; [reflexivity|]. cbn [success attempt result_data].
  repeat split. by apply (Hone _ eq_refl).
Qed.

End FirstSuccess.


(** ** The execution phase: budget and state *)

Section ExecutionBudget.
Import MigrationExecutor.
Variables (E : WorkerAgent.Env) (w : WorkerAgent.t) (context : WorkerAgent.Context).

Lemma task_body_events task p :
  let evs := (task_body E w context task p).2 in
  (count_requests evs <= Z.to_nat (WorkerAgent.max_attempts w))%nat
  /\ (count_executes evs <= count_requests evs)%nat.
Proof.
  pose proof (execute_task_counts E w (task_id task) (description task) context) as H.
  cbn zeta in H. destruct H as (Hreq & Hexe & _). unfold task_body.
  destruct (WorkerAgent.execute_task _ _ _ _ _) as [[out|e] evs]; [|done].
  destruct (WorkerAgent.out_success out); [done|].
  by destruct (Py.slice_upto 300 _).
Qed.

Lemma tasks_loop_events tasks : forall p,
  let evs := (tasks_loop E w context tasks p).2 in
  (count_requests evs <= length tasks * Z.to_nat (WorkerAgent.max_attempts w))%nat
  /\ (count_executes evs <= count_requests evs)%nat.
Proof.
  induction tasks as [|task tasks IH]; intros p; [cbn; lia|].
  cbn [tasks_loop]. pose proof (task_body_events task p) as H1. cbn zeta in H1.
  destruct (task_body E w context task p) as [[r p1] evs1]. cbn [snd] in H1.
  destruct r as [u|e]; [|cbn [snd length]; lia].
  specialize (IH p1). cbn zeta in IH.
  destruct (tasks_loop E w context tasks p1) as [[r2 p2] evs2]. cbn [snd] in *.
  rewrite count_requests_app, count_executes_app. cbn [length]. lia.
Qed.

(** The log grows by one entry per task that [execute_task] returned
    for, in the order of the tasks. *)
Lemma tasks_loop_log tasks : forall p,
  let '(r, p', evs) := tasks_loop E w context tasks p in
  exists entries,
    log p' = log p ++ entries
    /\ (length entries <= length tasks)%nat
    /\ (forall u, r = Ok u -> length entries = length tasks).
Proof.
  induction tasks as [|task tasks IH]; intros p.
  - cbn. exists []. by rewrite app_nil_r.
  - cbn [tasks_loop].
    assert (Hbody : let '(r, p1, evs) := task_body E w context task p in
                    exists entries, log p1 = log p ++ entries
                                    /\ (length entries <= 1)%nat
                                    /\ (forall u, r = Ok u -> length entries = 1%nat)).
    { unfold task_body.
      destruct (WorkerAgent.execute_task _ _ _ _ _) as [[out|e] evs].
      - destruct (WorkerAgent.out_success out).
        + eexists [_]. cbn. done.
        + destruct (Py.slice_upto 300 _); eexists [_]; cbn; done.
      - exists []. rewrite app_nil_r. cbn. split; [done|]. split; [lia|done]. }
    destruct (task_body E w context task p) as [[r p1] evs1].
    destruct Hbody as (entries1 & Hlog1 & Hlen1 & Hok1).
    destruct r as [u|e].
    + specialize (IH p1).
      destruct (tasks_loop E w context tasks p1) as [[r2 p2] evs2].
      destruct IH as (entries2 & Hlog2 & Hlen2 & Hok2).
      exists (entries1 ++ entries2). rewrite Hlog2, Hlog1, <- app_assoc, length_app.
      split; [done|]. cbn [length]. split; [lia|].
      intros u' ->. rewrite (Hok1 u eq_refl), (Hok2 u' eq_refl). done.
    + exists entries1. split; [done|]. cbn [length]. split; [lia|done].
Qed.

End ExecutionBudget.

Lemma start_kernel_budget o w :
  let '(w', failure, evs) := WorkerAgent.start_kernel o w in
  WorkerAgent.max_attempts w' = WorkerAgent.max_attempts w
  /\ count_requests evs = 0%nat /\ count_executes evs = 0%nat.
Proof.
  unfold WorkerAgent.start_kernel. destruct (WorkerAgent.kernel w) as [s|]; [done|].
  unfold JupyterKernelSession.start. cbn. by destruct o.
Qed.

Lemma shutdown_kernel_budget w :
  let '(w', evs) := WorkerAgent.shutdown_kernel w in
  WorkerAgent.max_attempts w' = WorkerAgent.max_attempts w
  /\ WorkerAgent.kernel w' = None
  /\ count_requests evs = 0%nat /\ count_executes evs = 0%nat.
Proof.
  unfold WorkerAgent.shutdown_kernel. destruct (WorkerAgent.kernel w) as [s|] eqn:Hk; done.
Qed.

Lemma build_mega_tasks_four O describe tables :
  exists tasks, MigrationExecutor._build_mega_tasks O describe tables = Returns tasks
                /\ length tasks = 4%nat.
Proof.
  unfold MigrationExecutor._build_mega_tasks.
  destruct (ordered_tables_returns O tables) as [order ->]. eauto.
Qed.

(** X7.  Whatever the collaborators do, one run of [execute_migration]
    sends at most four times [max_attempts] generation requests and never
    runs more executions than it has sent requests; for the executor that
    [__init__] builds (seven attempts per task) that is at most 28
    requests. *)
Theorem execute_migration_request_budget :
  (forall E O describe start ex context,
      let evs := (MigrationExecutor.execute_migration E O describe start ex context).2 in
      (count_requests evs
       <= 4 * Z.to_nat (WorkerAgent.max_attempts (MigrationExecutor.worker ex)))%nat
      /\ (count_executes evs <= count_requests evs)%nat)
  /\ (forall E O describe start context,
        let evs := (MigrationExecutor.execute_migration E O describe start
                      MigrationExecutor.__init__ context).2 in
        (count_requests evs <= 28)%nat /\ (count_executes evs <= 28)%nat).
Proof.
  assert (Hgen : forall E O describe start ex context,
      let evs := (MigrationExecutor.execute_migration E O describe start ex context).2 in
      (count_requests evs
       <= 4 * Z.to_nat (WorkerAgent.max_attempts (MigrationExecutor.worker ex)))%nat
      /\ (count_executes evs <= count_requests evs)%nat).
  { intros E O describe start ex context. cbn zeta.
    unfold MigrationExecutor.execute_migration, MigrationExecutor.try_body.
    pose proof (start_kernel_budget start (MigrationExecutor.worker ex)) as Hstart.
    destruct (WorkerAgent.start_kernel start (MigrationExecutor.worker ex))
      as [[w failure] ev0].
    destruct Hstart as (Hmax & Hr0 & He0).
    pose proof (shutdown_kernel_budget w) as Hdown.
    destruct failure as [e|].
    - cbn [MigrationExecutor.worker]. destruct (WorkerAgent.shutdown_kernel w) as [w' evd].
      destruct Hdown as (_ & _ & Hrd & Hed). cbn [snd].
      rewrite count_requests_app, count_executes_app. lia.
    - destruct (build_mega_tasks_four O describe (WorkerAgent.catalog context))
        as (tasks & -> & Hlen).
      pose proof (tasks_loop_events E w context tasks
                    {| MigrationExecutor.completed := []; MigrationExecutor.failed := [];
                       MigrationExecutor.log := MigrationExecutor.self_execution_log ex |})
        as Hloop. cbn zeta in Hloop.
      destruct (MigrationExecutor.tasks_loop _ _ _ _ _) as [[r p] evs]. cbn [snd] in Hloop.
      rewrite Hlen, Hmax in Hloop.
      destruct r as [u|e]; cbn [MigrationExecutor.worker];
        destruct (WorkerAgent.shutdown_kernel w) as [w' evd];
        destruct Hdown as (_ & _ & Hrd & Hed); cbn [snd];
        rewrite ?count_requests_app, ?count_executes_app; cbn [count_requests count_executes
          List.filter is_request is_execute length]; lia. }
  split; [exact Hgen|].
  intros E O describe start context. cbn zeta.
  destruct (Hgen E O describe start MigrationExecutor.__init__ context) as [Hreq Hexe].
  cbn in Hreq. split; lia.
Qed.

(** X8.  After [execute_migration] has returned or raised, the worker
    holds no kernel and keeps its attempt budget, and the executor's log
    is the log it had before followed by at most four new entries; when a
    report is returned there are exactly four new entries and the report's
    log is the executor's whole log.  So the log accumulates: the report
    of a second run on the same executor starts with all entries of the
    first report. *)
Theorem executor_state_after_run :
  (forall E O describe start ex context,
      let '(r, ex', evs) :=
        MigrationExecutor.execute_migration E O describe start ex context in
      WorkerAgent.kernel (MigrationExecutor.worker ex') = None
      /\ WorkerAgent.max_attempts (MigrationExecutor.worker ex')
         = WorkerAgent.max_attempts (MigrationExecutor.worker ex)
      /\ exists entries,
           MigrationExecutor.self_execution_log ex'
           = MigrationExecutor.self_execution_log ex ++ entries
           /\ (length entries <= 4)%nat
           /\ forall report, r = Returns report ->
                MigrationExecutor.execution_log report
                = MigrationExecutor.self_execution_log ex'
                /\ length entries = 4%nat
                /\ MigrationExecutor.total_tasks report = 4)
  /\ (forall E1 E2 O1 O2 describe1 describe2 start1 start2 ex context1 context2
             report1 ex1 evs1 report2 ex2 evs2,
        MigrationExecutor.execute_migration E1 O1 describe1 start1 ex context1
        = (Returns report1, ex1, evs1) ->
        MigrationExecutor.execute_migration E2 O2 describe2 start2 ex1 context2
        = (Returns report2, ex2, evs2) ->
        exists entries,
          MigrationExecutor.execution_log report2
          = MigrationExecutor.execution_log report1 ++ entries
          /\ length entries = 4%nat
          /\ MigrationExecutor.total_tasks report2 = 4).
Proof.
  assert (Hgen : forall E O describe start ex context,
      let '(r, ex', evs) :=
        MigrationExecutor.execute_migration E O describe start ex context in
      WorkerAgent.kernel (MigrationExecutor.worker ex') = None
      /\ WorkerAgent.max_attempts (MigrationExecutor.worker ex')
         = WorkerAgent.max_attempts (MigrationExecutor.worker ex)
      /\ exists entries,
           MigrationExecutor.self_execution_log ex'
           = MigrationExecutor.self_execution_log ex ++ entries
           /\ (length entries <= 4)%nat
           /\ forall report, r = Returns report ->
                MigrationExecutor.execution_log report
                = MigrationExecutor.self_execution_log ex'
                /\ length entries = 4%nat
                /\ MigrationExecutor.total_tasks report = 4).
  { intros E O describe start ex context.
    unfold MigrationExecutor.execute_migration, MigrationExecutor.try_body.
    pose proof (start_kernel_budget start (MigrationExecutor.worker ex)) as Hstart.
    destruct (WorkerAgent.start_kernel start (MigrationExecutor.worker ex))
      as [[w failure] ev0].
    destruct Hstart as (Hmax & _ & _).
    pose proof (shutdown_kernel_budget w) as Hdown.
    destruct failure as [e|].
    - cbn [MigrationExecutor.worker MigrationExecutor.self_execution_log].
      destruct (WorkerAgent.shutdown_kernel w) as [w' evd].
      destruct Hdown as (Hmax' & Hnone & _).
      cbn [MigrationExecutor.worker MigrationExecutor.self_execution_log].
      split; [done|]. split; [congruence|]. exists []. rewrite app_nil_r.
      split; [done|]. split; [cbn; lia|done].
    - destruct (build_mega_tasks_four O describe (WorkerAgent.catalog context))
        as (tasks & -> & Hlen).
      pose proof (tasks_loop_log E w context tasks
                    {| MigrationExecutor.completed := []; MigrationExecutor.failed := [];
                       MigrationExecutor.log := MigrationExecutor.self_execution_log ex |})
        as Hloop.
      destruct (MigrationExecutor.tasks_loop _ _ _ _ _) as [[r p] evs].
      destruct Hloop as (entries & Hlog & Hle & Hok). cbn [MigrationExecutor.log] in Hlog.
      rewrite Hlen in Hle, Hok.
      destruct r as [u|e];
        cbn [MigrationExecutor.worker MigrationExecutor.self_execution_log];
        destruct (WorkerAgent.shutdown_kernel w) as [w' evd];
        destruct Hdown as (Hmax' & Hnone & _);
        cbn [MigrationExecutor.worker MigrationExecutor.self_execution_log];
        (split; [done|]); (split; [congruence|]); exists entries;
        (split; [done|]); (split; [done|]).
      + intros report [= <-]. cbn. rewrite Hlen. split; [done|]. split; [by eapply Hok|done].
      + done. }
  split; [exact Hgen|].
  intros E1 E2 O1 O2 describe1 describe2 start1 start2 ex context1 context2
    report1 ex1 evs1 report2 ex2 evs2 Hrun1 Hrun2.
  pose proof (Hgen E1 O1 describe1 start1 ex context1) as H1. rewrite Hrun1 in H1.
  pose proof (Hgen E2 O2 describe2 start2 ex1 context2) as H2. rewrite Hrun2 in H2.
  destruct H1 as (_ & _ & entries1 & Hlog1 & _ & Hrep1).
  destruct H2 as (_ & _ & entries2 & Hlog2 & _ & Hrep2).
  destruct (Hrep1 _ eq_refl) as (Hr1 & _ & _).
  destruct (Hrep2 _ eq_refl) as (Hr2 & Hlen2 & Htot2).
  exists entries2. rewrite Hr2, Hlog2, Hr1. done.
Qed.

(** ** The discovery phase: accounting and verdict *)

Section DiscoveryLoop.
Import SchemaAnalyzerAgent.
Variables (E : Env) (a : t) (session : JupyterKernelSession.t).

Lemma session_execute_events run code :
  let evs := (JupyterKernelSession.execute run session code).2 in
  count_requests evs = 0%nat /\ (count_executes evs <= 1)%nat.
Proof. unfold JupyterKernelSession.execute. destruct (_ || _); cbn; lia. Qed.

(** One iteration sends exactly one request and runs at most one
    execution. *)
Lemma iteration_body_events it st :
  let evs := (iteration_body E a session it st).2 in
  count_requests evs = 1%nat /\ (count_executes evs <= 1)%nat.
Proof.
  unfold iteration_body, _ask_llm_for_code.
  destruct (llm_create E it _) as [response|e]; [|cbn; lia].
  destruct (CodeFence.insufficient _); [cbn; lia|].
  pose proof (session_execute_events (kernel_run E it) (_extract_code response)) as Hx.
  cbn zeta in Hx.
  destruct (JupyterKernelSession.execute (kernel_run E it) session (_extract_code response))
    as [ran ev2]. cbn [snd] in Hx. destruct Hx as [Hreq Hexe].
  assert (Hcount : (count_requests ([EvRequest (request_messages E it (last_error st)
                                                  (conversation st))] ++ ev2) = 1
                    /\ count_executes ([EvRequest (request_messages E it (last_error st)
                                                     (conversation st))] ++ ev2) <= 1)%nat).
  { rewrite count_requests_app, count_executes_app, Hreq. cbn. lia. }
  destruct ran as [raw|e].
  - destruct (_parse_kernel_output E raw) as [[tables rels|v]|e]; cbn [snd].
    + destruct (log_sink E it _ raw); [done|].
      destruct tables; [done|].
      by destruct (check_stability _ _ _ _) as [[rounds prev] sat].
    + done.
    + destruct (caught_by_except_Exception e); [|done].
      by destruct (log_sink E it _ _).
  - cbn [snd]. destruct (caught_by_except_Exception e); [|done].
    by destruct (log_sink E it _ _).
Qed.

(** The state one iteration leaves. *)
Lemma iteration_body_state it st st' fl evs :
  iteration_body E a session it st = (Ok (st', fl), evs) ->
  iteration st' = it
  /\ (stable_rounds st' = stable_rounds st \/ stable_rounds st' = stable_rounds st + 1
      \/ stable_rounds st' = 1)
  /\ match fl with
     | Break => satisfied st' = true /\ metadata st' <> []
                /\ stable_rounds_required a <= stable_rounds st'
     | Next => satisfied st = false -> satisfied st' = false
     end.
Proof.
  unfold iteration_body.
  destruct (_ask_llm_for_code E it _ _) as [[code|e] ev1]; [|done].
  destruct (CodeFence.insufficient code); [intros [= <- <- _]; cbn; auto|].
  destruct (JupyterKernelSession.execute _ _ _) as [[raw|e] ev2].
  - destruct (_parse_kernel_output E raw) as [[tables rels|v]|e].
    + destruct (log_sink E it code raw); [done|].
      destruct tables as [|t tables]; [intros [= <- <- _]; cbn; auto|].
      unfold check_stability.
      destruct (decide (Some (_build_fingerprint (t :: tables)) = prev_fingerprint st));
        destruct (Z.leb_spec (stable_rounds_required a) (stable_rounds st + 1));
        destruct (Z.leb_spec (stable_rounds_required a) 1);
        intros [= <- <- _]; cbn; repeat split; auto; done.
    + done.
    + destruct (caught_by_except_Exception e); [|done].
      destruct (log_sink E it code _); [done|]. intros [= <- <- _]; cbn; auto.
  - destruct (caught_by_except_Exception e); [|done].
    destruct (log_sink E it code _); [done|]. intros [= <- <- _]; cbn; auto.
Qed.

Lemma iterations_loop_accounting (n : nat) : forall lo hi st,
  Z.to_nat (hi - lo) = n ->
  let '(r, last, evs) := iterations_loop E a session (Py.range lo hi) st in
  (count_requests evs <= n)%nat
  /\ (count_executes evs <= count_requests evs)%nat
  /\ ((count_requests evs = 0%nat /\ iteration last = iteration st)
      \/ ((0 < count_requests evs)%nat
          /\ iteration last = lo + Z.of_nat (count_requests evs) - 1))
  /\ (forall st', r = Ok st' -> st' = last).
Proof.
  induction n as [|n IH]; intros lo hi st Hn.
  - rewrite range_empty by lia. cbn [iterations_loop].
    split; [cbn; lia|]. split; [cbn; lia|]. split; [by left|]. by intros ? [= <-].
  - rewrite range_cons by lia. cbn [iterations_loop].
    pose proof (iteration_body_events lo st) as Hev. cbn zeta in Hev.
    destruct (iteration_body E a session lo st) as [r1 evs1] eqn:Hbody. cbn [snd] in Hev.
    destruct Hev as [Hreq Hexe].
    destruct r1 as [[st1 fl]|e].
    + destruct (iteration_body_state _ _ _ _ _ Hbody) as (Hit & _ & _).
      destruct fl.
      * specialize (IH (lo + 1) hi st1 ltac:(lia)).
        destruct (iterations_loop E a session (Py.range (lo + 1) hi) st1)
          as [[r2 last] evs2].
        destruct IH as (Hreq2 & Hexe2 & Hlast & Hok).
        rewrite count_requests_app, count_executes_app.
        split; [lia|]. split; [lia|]. split; [|done].
        right. split; [lia|]. destruct Hlast as [[Hz ->]|[Hpos ->]]; lia.
      * split; [lia|]. split; [lia|]. split; [right; lia|]. by intros ? [= <-].
    + cbn [iteration]. split; [lia|]. split; [lia|]. split; [right; lia|]. done.
Qed.

(** The verdict the loop leaves, from a state that is not satisfied and
    whose counter is below the next iteration number. *)
Lemma iterations_loop_verdict (n : nat) : forall lo hi st st' last evs,
  Z.to_nat (hi - lo) = n ->
  1 <= lo -> satisfied st = false -> stable_rounds st < lo ->
  iterations_loop E a session (Py.range lo hi) st = (Ok st', last, evs) ->
  (satisfied st' = true /\ metadata st' <> []
   /\ stable_rounds_required a <= stable_rounds st' <= iteration st')
  \/ (satisfied st' = false
      /\ ((hi <= lo /\ st' = st) \/ (lo < hi /\ iteration st' = hi - 1))).
Proof.
  induction n as [|n IH]; intros lo hi st st' last evs Hn Hlo Hsat Hrounds.
  - rewrite range_empty by lia. cbn. intros [= <- _ _]. right. split; [done|]. left.
    split; [lia|done].
  - rewrite range_cons by lia. cbn [iterations_loop].
    destruct (iteration_body E a session lo st) as [[[st1 fl]|e] evs1] eqn:Hbody; [|done].
    destruct (iteration_body_state _ _ _ _ _ Hbody) as (Hit & Hr & Hfl).
    destruct fl.
    + destruct (iterations_loop E a session (Py.range (lo + 1) hi) st1)
        as [[r2 last2] evs2] eqn:Hloop.
      intros [= -> _ _].
      destruct (IH (lo + 1) hi st1 st' last2 evs2 ltac:(lia) ltac:(lia) (Hfl Hsat)
                  ltac:(lia) Hloop) as [?|[Hs [[Hle ->]|[Hlt Hlast]]]].
      * by left.
      * right. split; [done|]. right. lia.
      * right. split; [done|]. right. lia.
    + intros [= <- _ _]. left. destruct Hfl as (? & ? & ?).
      split; [done|]. split; [done|]. lia.
Qed.

(** The loop in a steady environment: iteration [lo] sees the counter
    [lo - 1] and leaves [lo]; the loop ends with the first iteration that
    reaches [target]. *)
Lemma iterations_loop_steady fp (m : nat) : forall lo hi st,
  steady E fp ->
  JupyterKernelSession._started session = true -> JupyterKernelSession.kc session = true ->
  1 <= lo -> stable_rounds st = lo - 1 ->
  (lo = 1 \/ prev_fingerprint st = Some fp) ->
  (lo = 1 -> prev_fingerprint st = None) ->
  lo + Z.of_nat m = Z.max 1 (stable_rounds_required a) ->
  lo + Z.of_nat m < hi ->
  exists st' evs,
    iterations_loop E a session (Py.range lo hi) st = (Ok st', st', evs)
    /\ satisfied st' = true /\ metadata st' <> []
    /\ iteration st' = lo + Z.of_nat m
    /\ count_requests evs = S m.
Proof.
  induction m as [|m IH]; intros lo hi st Hsteady Hstarted Hkc Hlo Hrounds Hprev Hfirst
    Htarget Hhi.
  all: rewrite range_cons by lia; cbn [iterations_loop].
  all: pose proof (iteration_body_events lo st) as Hev; cbn zeta in Hev.
  all: revert Hev; unfold iteration_body, _ask_llm_for_code.
  all: destruct (Hsteady lo (request_messages E lo (last_error st) (conversation st)))
         as (response & raw & tables & rels & Hllm & Hins & Hrun & Hparse & Hne & Hfp & Hlog).
  all: unfold JupyterKernelSession.execute; rewrite Hllm, Hins, Hstarted, Hkc; cbn [negb orb];
       rewrite Hrun, Hparse, Hlog.
  all: destruct tables as [|t tables]; [done|]; rewrite Hfp.
  all: assert (Hcheck : check_stability (stable_rounds_required a) fp (prev_fingerprint st)
                          (stable_rounds st)
                        = (lo, Some fp, stable_rounds_required a <=? lo)).
  1, 3: destruct (decide (lo = 1)) as [-> | Hne1];
        [ rewrite (Hfirst eq_refl), check_stability_mismatch by done; done
        | destruct Hprev as [? | ->]; [lia|]; rewrite check_stability_agree;
          rewrite Hrounds; do 3 f_equal; lia ].
  all: rewrite Hcheck.
  - destruct (Z.leb_spec (stable_rounds_required a) lo); [|lia].
    intros [Hone _]. cbn [snd] in Hone. eexists _, _. split; [reflexivity|]. cbn.
    repeat split; try done. lia.
  - destruct (Z.leb_spec (stable_rounds_required a) lo); [lia|].
    intros [Hone _]. cbn [snd] in Hone.
    match goal with
    | |- context [iterations_loop E a session (Py.range (lo + 1) hi) ?s] =>
        destruct (IH (lo + 1) hi s) as (st' & evs & Hloop & Hsat & Hmeta & Hit & Hcount);
          [done|done|done|lia|cbn; lia|by right|intros; lia|lia|lia|]
    end.
    rewrite Hloop. eexists _, _. split; [reflexivity|].
    split; [done|]. split; [done|]. split; [rewrite Hit; lia|].
    rewrite count_requests_app, Hone, Hcount. done.
Qed.

End DiscoveryLoop.

Lemma finish_events E st :
  let evs := (SchemaAnalyzerAgent.finish E st).2 in
  count_requests evs = 0%nat /\ count_executes evs = 0%nat.
Proof.
  unfold SchemaAnalyzerAgent.finish. destruct (SchemaAnalyzerAgent.metadata st); [done|].
  destruct (SchemaAnalyzerAgent.dump_markdown _ _ _ _ _); [|done].
  by destruct (SchemaAnalyzerAgent.dump_json _ _ _ _ _).
Qed.

Lemma finish_result E st res evs :
  SchemaAnalyzerAgent.finish E st = (Ok res, evs) ->
  SchemaAnalyzerAgent.iterations res = SchemaAnalyzerAgent.iteration st
  /\ SchemaAnalyzerAgent.res_satisfied res = SchemaAnalyzerAgent.satisfied st
  /\ (SchemaAnalyzerAgent.res_success res = true <-> SchemaAnalyzerAgent.metadata st <> [])
  /\ (SchemaAnalyzerAgent.res_success res = true
      <-> SchemaAnalyzerAgent.analysis_file res <> None)
  /\ (SchemaAnalyzerAgent.res_success res = true
      <-> SchemaAnalyzerAgent.schema_file res <> None).
Proof.
  unfold SchemaAnalyzerAgent.finish.
  destruct (SchemaAnalyzerAgent.metadata st) as [|t tables].
  - intros [= <- _]. cbn. repeat split; try done.
  - destruct (SchemaAnalyzerAgent.dump_markdown _ _ _ _ _); [|done].
    destruct (SchemaAnalyzerAgent.dump_json _ _ _ _ _); [|done].
    intros [= <- _]. cbn. repeat split; done.
Qed.

(** The requests and executions of one [analyze_schema]. *)
Lemma analyze_schema_counts (E : SchemaAnalyzerAgent.Env) (a : SchemaAnalyzerAgent.t)
    (start : start_outcome) :
  let run := SchemaAnalyzerAgent.analyze_schema E a start in
  (count_requests run.2 <= Z.to_nat (SchemaAnalyzerAgent.max_iterations a))%nat
  /\ (count_executes run.2 <= count_requests run.2)%nat
  /\ forall res, run.1 = Ok res ->
       SchemaAnalyzerAgent.iterations res = Z.of_nat (count_requests run.2).
Proof.
  cbn zeta. unfold SchemaAnalyzerAgent.analyze_schema.
  assert (Hfin : forall st, let evs := (SchemaAnalyzerAgent.finish E st).2 in
                            count_requests evs = 0%nat /\ count_executes evs = 0%nat)
    by apply finish_events.
  destruct (JupyterKernelSession.start start JupyterKernelSession.init)
    as [[session failure] ev0] eqn:Hstart.
  assert (Hev0 : count_requests ev0 = 0%nat /\ count_executes ev0 = 0%nat).
  { unfold JupyterKernelSession.start in Hstart. cbn in Hstart.
    destruct start; injection Hstart as <- <- <-; done. }
  destruct Hev0 as [Hr0 He0].
  destruct failure as [e|].
  - destruct (caught_by_except_Exception e); [|cbn [fst snd]; split; [lia|split; [lia|done]]].
    specialize (Hfin (SchemaAnalyzerAgent.on_error SchemaAnalyzerAgent.locals0)).
    cbn zeta in Hfin.
    destruct (SchemaAnalyzerAgent.finish E _) as [r ev3] eqn:Hf. cbn [fst snd] in *.
    rewrite count_requests_app, count_executes_app. destruct Hfin as [-> ->].
    split; [lia|]. split; [lia|]. intros res ->.
    apply finish_result in Hf as (-> & _). cbn. lia.
  - pose proof (iterations_loop_accounting E a session
                  (Z.to_nat (SchemaAnalyzerAgent.max_iterations a)) 1
                  (SchemaAnalyzerAgent.max_iterations a + 1) SchemaAnalyzerAgent.locals0
                  ltac:(lia)) as Hloop.
    destruct (SchemaAnalyzerAgent.iterations_loop _ _ _ _ _) as [[r last] ev1].
    destruct Hloop as (Hreq & Hexe & Hlast & Hok). cbn [JupyterKernelSession.shutdown].
    assert (Hit : SchemaAnalyzerAgent.iteration last = Z.of_nat (count_requests ev1)).
    { destruct Hlast as [[-> ->]|[_ ->]]; [done|lia]. }
    destruct r as [st|e].
    + rewrite (Hok st eq_refl). specialize (Hfin last). cbn zeta in Hfin.
      destruct (SchemaAnalyzerAgent.finish E last) as [r ev3] eqn:Hf. cbn [fst snd] in *.
      rewrite !count_requests_app, !count_executes_app. destruct Hfin as [-> ->].
      rewrite Hr0, He0. cbn [count_requests count_executes List.filter is_request is_execute
                             length].
      split; [lia|]. split; [lia|]. intros res ->.
      apply finish_result in Hf as (-> & _). lia.
    + destruct (caught_by_except_Exception e).
      * specialize (Hfin (SchemaAnalyzerAgent.on_error last)). cbn zeta in Hfin.
        destruct (SchemaAnalyzerAgent.finish E _) as [r ev3] eqn:Hf. cbn [fst snd] in *.
        rewrite !count_requests_app, !count_executes_app. destruct Hfin as [-> ->].
        rewrite Hr0, He0. cbn [count_requests count_executes List.filter is_request
                               is_execute length].
        split; [lia|]. split; [lia|]. intros res ->.
        apply finish_result in Hf as (-> & _). cbn. lia.
      * cbn [fst snd]. rewrite !count_requests_app, !count_executes_app, Hr0, He0.
        cbn [count_requests count_executes List.filter is_request is_execute length].
        split; [lia|]. split; [lia|]. done.
Qed.

(** X9.  Whatever the collaborators do, [analyze_schema] sends at most
    [max_iterations] generation requests and never runs more executions
    than it has sent requests; the [iterations] of the result it returns
    is the number of requests it sent. *)
Theorem analyze_schema_accounting (E : SchemaAnalyzerAgent.Env) (a : SchemaAnalyzerAgent.t)
    (start : start_outcome) :
  let run := SchemaAnalyzerAgent.analyze_schema E a start in
  (count_requests run.2 <= Z.to_nat (SchemaAnalyzerAgent.max_iterations a))%nat
  /\ (count_executes run.2 <= count_requests run.2)%nat
  /\ forall res, run.1 = Ok res ->
       SchemaAnalyzerAgent.iterations res = Z.of_nat (count_requests run.2).
Proof. exact (analyze_schema_counts E a start). Qed.

(** X10.  The verdict of [analyze_schema] is consistent.  A result with
    [satisfied = True] has [success = True] and needed at least
    [stable_rounds_required] iterations; a result with [success = True]
    and [satisfied = False] has used all [max_iterations] iterations; the
    two report files are named exactly when [success] holds; and
    [iterations] never exceeds [max_iterations]. *)
Theorem analyze_schema_verdict (E : SchemaAnalyzerAgent.Env) (a : SchemaAnalyzerAgent.t)
    (start : start_outcome) (res : SchemaAnalyzerAgent.Result) :
  (SchemaAnalyzerAgent.analyze_schema E a start).1 = Ok res ->
  (SchemaAnalyzerAgent.res_satisfied res = true ->
   SchemaAnalyzerAgent.res_success res = true
   /\ SchemaAnalyzerAgent.stable_rounds_required a <= SchemaAnalyzerAgent.iterations res)
  /\ (SchemaAnalyzerAgent.res_success res = true ->
      SchemaAnalyzerAgent.res_satisfied res = false ->
      SchemaAnalyzerAgent.iterations res = SchemaAnalyzerAgent.max_iterations a)
  /\ (SchemaAnalyzerAgent.res_success res = true
      <-> SchemaAnalyzerAgent.analysis_file res <> None)
  /\ (SchemaAnalyzerAgent.res_success res = true
      <-> SchemaAnalyzerAgent.schema_file res <> None)
  /\ 0 <= SchemaAnalyzerAgent.iterations res
     <= Z.max 0 (SchemaAnalyzerAgent.max_iterations a).
Proof.
  intros Hrun.
  pose proof (analyze_schema_counts E a start) as Hacc. cbn zeta in Hacc.
  destruct Hacc as (Hreq & _ & Hiter). specialize (Hiter res Hrun).
  assert (Hbound : 0 <= SchemaAnalyzerAgent.iterations res
                   <= Z.max 0 (SchemaAnalyzerAgent.max_iterations a)) by lia.
  clear Hreq Hiter. revert Hrun. unfold SchemaAnalyzerAgent.analyze_schema.
  assert (Herr : forall st r evs,
             SchemaAnalyzerAgent.finish E (SchemaAnalyzerAgent.on_error st) = (Ok r, evs) ->
             SchemaAnalyzerAgent.res_success r = false
             /\ SchemaAnalyzerAgent.res_satisfied r = false
             /\ SchemaAnalyzerAgent.analysis_file r = None
             /\ SchemaAnalyzerAgent.schema_file r = None).
  { intros st r evs. cbn. intros [= <- _]. done. }
  destruct (JupyterKernelSession.start start JupyterKernelSession.init)
    as [[session failure] ev0].
  destruct failure as [e|].
  - destruct (caught_by_except_Exception e); [|done].
    destruct (SchemaAnalyzerAgent.finish E _) as [r ev3] eqn:Hf. cbn [fst]. intros ->.
    apply Herr in Hf as (Hs & Hsat & Hmd & Hjs). rewrite Hs, Hsat, Hmd, Hjs.
    repeat split; try done; try lia; try congruence.
  - destruct (SchemaAnalyzerAgent.iterations_loop _ _ _ _ _) as [[r last] ev1] eqn:Hloop.
    cbn [JupyterKernelSession.shutdown]. destruct r as [st|e].
    + destruct (SchemaAnalyzerAgent.finish E st) as [r ev3] eqn:Hf. cbn [fst]. intros ->.
      apply finish_result in Hf as (Hit & Hsat & Hsucc & Hmd & Hjs).
      destruct (iterations_loop_verdict E a session
                  (Z.to_nat (SchemaAnalyzerAgent.max_iterations a)) 1
                  (SchemaAnalyzerAgent.max_iterations a + 1) SchemaAnalyzerAgent.locals0
                  st last ev1 ltac:(lia) ltac:(lia) eq_refl ltac:(cbn; lia) Hloop)
        as [(Hs & Hmeta & Hrounds)|(Hs & Hend)].
      * rewrite Hsat, Hs, Hit. split; [|split; [done|]].
        -- intros _. split; [by apply Hsucc|lia].
        -- split; [done|]. split; [done|]. by rewrite <- Hit.
      * rewrite Hsat, Hs. split; [done|]. split.
        -- intros Hok _. rewrite Hit. destruct Hend as [[Hle ->]|[Hlt ->]]; [|lia].
           apply Hsucc in Hok. done.
        -- split; [done|]. split; [done|]. done.
    + destruct (caught_by_except_Exception e); [|done].
      destruct (SchemaAnalyzerAgent.finish E _) as [r ev3] eqn:Hf. cbn [fst]. intros ->.
      apply Herr in Hf as (Hs & Hsat & Hmd & Hjs). rewrite Hs, Hsat, Hmd, Hjs.
      repeat split; try done; try lia; try congruence.
Qed.

(** X11.  Convergence.  When every iteration finds a catalog with the
    same fingerprint and the reports can be written, [analyze_schema]
    stops as soon as the fingerprint has been seen [stable_rounds_required]
    times in a row (after one iteration when that number is below two):
    it returns [success = True], [satisfied = True] and that number of
    iterations, having sent as many requests, provided [max_iterations]
    allows that many. *)
Theorem analyze_schema_converges (E : SchemaAnalyzerAgent.Env) (a : SchemaAnalyzerAgent.t)
    (fp : list SchemaAnalyzerAgent.Entry) :
  steady E fp ->
  dumps_succeed E ->
  Z.max 1 (SchemaAnalyzerAgent.stable_rounds_required a)
  <= SchemaAnalyzerAgent.max_iterations a ->
  exists res evs,
    SchemaAnalyzerAgent.analyze_schema E a StartReady = (Ok res, evs)
    /\ SchemaAnalyzerAgent.res_success res = true
    /\ SchemaAnalyzerAgent.res_satisfied res = true
    /\ SchemaAnalyzerAgent.iterations res
       = Z.max 1 (SchemaAnalyzerAgent.stable_rounds_required a)
    /\ count_requests evs
       = Z.to_nat (Z.max 1 (SchemaAnalyzerAgent.stable_rounds_required a)).
Proof.
  intros Hsteady [Hmd Hjs] Hmax. unfold SchemaAnalyzerAgent.analyze_schema.
  cbn [JupyterKernelSession.start JupyterKernelSession.init
       JupyterKernelSession._started].
  set (session := {| JupyterKernelSession.km := true; JupyterKernelSession.kc := true;
                     JupyterKernelSession._started := true |}).
  set (target := Z.max 1 (SchemaAnalyzerAgent.stable_rounds_required a)) in *.
  destruct (iterations_loop_steady E a session fp (Z.to_nat (target - 1)) 1
              (SchemaAnalyzerAgent.max_iterations a + 1) SchemaAnalyzerAgent.locals0)
    as (st & ev1 & Hloop & Hsat & Hmeta & Hit & Hcount);
    [done|done|done|lia|done|by left|done|lia|lia|].
  rewrite Hloop. cbn [JupyterKernelSession.shutdown].
  unfold SchemaAnalyzerAgent.finish.
  destruct (SchemaAnalyzerAgent.metadata st) as [|t tables] eqn:Hm; [done|].
  destruct (Hmd (t :: tables) (SchemaAnalyzerAgent.relationships st)
              (SchemaAnalyzerAgent.iteration st) (SchemaAnalyzerAgent.satisfied st))
    as [md ->].
  destruct (Hjs (t :: tables) (SchemaAnalyzerAgent.relationships st)
              (SchemaAnalyzerAgent.iteration st) (SchemaAnalyzerAgent.satisfied st))
    as [js ->].
  eexists _, _. split; [reflexivity|]. cbn [SchemaAnalyzerAgent.res_success
    SchemaAnalyzerAgent.res_satisfied SchemaAnalyzerAgent.iterations].
  split; [done|]. split; [done|]. split; [lia|].
  rewrite !count_requests_app, Hcount. cbn. lia.
Qed.

(** ** Strings: stripping and parts *)

Section Strings.
Import PyStr.
#[local] Arguments String.append !_ _ : simpl nomatch.

Lemma lstrip_nonspace c s : is_space c = false -> lstrip (String c s) = String c s.
Proof. intros H. cbn. by rewrite H. Qed.

Lemma rstrip_nonspace c s : is_space c = false -> rstrip (String c s) = String c (rstrip s).
Proof. intros H. cbn. rewrite H. by destruct (rstrip s). Qed.

Lemma lstrip_head s :
  lstrip s = EmptyString \/ exists c s', lstrip s = String c s' /\ is_space c = false.
Proof.
  induction s as [|c s IH]; [by left|]. cbn.
  destruct (is_space c) eqn:Hc; [done|]. right. eauto.
Qed.

Lemma rstrip_idem s : rstrip (rstrip s) = rstrip s.
Proof.
  induction s as [|c s IH]; [done|]. cbn.
  destruct (rstrip s) as [|d r] eqn:Hr.
  - destruct (is_space c) eqn:Hc; [done|]. cbn. by rewrite Hc.
  - cbn [rstrip]. cbn [rstrip] in IH. by rewrite IH.
Qed.

Lemma strip_idem s : strip (strip s) = strip s.
Proof.
  unfold strip. destruct (lstrip_head s) as [->|(c & s' & -> & Hc)]; [done|].
  rewrite rstrip_nonspace by done. rewrite lstrip_nonspace by done.
  rewrite rstrip_nonspace by done. by rewrite rstrip_idem.
Qed.

(** A stripped text is too short exactly when it has fewer than 50
    characters. *)
Lemma insufficient_stripped code :
  strip code = code -> CodeFence.insufficient code = (len code <? 50).
Proof.
  intros H. unfold CodeFence.insufficient. rewrite H. by destruct code.
Qed.

(** *** Parts *)

Lemma append_cons x (a b : string) : String x a +:+ b = String x (a +:+ b).
Proof. reflexivity. Qed.

Lemma append_assoc (a b c : string) : (a +:+ b) +:+ c = a +:+ (b +:+ c).
Proof. induction a as [|x a IH]; [done|]. rewrite !append_cons. f_equal. apply IH. Qed.

Lemma append_nil_r (a : string) : a +:+ EmptyString = a.
Proof. induction a as [|x a IH]; [done|]. rewrite append_cons. f_equal. apply IH. Qed.

Lemma length_append (a b : string) :
  String.length (a +:+ b) = (String.length a + String.length b)%nat.
Proof. induction a as [|x a IH]; [done|]. rewrite append_cons. cbn. by rewrite IH. Qed.

Lemma part_of_refl s : part_of s s.
Proof. exists EmptyString, EmptyString. by rewrite append_nil_r. Qed.

Lemma part_of_trans t u s : part_of t u -> part_of u s -> part_of t s.
Proof.
  intros (b1 & a1 & ->) (b2 & a2 & ->). exists (b2 +:+ b1), (a1 +:+ a2).
  by rewrite !append_assoc.
Qed.

Lemma part_of_nil s : part_of EmptyString s.
Proof. by exists EmptyString, s. Qed.

Lemma part_of_cons c t s : part_of t s -> part_of t (String c s).
Proof. intros (b & a & ->). by exists (String c b), a. Qed.

Lemma substring_part s : forall a n, part_of (String.substring a n s) s.
Proof.
  induction s as [|c s IH]; intros a n.
  - destruct a, n; apply part_of_nil.
  - destruct a as [|a].
    + destruct n as [|n]; [apply part_of_nil|]. cbn.
      destruct (IH 0%nat n) as (b & a' & Hs). revert Hs.
      (* a prefix of [s]: nothing comes before it *)
      assert (Hpre : exists after, s = String.substring 0 n s +:+ after).
      { clear. revert n. induction s as [|d s IHs]; intros n.
        - exists EmptyString. by destruct n.
        - destruct n as [|n]; [by exists (String d s)|].
          destruct (IHs n) as [after Ha]. exists after. cbn. by rewrite <- Ha. }
      intros _. destruct Hpre as [after Ha]. exists EmptyString, after. cbn. by rewrite <- Ha.
    + cbn. apply part_of_cons, IH.
Qed.

Lemma slice_part s a b : part_of (slice s a b) s.
Proof. apply substring_part. Qed.

Lemma lstrip_part s : part_of (lstrip s) s.
Proof.
  induction s as [|c s IH]; [apply part_of_refl|]. cbn.
  destruct (is_space c); [by apply part_of_cons|apply part_of_refl].
Qed.

Lemma rstrip_part s : part_of (rstrip s) s.
Proof.
  induction s as [|c s IH]; [apply part_of_refl|]. cbn.
  destruct IH as (b & a & Hs).
  assert (Hpre : exists after, s = rstrip s +:+ after).
  { clear. induction s as [|d s [after Ha]]; [by exists EmptyString|]. cbn.
    destruct (rstrip s) as [|e r] eqn:Hr.
    - destruct (is_space d); [by exists (String d s)|].
      exists s. done.
    - exists after. cbn. cbn in Ha. by rewrite <- Ha. }
  destruct Hpre as [after Ha].
  destruct (rstrip s) as [|e r] eqn:Hr.
  - destruct (is_space c); [apply part_of_nil|]. by exists EmptyString, s.
  - exists EmptyString, after. cbn. cbn in Ha. by rewrite <- Ha.
Qed.

Lemma strip_part s : part_of (strip s) s.
Proof. eapply part_of_trans; [apply rstrip_part|apply lstrip_part]. Qed.

(** *** Lines *)

Lemma split_lines_nonempty s : split_lines s <> [].
Proof.
  destruct s as [|c s]; [done|]. cbn.
  destruct (Ascii.eqb c "010"); [done|]. by destruct (split_lines s).
Qed.

Lemma join_lines_cons l ls :
  ls <> [] -> join_lines (l :: ls) = l +:+ nl +:+ join_lines ls.
Proof. by destruct ls. Qed.

Lemma join_split_lines s : join_lines (split_lines s) = s.
Proof.
  induction s as [|c s IH]; [done|]. cbn [split_lines].
  destruct (Ascii.eqb_spec c "010") as [->|Hc].
  - rewrite join_lines_cons by apply split_lines_nonempty. by rewrite IH.
  - pose proof (split_lines_nonempty s) as Hne.
    destruct (split_lines s) as [|l ls]; [done|].
    rewrite <- IH. destruct ls as [|l' ls]; [done|]. done.
Qed.

(** The lines kept by the heuristic are the lines from some point on. *)
Lemma code_lines_suffix lines :
  exists skipped, lines = skipped ++ SchemaAnalyzerAgent.code_lines false lines.
Proof.
  induction lines as [|l ls [skipped IH]]; [by exists []|]. cbn.
  destruct (SchemaAnalyzerAgent.starts_code (strip l)).
  - exists []. by rewrite code_lines_in_code.
  - exists (l :: skipped). cbn. by rewrite <- IH.
Qed.

Lemma join_lines_app_part skipped kept :
  part_of (join_lines kept) (join_lines (skipped ++ kept)).
Proof.
  induction skipped as [|l ls IH]; [apply part_of_refl|].
  destruct kept as [|k kept]; [apply part_of_nil|].
  cbn [app]. rewrite (join_lines_cons l (ls ++ k :: kept))
    by (intros H; destruct ls; discriminate H).
  destruct IH as (b & a & ->). exists (l +:+ nl +:+ b), a.
  by rewrite !append_assoc.
Qed.

End Strings.

(** *** The fenced blocks *)

Lemma python_block_stripped r code :
  CodeFence.python_block r = Some code -> PyStr.strip code = code /\ part_of code r.
Proof.
  unfold CodeFence.python_block. destruct (PyStr.contains _ r); [|done].
  destruct (_ >? _); [|done]. intros [= <-].
  split; [apply strip_idem|]. eapply part_of_trans; [apply strip_part|apply slice_part].
Qed.

Lemma any_block_stripped r code :
  CodeFence.any_block r = Some code -> PyStr.strip code = code /\ part_of code r.
Proof.
  unfold CodeFence.any_block. destruct (PyStr.contains _ r); [|done].
  destruct (_ >? _); [|done]. intros [= <-].
  split; [apply strip_idem|]. eapply part_of_trans; [apply strip_part|apply slice_part].
Qed.

Lemma mermaid_block_stripped r code :
  DiagramGeneratorAgent.mermaid_block r = Some code ->
  PyStr.strip code = code /\ part_of code r.
Proof.
  unfold DiagramGeneratorAgent.mermaid_block. destruct (PyStr.contains _ r); [|done].
  destruct (_ >? _); [|done]. intros [= <-].
  split; [apply strip_idem|]. eapply part_of_trans; [apply strip_part|apply slice_part].
Qed.

Lemma worker_extract_spec response :
  PyStr.strip (WorkerAgent._extract_code response) = WorkerAgent._extract_code response
  /\ part_of (WorkerAgent._extract_code response) response.
Proof.
  unfold WorkerAgent._extract_code.
  destruct (negb (PyStr.truthy response)); [split; [done|apply part_of_nil]|].
  destruct (CodeFence.python_block _) as [code|] eqn:Hpy.
  { apply python_block_stripped in Hpy as [? ?]. split; [done|].
    eapply part_of_trans; [done|apply strip_part]. }
  destruct (CodeFence.any_block _) as [code|] eqn:Hany.
  { apply any_block_stripped in Hany as [? ?]. split; [done|].
    eapply part_of_trans; [done|apply strip_part]. }
  split; [apply strip_idem|apply strip_part].
Qed.

Lemma analyzer_extract_spec response :
  PyStr.strip (SchemaAnalyzerAgent._extract_code response)
  = SchemaAnalyzerAgent._extract_code response
  /\ part_of (SchemaAnalyzerAgent._extract_code response) response.
Proof.
  unfold SchemaAnalyzerAgent._extract_code.
  destruct (negb (PyStr.truthy response)); [split; [done|apply part_of_nil]|].
  destruct (CodeFence.python_block _) as [code|] eqn:Hpy.
  { apply python_block_stripped in Hpy as [? ?]. split; [done|].
    eapply part_of_trans; [done|apply strip_part]. }
  destruct (CodeFence.any_block _) as [code|] eqn:Hany.
  { apply any_block_stripped in Hany as [? ?]. split; [done|].
    eapply part_of_trans; [done|apply strip_part]. }
  destruct (code_lines_suffix (PyStr.split_lines (PyStr.strip response))) as [skipped Hs].
  destruct (SchemaAnalyzerAgent.code_lines false _) as [|l ls] eqn:Hlines.
  { split; [apply strip_idem|apply strip_part]. }
  split; [apply strip_idem|].
  eapply part_of_trans; [apply strip_part|].
  eapply part_of_trans; [|apply strip_part].
  assert (Hr : PyStr.strip response = PyStr.join_lines (skipped ++ l :: ls)).
  { rewrite <- Hs. symmetry. apply join_split_lines. }
  rewrite Hr. apply join_lines_app_part.
Qed.

Lemma mermaid_extract_spec response :
  PyStr.strip (DiagramGeneratorAgent._extract_mermaid response)
  = DiagramGeneratorAgent._extract_mermaid response
  /\ part_of (DiagramGeneratorAgent._extract_mermaid response) response.
Proof.
  unfold DiagramGeneratorAgent._extract_mermaid.
  destruct (negb (PyStr.truthy response)); [split; [done|apply part_of_nil]|].
  destruct (DiagramGeneratorAgent.mermaid_block _) as [code|] eqn:Hpy.
  { apply mermaid_block_stripped in Hpy as [? ?]. split; [done|].
    eapply part_of_trans; [done|apply strip_part]. }
  destruct (CodeFence.any_block _) as [code|] eqn:Hany.
  { apply any_block_stripped in Hany as [? ?]. split; [done|].
    eapply part_of_trans; [done|apply strip_part]. }
  destruct (PyStr.startswith _ _); (split; [apply strip_idem|apply strip_part]).
Qed.

(** X12.  What the extractors return is always stripped: it has no
    leading or trailing white space, for the worker, the schema analyzer
    and the diagram generator alike.  So the [strip] in the length check
    that follows changes nothing: extracted code is rejected as
    insufficient exactly when it has fewer than 50 characters. *)
Theorem extracted_code_is_stripped (response : string) :
  PyStr.strip (WorkerAgent._extract_code response) = WorkerAgent._extract_code response
  /\ PyStr.strip (SchemaAnalyzerAgent._extract_code response)
     = SchemaAnalyzerAgent._extract_code response
  /\ PyStr.strip (DiagramGeneratorAgent._extract_mermaid response)
     = DiagramGeneratorAgent._extract_mermaid response
  /\ CodeFence.insufficient (WorkerAgent._extract_code response)
     = (PyStr.len (WorkerAgent._extract_code response) <? 50)
  /\ CodeFence.insufficient (SchemaAnalyzerAgent._extract_code response)
     = (PyStr.len (SchemaAnalyzerAgent._extract_code response) <? 50).
Proof.
  destruct (worker_extract_spec response) as [Hw _].
  destruct (analyzer_extract_spec response) as [Ha _].
  destruct (mermaid_extract_spec response) as [Hm _].
  repeat split; try done; by apply insufficient_stripped.
Qed.

(** X13.  The extractors only cut: what they return is a contiguous part
    of the response (the response is some text, the result, some more
    text), so nothing is added, reordered or rewritten, and the result is
    never longer than the response. *)
Theorem extracted_code_is_part_of_response (response : string) :
  part_of (WorkerAgent._extract_code response) response
  /\ part_of (SchemaAnalyzerAgent._extract_code response) response
  /\ part_of (DiagramGeneratorAgent._extract_mermaid response) response
  /\ PyStr.len (WorkerAgent._extract_code response) <= PyStr.len response
  /\ PyStr.len (SchemaAnalyzerAgent._extract_code response) <= PyStr.len response
  /\ PyStr.len (DiagramGeneratorAgent._extract_mermaid response) <= PyStr.len response.
Proof.
  destruct (worker_extract_spec response) as [_ Hw].
  destruct (analyzer_extract_spec response) as [_ Ha].
  destruct (mermaid_extract_spec response) as [_ Hm].
  assert (Hlen : forall t s, part_of t s -> PyStr.len t <= PyStr.len s).
  { intros t s (b & a & ->). unfold PyStr.len. rewrite !length_append. lia. }
  repeat split; try done; by apply Hlen.
Qed.

(** ** Strings: the first occurrence of a marker *)

Section Markers.
Import PyStr.
#[local] Arguments String.append !_ _ : simpl nomatch.

Lemma prefix_append sub rest : String.prefix sub (sub +:+ rest) = true.
Proof.
  induction sub as [|c sub IH]; [by destruct rest|]. rewrite append_cons. cbn [String.prefix].
  by destruct (ascii_dec c c).
Qed.

Lemma contains_cons g c x : contains g (String c x) = false -> contains g x = false.
Proof.
  unfold contains. cbn [String.index]. destruct (String.prefix g (String c x)); [done|].
  by destruct (String.index 0 g x).
Qed.

(** When no occurrence of [sub] can begin earlier, the first occurrence
    of [sub] in [x ++ sub ++ rest] is the one after [x]. *)
Lemma index_after sub g x rest :
  sub <> EmptyString -> no_overlap sub g -> contains g x = false ->
  String.index 0 sub (x +:+ sub +:+ rest) = Some (String.length x).
Proof.
  intros Hsub Hno. induction x as [|c x IH]; intros Hx.
  - change (EmptyString +:+ sub +:+ rest) with (sub +:+ rest).
    pose proof (prefix_append sub rest) as Hp.
    destruct sub as [|d sub]; [done|]. rewrite append_cons in Hp |- *.
    cbn [String.index String.length]. by rewrite Hp.
  - rewrite append_cons. cbn [String.length String.index].
    destruct (String.prefix sub (String c (x +:+ sub +:+ rest))) eqn:Hp.
    + apply (Hno (String c x) rest) in Hp; [congruence|done].
    + by rewrite IH by (by eapply contains_cons).
Qed.

Lemma find_after sub g x rest :
  sub <> EmptyString -> no_overlap sub g -> contains g x = false ->
  find (x +:+ sub +:+ rest) sub 0 = len x.
Proof.
  intros. unfold find, len. change (Z.to_nat 0) with 0%nat.
  by rewrite (index_after sub g).
Qed.


Lemma index_found sub s i : String.index 0 sub s = Some i -> contains sub s = true.
Proof. unfold contains. by intros ->. Qed.

Lemma substring_skip a n b :
  String.substring (String.length a) n (a +:+ b) = String.substring 0 n b.
Proof. induction a as [|c a IH]; [done|]. by rewrite append_cons. Qed.

Lemma substring_take b c : String.substring 0 (String.length b) (b +:+ c) = b.
Proof.
  induction b as [|d b IH]; [by destruct c|].
  rewrite append_cons. cbn [String.length String.substring]. by rewrite IH.
Qed.

Lemma slice_middle a b c : slice (a +:+ b +:+ c) (len a) (len a + len b) = b.
Proof.
  unfold slice, len. rewrite Nat2Z.id.
  replace (Z.to_nat (Z.of_nat (String.length a) + Z.of_nat (String.length b)
                     - Z.of_nat (String.length a))) with (String.length b) by lia.
  by rewrite substring_skip, substring_take.
Qed.

(** A text between two markers: where the markers are found and what
    lies between them. *)
Lemma marked_text s_mark e_mark g pre body post :
  s_mark <> EmptyString -> e_mark <> EmptyString ->
  no_overlap s_mark g -> no_overlap e_mark e_mark ->
  contains g pre = false ->
  contains e_mark (pre +:+ s_mark +:+ body) = false ->
  let raw := pre +:+ s_mark +:+ body +:+ e_mark +:+ post in
  find raw s_mark 0 = len pre
  /\ find raw e_mark 0 = len pre + len s_mark + len body
  /\ slice raw (len pre + len s_mark) (len pre + len s_mark + len body) = body
  /\ contains s_mark raw = true /\ contains e_mark raw = true.
Proof.
  intros Hs He Hos Hoe Hpre Hbody raw.
  assert (Hraw : raw = (pre +:+ s_mark +:+ body) +:+ e_mark +:+ post).
  { unfold raw. by rewrite !append_assoc. }
  assert (Hraw' : raw = (pre +:+ s_mark) +:+ body +:+ (e_mark +:+ post)).
  { unfold raw. by rewrite !append_assoc. }
  assert (Hlen : len (pre +:+ s_mark) = len pre + len s_mark).
  { unfold len. rewrite length_append. lia. }
  repeat split.
  - by apply (find_after s_mark g).
  - rewrite Hraw, (find_after e_mark e_mark) by done.
    unfold len. rewrite !length_append. lia.
  - rewrite Hraw', <- Hlen. apply slice_middle.
  - eapply index_found. by apply (index_after s_mark g).
  - rewrite Hraw. eapply index_found. by apply (index_after e_mark e_mark).
Qed.

End Markers.

(** One step of the search for an overlap: the next character of the
    text in front is the next character of the marker, or the text ends
    and the comparison fails within the marker. *)
Ltac overlap_step H x :=
  destruct x as [|? x];
  [ vm_compute in H; discriminate H
  | rewrite append_cons in H; cbn [String.prefix] in H;
    match type of H with
    | (if ascii_dec ?a ?b then _ else _) = true =>
        destruct (ascii_dec a b) as [<-|_]; [|discriminate H]
    end ].

Ltac overlap_first H x :=
  destruct x as [|? x]; [done|];
  rewrite append_cons in H; cbn [String.prefix] in H;
  match type of H with
  | (if ascii_dec ?a ?b then _ else _) = true =>
      destruct (ascii_dec a b) as [<-|_]; [|discriminate H]
  end.

Lemma no_overlap_task_start : no_overlap WorkerAgent.RESULT_START "TASK_RESULT_".
Proof.
  intros x rest Hne H. unfold WorkerAgent.RESULT_START in H.
  overlap_first H x. do 11 overlap_step H x.
  by destruct x; vm_compute.
Qed.

Lemma no_overlap_task_end : no_overlap WorkerAgent.RESULT_END WorkerAgent.RESULT_END.
Proof.
  intros x rest Hne H. unfold WorkerAgent.RESULT_END in H.
  overlap_first H x. do 14 overlap_step H x.
  by destruct x; vm_compute.
Qed.

Lemma no_overlap_analysis_start :
  no_overlap SchemaAnalyzerAgent.RESULT_START SchemaAnalyzerAgent.RESULT_START.
Proof.
  intros x rest Hne H. unfold SchemaAnalyzerAgent.RESULT_START in H.
  overlap_first H x. do 27 overlap_step H x.
  by destruct x; vm_compute.
Qed.

Lemma no_overlap_analysis_end :
  no_overlap SchemaAnalyzerAgent.RESULT_END SchemaAnalyzerAgent.RESULT_END.
Proof.
  intros x rest Hne H. unfold SchemaAnalyzerAgent.RESULT_END in H.
  overlap_first H x. do 25 overlap_step H x.
  by destruct x; vm_compute.
Qed.

Lemma no_overlap_config_start :
  no_overlap SchemaAnalyzerAgent.CONFIG_START SchemaAnalyzerAgent.CONFIG_START.
Proof.
  intros x rest Hne H. unfold SchemaAnalyzerAgent.CONFIG_START in H.
  overlap_first H x. do 18 overlap_step H x.
  by destruct x; vm_compute.
Qed.

Lemma no_overlap_config_end :
  no_overlap SchemaAnalyzerAgent.CONFIG_END SchemaAnalyzerAgent.CONFIG_END.
Proof.
  intros x rest Hne H. unfold SchemaAnalyzerAgent.CONFIG_END in H.
  overlap_first H x. do 16 overlap_step H x.
  by destruct x; vm_compute.
Qed.

(** X14.  A kernel output that carries the two result markers, the start
    marker not announced earlier in the output and no end marker before
    the one that closes the envelope, is read as the JSON text between
    the markers; what stands before and after the envelope is ignored,
    and a text that does not decode gives a failed result. *)
Theorem task_result_read_between_markers (E : WorkerAgent.Env)
    (pre body post : string) :
  PyStr.contains "TASK_RESULT_" pre = false ->
  PyStr.contains WorkerAgent.RESULT_END
    (pre +:+ WorkerAgent.RESULT_START +:+ body) = false ->
  WorkerAgent._parse_task_result E
    (pre +:+ WorkerAgent.RESULT_START +:+ body +:+ WorkerAgent.RESULT_END +:+ post)
  = match WorkerAgent.json_loads E (PyStr.strip body) with
    | inl v => v
    | inr e =>
        JObj [("success", JBool false);
              ("error", JStr ("Failed to parse result JSON: " +:+ e +:+ ". Raw: "
                              +:+ PyStr.upto 300 (PyStr.strip body)))]
    end.
Proof.
  intros Hpre Hbody.
  destruct (marked_text WorkerAgent.RESULT_START WorkerAgent.RESULT_END "TASK_RESULT_"
              pre body post) as (Hs & He & Hsl & _);
    [done|done|apply no_overlap_task_start|apply no_overlap_task_end|done|done|].
  unfold WorkerAgent._parse_task_result. rewrite Hs, He.
  assert (0 <= PyStr.len pre) by (unfold PyStr.len; lia).
  assert (0 <= PyStr.len body) by (unfold PyStr.len; lia).
  assert (PyStr.len WorkerAgent.RESULT_START = 17) as Hl by done.
  rewrite Hl in *.
  replace (PyStr.len pre =? -1) with false by (symmetry; lia).
  replace (PyStr.len pre + 17 + PyStr.len body =? -1) with false by (symmetry; lia).
  replace (PyStr.len pre + 17 + PyStr.len body <=? PyStr.len pre) with false
    by (symmetry; lia).
  cbn [orb]. by rewrite Hsl.
Qed.


(** X15.  The schema analyzer reads its kernel output the same way: with
    the two markers in place (no start marker earlier in the output, no
    end marker before the closing one) it decodes the text between them
    and raises, rather than guessing, when that text does not decode. *)
Theorem kernel_output_read_between_markers (E : SchemaAnalyzerAgent.Env)
    (pre body post : string) :
  PyStr.contains SchemaAnalyzerAgent.RESULT_START pre = false ->
  PyStr.contains SchemaAnalyzerAgent.RESULT_END
    (pre +:+ SchemaAnalyzerAgent.RESULT_START +:+ body) = false ->
  SchemaAnalyzerAgent._parse_kernel_output E
    (pre +:+ SchemaAnalyzerAgent.RESULT_START +:+ body
     +:+ SchemaAnalyzerAgent.RESULT_END +:+ post)
  = match SchemaAnalyzerAgent.json_loads E (PyStr.strip body) with
    | inl p => Ok p
    | inr e =>
        Raise (PyException ("Failed to parse JSON from kernel output: " +:+ e +:+ PyStr.nl
                            +:+ "JSON text: " +:+ PyStr.upto 500 (PyStr.strip body)))
    end.
Proof.
  intros Hpre Hbody.
  destruct (marked_text SchemaAnalyzerAgent.RESULT_START SchemaAnalyzerAgent.RESULT_END
              SchemaAnalyzerAgent.RESULT_START pre body post) as (Hs & He & Hsl & _);
    [done|done|apply no_overlap_analysis_start|apply no_overlap_analysis_end|done|done|].
  unfold SchemaAnalyzerAgent._parse_kernel_output. rewrite Hs, He.
  assert (0 <= PyStr.len pre) by (unfold PyStr.len; lia).
  assert (0 <= PyStr.len body) by (unfold PyStr.len; lia).
  assert (PyStr.len SchemaAnalyzerAgent.RESULT_START = 28) as Hl by done.
  rewrite Hl in *.
  replace (PyStr.len pre =? -1) with false by (symmetry; lia).
  replace (PyStr.len pre + 28 + PyStr.len body =? -1) with false by (symmetry; lia).
  replace (PyStr.len pre + 28 + PyStr.len body <=? PyStr.len pre) with false
    by (symmetry; lia).
  cbn [orb]. by rewrite Hsl.
Qed.

(** X16.  When the reply to the extraction request carries a JSON object
    between the two configuration markers, that object is the extracted
    connection configuration, whatever the reply says before and after;
    exactly one request is sent. *)
Theorem connection_config_read_between_markers (I : SchemaAnalyzerAgent.Intake)
    (a : SchemaAnalyzerAgent.Agent) (pre body post : string)
    (kvs : list (string * json)) :
  SchemaAnalyzerAgent.extract_create I (SchemaAnalyzerAgent.extraction_messages I a)
    = Ok (pre +:+ SchemaAnalyzerAgent.CONFIG_START +:+ body
          +:+ SchemaAnalyzerAgent.CONFIG_END +:+ post) ->
  PyStr.contains SchemaAnalyzerAgent.CONFIG_START pre = false ->
  PyStr.contains SchemaAnalyzerAgent.CONFIG_END
    (pre +:+ SchemaAnalyzerAgent.CONFIG_START +:+ body) = false ->
  SchemaAnalyzerAgent.config_loads I (PyStr.strip body) = inl (JObj kvs) ->
  SchemaAnalyzerAgent._extract_connection_from_instructions I a
  = (Ok (Some (JObj kvs)),
     [EvRequest (SchemaAnalyzerAgent.extraction_messages I a)]).
Proof.
  intros Hreply Hpre Hbody Hloads.
  destruct (marked_text SchemaAnalyzerAgent.CONFIG_START SchemaAnalyzerAgent.CONFIG_END
              SchemaAnalyzerAgent.CONFIG_START pre body post)
    as (Hs & He & Hsl & Hcs & Hce);
    [done|done|apply no_overlap_config_start|apply no_overlap_config_end|done|done|].
  unfold SchemaAnalyzerAgent._extract_connection_from_instructions.
  rewrite Hreply, Hcs, Hce. cbn [andb]. rewrite Hs, He, Hsl, Hloads. done.
Qed.

(** ** Fenced blocks *)

Section Fences.
Import PyStr.
#[local] Arguments String.append !_ _ : simpl nomatch.

Lemma lstrip_append a c b :
  is_space c = false -> lstrip (a +:+ String c b) = lstrip a +:+ String c b.
Proof.
  intros Hc. induction a as [|d a IH].
  - change (EmptyString +:+ String c b) with (String c b). by rewrite lstrip_nonspace.
  - rewrite append_cons. cbn [lstrip]. destruct (is_space d); [done|].
    by rewrite append_cons.
Qed.

Lemma rstrip_append a b : rstrip b <> EmptyString -> rstrip (a +:+ b) = a +:+ rstrip b.
Proof.
  intros Hb. induction a as [|d a IH]; [done|].
  rewrite !append_cons. cbn [rstrip]. rewrite IH.
  destruct (a +:+ rstrip b) eqn:Hr; [|done].
  destruct a; [|by rewrite append_cons in Hr]. by destruct Hb.
Qed.

Lemma contains_lstrip g s : contains g s = false -> contains g (lstrip s) = false.
Proof.
  induction s as [|c s IH]; [done|]. intros H. cbn [lstrip].
  destruct (is_space c); [|done]. apply IH. by eapply contains_cons.
Qed.

Lemma index_skip a sub b i :
  String.index 0 sub b = Some i ->
  String.index (String.length a) sub (a +:+ b) = Some (String.length a + i)%nat.
Proof.
  intros Hi. induction a as [|c a IH]; [done|].
  rewrite append_cons. cbn [String.length String.index]. by rewrite IH.
Qed.

Lemma no_overlap_fence : no_overlap CodeFence.fence "`".
Proof.
  intros x rest Hne H. unfold CodeFence.fence in H.
  overlap_first H x. by destruct x; vm_compute.
Qed.

(** The search of a block opened by [op]: the shape shared by
    [CodeFence.python_block] and [DiagramGeneratorAgent.mermaid_block]. *)
Lemma opened_block op c op' pre body post :
  op = String c op' -> is_space c = false -> no_overlap op op ->
  contains op pre = false -> contains "`" body = false -> body <> EmptyString ->
  let response := pre +:+ op +:+ body +:+ CodeFence.fence +:+ post in
  strip response = lstrip pre +:+ op +:+ body +:+ CodeFence.fence +:+ rstrip post
  /\ forall pre' post', contains op pre' = false ->
       let r := pre' +:+ op +:+ body +:+ CodeFence.fence +:+ post' in
       contains op r = true
       /\ (let start := find r op 0 + len op in
           let end_ := find r CodeFence.fence start in
           (end_ >? start) = true /\ slice r start end_ = body).
Proof.
  intros Hop Hc Hoo Hpre Hbody Hne response. split.
  - unfold strip, response. rewrite Hop at 1. rewrite append_cons, lstrip_append by done.
    rewrite <- append_cons, <- Hop.
    rewrite <- (append_assoc (lstrip pre)), <- (append_assoc (lstrip pre +:+ op)).
    assert (Hf : rstrip (CodeFence.fence +:+ post) = CodeFence.fence +:+ rstrip post).
    { unfold CodeFence.fence. rewrite !append_cons. by rewrite !rstrip_nonspace. }
    rewrite rstrip_append; rewrite Hf; [by rewrite !append_assoc|done].
  - intros pre' post' Hpre' r.
    assert (Hop' : op <> EmptyString) by by rewrite Hop.
    assert (Hs : find r op 0 = len pre') by by apply (find_after op op).
    split; [eapply index_found; by apply (index_after op op)|].
    cbn zeta. rewrite Hs.
    assert (He : find r CodeFence.fence (len pre' + len op)
                 = len pre' + len op + len body).
    { unfold find, r. rewrite <- (append_assoc pre').
      replace (Z.to_nat (len pre' + len op)) with (String.length (pre' +:+ op))
        by (unfold len; rewrite length_append; lia).
      rewrite (index_skip _ _ _ (String.length body)).
      - unfold len. rewrite length_append. lia.
      - by apply (index_after CodeFence.fence "`"); [|apply no_overlap_fence|]. }
    rewrite He. split.
    + assert (0 < len body); [|lia].
      unfold len. destruct body; [done|]. cbn [String.length]. lia.
    + unfold r. rewrite <- (append_assoc pre').
      replace (len pre' + len op) with (len (pre' +:+ op))
        by (unfold len; rewrite length_append; lia).
      apply slice_middle.
Qed.

End Fences.

Lemma no_overlap_fence_python : no_overlap CodeFence.fence_python CodeFence.fence_python.
Proof.
  intros x rest Hne H. unfold CodeFence.fence_python in H.
  overlap_first H x. do 8 overlap_step H x.
  by destruct x; vm_compute.
Qed.

Lemma no_overlap_fence_mermaid :
  no_overlap DiagramGeneratorAgent.fence_mermaid DiagramGeneratorAgent.fence_mermaid.
Proof.
  intros x rest Hne H. unfold DiagramGeneratorAgent.fence_mermaid in H.
  overlap_first H x. do 9 overlap_step H x.
  by destruct x; vm_compute.
Qed.

Lemma response_truthy pre op body post :
  op <> EmptyString -> PyStr.truthy (pre +:+ op +:+ body +:+ post) = true.
Proof. intros. destruct pre; [by destruct op|done]. Qed.

(** X17.  A reply that holds a block opened by a language fence and
    closed by a fence yields the text of that block, stripped: the prose
    before the block and everything after the closing fence are dropped.
    The block must not be empty and must hold no backtick, and the prose
    before it must not hold the opening fence.  This is so for the python
    fence in the two code extractors and for the mermaid fence in the
    diagram extractor. *)
Theorem fenced_block_is_extracted (pre body post : string) :
  PyStr.contains "`" body = false ->
  body <> EmptyString ->
  (PyStr.contains CodeFence.fence_python pre = false ->
   let response :=
     pre +:+ CodeFence.fence_python +:+ body +:+ CodeFence.fence +:+ post in
   WorkerAgent._extract_code response = PyStr.strip body
   /\ SchemaAnalyzerAgent._extract_code response = PyStr.strip body)
  /\ (PyStr.contains DiagramGeneratorAgent.fence_mermaid pre = false ->
      DiagramGeneratorAgent._extract_mermaid
        (pre +:+ DiagramGeneratorAgent.fence_mermaid +:+ body +:+ CodeFence.fence +:+ post)
      = PyStr.strip body).
Proof.
  intros Hbody Hne. split.
  - intros Hpre response.
    destruct (opened_block CodeFence.fence_python "`" "``python" pre body post)
      as [Hstrip Hblock]; [done|done|apply no_overlap_fence_python|done|done|done|].
    fold response in Hstrip.
    destruct (Hblock (PyStr.lstrip pre) (PyStr.rstrip post)) as (Hc & Hgt & Hsl);
      [by apply contains_lstrip|].
    assert (Hpy : CodeFence.python_block (PyStr.strip response)
                  = Some (PyStr.strip body)).
    { unfold CodeFence.python_block. rewrite Hstrip, Hc. cbn zeta in Hgt, Hsl.
      by rewrite Hgt, Hsl. }
    unfold WorkerAgent._extract_code, SchemaAnalyzerAgent._extract_code.
    rewrite !Hpy. unfold response. by rewrite response_truthy.
  - intros Hpre.
    set (response := pre +:+ DiagramGeneratorAgent.fence_mermaid +:+ body
                     +:+ CodeFence.fence +:+ post).
    destruct (opened_block DiagramGeneratorAgent.fence_mermaid "`" "``mermaid"
                pre body post)
      as [Hstrip Hblock]; [done|done|apply no_overlap_fence_mermaid|done|done|done|].
    fold response in Hstrip.
    destruct (Hblock (PyStr.lstrip pre) (PyStr.rstrip post)) as (Hc & Hgt & Hsl);
      [by apply contains_lstrip|].
    unfold DiagramGeneratorAgent._extract_mermaid.
    unfold DiagramGeneratorAgent.mermaid_block.
    rewrite Hstrip, Hc. cbn zeta in Hgt, Hsl. rewrite Hgt, Hsl.
    unfold response. by rewrite response_truthy.
Qed.

(** ** The planner's retry loop *)

Lemma placeholder_not_blank (x : string) :
  PyStr.truthy (PyStr.strip ("[" +:+ x)) = true.
Proof.
  change ("[" +:+ x) with (String "[" x). unfold PyStr.strip.
  rewrite lstrip_nonspace by done. by rewrite rstrip_nonspace.
Qed.

(** The requests of the retry loop started at attempt [lo] with [k]
    nudges already appended: request [i] carries [k + i] nudges; a reply
    that is kept is the client's answer to one of these requests. *)
Lemma retry_loop_requests (E : PlannerAgent.Env) (p : PlannerAgent.t)
    (base : list Message) :
  forall (n : nat) (lo : Z) (k : nat) (rc : string) r evs,
    n = Z.to_nat (PlannerAgent.max_retries p + 1 - lo) ->
    PlannerAgent.retry_loop E p (Py.range lo (PlannerAgent.max_retries p + 1))
      (base ++ replicate k PlannerAgent.nudge) rc = (r, evs) ->
    exists j : nat,
      (j <= n)%nat /\ (1 <= n -> 1 <= j)%nat
      /\ evs = map (fun i => EvRequest (base ++ replicate (k + i) PlannerAgent.nudge))
                 (seq 0 j)
      /\ forall reply, r = Ok reply ->
           PyStr.truthy (PyStr.strip reply) = true ->
           PyStr.truthy (PyStr.strip rc) = true
           \/ exists i : nat,
                (i < j)%nat
                /\ PlannerAgent.client_create E (length (PlannerAgent.history p))
                     (lo + Z.of_nat i) (base ++ replicate (k + i) PlannerAgent.nudge)
                   = Ok reply.
Proof.
  induction n as [|n IH]; intros lo k rc r evs Hn Hloop.
  - rewrite range_empty in Hloop by lia. injection Hloop as <- <-.
    exists 0%nat. split_and!; [lia|lia|done|]. intros reply [= <-] Ht. by left.
  - rewrite range_cons in Hloop by lia. cbn [PlannerAgent.retry_loop] in Hloop.
    destruct (PlannerAgent.client_create E _ lo _) as [reply0|e] eqn:Hc.
    + destruct (PyStr.truthy (PyStr.strip reply0)) eqn:Hb.
      * injection Hloop as <- <-. exists 1%nat.
        split_and!; [lia|lia|by cbn; rewrite Nat.add_0_r|].
        intros reply [= <-] _. right. exists 0%nat.
        rewrite Nat.add_0_r, Z.add_0_r. split; [lia|done].
      * destruct (PlannerAgent.retry_loop E p _ _ reply0) as [r' evs'] eqn:Hrest.
        injection Hloop as <- <-.
        assert (Hn' : n = Z.to_nat (PlannerAgent.max_retries p + 1 - (lo + 1))) by lia.
        destruct (decide (lo < PlannerAgent.max_retries p)) as [Hlt|Hge].
        -- replace (lo <? PlannerAgent.max_retries p) with true in Hrest
             by (symmetry; lia).
           replace ((base ++ replicate k PlannerAgent.nudge) ++ [PlannerAgent.nudge])
             with (base ++ replicate (S k) PlannerAgent.nudge) in Hrest
             by (rewrite <- app_assoc; f_equal;
                 change [PlannerAgent.nudge] with (replicate 1 PlannerAgent.nudge);
                 rewrite <- replicate_add; f_equal; lia).
           destruct (IH _ _ _ _ _ Hn' Hrest) as (j & Hj & Hj1 & Hevs & Hrep).
           exists (S j). split_and!; [lia|lia| |].
           ++ cbn [seq map]. rewrite Nat.add_0_r. f_equal.
              rewrite Hevs, <- seq_shift, map_map. apply map_ext. intros i.
              do 3 f_equal. lia.
           ++ intros reply Hr Ht. destruct (Hrep reply Hr Ht) as [Hbl|(i & Hi & Hci)];
                [congruence|].
              right. exists (S i). split; [lia|].
              replace (lo + Z.of_nat (S i)) with (lo + 1 + Z.of_nat i) by lia.
              by replace (k + S i)%nat with (S k + i)%nat by lia.
        -- assert (n = 0%nat) by lia. subst n.
           rewrite range_empty in Hrest by lia. injection Hrest as <- <-.
           exists 1%nat. split_and!; [lia|lia|by cbn; rewrite Nat.add_0_r|].
           intros reply [= <-] Ht. congruence.
    + injection Hloop as <- <-. exists 1%nat.
      split_and!; [lia|lia|by cbn; rewrite Nat.add_0_r|]. done.
Qed.

Lemma send_instruction_requests (E : PlannerAgent.Env) (p : PlannerAgent.t)
    (instruction : string) r evs :
  PlannerAgent.send_instruction E p instruction = (r, evs) ->
  exists j : nat,
    (j <= Z.to_nat (PlannerAgent.max_retries p))%nat
    /\ (1 <= PlannerAgent.max_retries p -> (1 <= j)%nat)
    /\ evs = map (fun i => EvRequest (PlannerAgent.request_messages p instruction
                                      ++ replicate i PlannerAgent.nudge)) (seq 0 j).
Proof.
  unfold PlannerAgent.send_instruction.
  destruct (PlannerAgent.retry_loop _ _ _ _ _) as [r0 evs0] eqn:Hloop.
  intros Hsend. assert (evs = evs0) as -> by (by destruct r0; injection Hsend).
  pose proof (retry_loop_requests E p (PlannerAgent.request_messages p instruction)
                (Z.to_nat (PlannerAgent.max_retries p)) 1 0 EmptyString r0 evs0) as H.
  rewrite app_nil_r in H. destruct (H ltac:(lia) Hloop) as (j & Hj & Hj1 & Hevs & _).
  exists j. split_and!; [done|lia|done].
Qed.

Lemma send_instruction_reply (E : PlannerAgent.Env) (p p' : PlannerAgent.t)
    (instruction reply : string) evs :
  PlannerAgent.send_instruction E p instruction = (Ok (reply, p'), evs) ->
  PyStr.truthy (PyStr.strip reply) = true
  /\ PlannerAgent.name p' = PlannerAgent.name p
  /\ PlannerAgent.system_prompt p' = PlannerAgent.system_prompt p
  /\ PlannerAgent.max_retries p' = PlannerAgent.max_retries p
  /\ (reply = "[" +:+ PlannerAgent.name p +:+ " returned empty response after "
              +:+ pretty (PlannerAgent.max_retries p) +:+ " attempts]"
      \/ exists i : nat,
           (i < Z.to_nat (PlannerAgent.max_retries p))%nat
           /\ PlannerAgent.client_create E (length (PlannerAgent.history p))
                (1 + Z.of_nat i)
                (PlannerAgent.request_messages p instruction
                 ++ replicate i PlannerAgent.nudge) = Ok reply).
Proof.
  unfold PlannerAgent.send_instruction.
  destruct (PlannerAgent.retry_loop _ _ _ _ _) as [[r0|e] evs0] eqn:Hloop; [|done].
  intros [= <- <- <-]. cbn [PlannerAgent.name PlannerAgent.system_prompt
                            PlannerAgent.max_retries].
  destruct (PyStr.truthy (PyStr.strip r0)) eqn:Hb; cbn [negb].
  - split_and!; [done|done|done|done|]. right.
    pose proof (retry_loop_requests E p (PlannerAgent.request_messages p instruction)
                  (Z.to_nat (PlannerAgent.max_retries p)) 1 0 EmptyString (Ok r0) evs0) as H.
    rewrite app_nil_r in H. destruct (H ltac:(lia) Hloop) as (j & Hj & _ & _ & Hrep).
    destruct (Hrep r0 eq_refl Hb) as [Hbl|(i & Hi & Hci)]; [done|].
    exists i. split; [lia|done].
  - split_and!; [apply placeholder_not_blank|done|done|done|by left].
Qed.

(** X18.  Whatever the generation service answers, the reply that
    [send_instruction] hands back is never blank: it is the service's
    answer to one of the requests of this call, or the placeholder that
    names the planner and its retry budget. *)
Theorem planner_reply_is_never_blank (E : PlannerAgent.Env) (p p' : PlannerAgent.t)
    (instruction reply : string) (evs : list event) :
  PlannerAgent.send_instruction E p instruction = (Ok (reply, p'), evs) ->
  PyStr.truthy (PyStr.strip reply) = true
  /\ (reply = "[" +:+ PlannerAgent.name p +:+ " returned empty response after "
              +:+ pretty (PlannerAgent.max_retries p) +:+ " attempts]"
      \/ exists i : nat,
           (i < Z.to_nat (PlannerAgent.max_retries p))%nat
           /\ PlannerAgent.client_create E (length (PlannerAgent.history p))
                (1 + Z.of_nat i)
                (PlannerAgent.request_messages p instruction
                 ++ replicate i PlannerAgent.nudge) = Ok reply).
Proof.
  intros Hsend. by destruct (send_instruction_reply _ _ _ _ _ _ Hsend) as (? & _ & _ & _ & ?).
Qed.

(** X19.  One call of [send_instruction] sends at most [max_retries]
    requests (at least one when the budget is positive) and nothing else;
    the first request is the system prompt, the history and the
    instruction, and each further request repeats the one before it with
    one more nudge at its end.  This holds also when the call raises. *)
Theorem planner_retry_requests (E : PlannerAgent.Env) (p : PlannerAgent.t)
    (instruction : string) :
  let run := PlannerAgent.send_instruction E p instruction in
  exists j : nat,
    (j <= Z.to_nat (PlannerAgent.max_retries p))%nat
    /\ (1 <= PlannerAgent.max_retries p -> (1 <= j)%nat)
    /\ run.2 = map (fun i => EvRequest (PlannerAgent.request_messages p instruction
                                        ++ replicate i PlannerAgent.nudge)) (seq 0 j).
Proof.
  intros run. destruct run as [r evs] eqn:Hrun. by apply (send_instruction_requests E p instruction r).
Qed.

(** ** The planner debate *)

Section Debate.
Import DebateRunner.
Variable E : Env.

Lemma round_body_ok st st' evs :
  round_body E st = (Ok tt, st', evs) ->
  exists critique revision,
    turns st' = turns st ++ [ {| speaker := PlannerAgent.name (beta st); message := critique |};
                              {| speaker := PlannerAgent.name (alpha st); message := revision |} ]
    /\ beta_response st' = Some critique /\ alpha_response st' = revision
    /\ PlannerAgent.name (alpha st') = PlannerAgent.name (alpha st)
    /\ PlannerAgent.name (beta st') = PlannerAgent.name (beta st)
    /\ PlannerAgent.history (alpha st')
       = PlannerAgent.history (alpha st)
         ++ [ {| msg_role := User; msg_content := alpha_revision_prompt E critique |};
              {| msg_role := Assistant; msg_content := revision |} ]
    /\ PlannerAgent.history (beta st')
       = PlannerAgent.history (beta st)
         ++ [ {| msg_role := User; msg_content := beta_prompt E (alpha_response st) |};
              {| msg_role := Assistant; msg_content := critique |} ]
    /\ PyStr.truthy (PyStr.strip critique) = true
    /\ PyStr.truthy (PyStr.strip revision) = true.
Proof.
  unfold round_body.
  destruct (PlannerAgent.send_instruction (beta_client E) _ _) as [[[critique beta']|e] ev1]
    eqn:Hb; [|done].
  destruct (PlannerAgent.send_instruction (alpha_client E) _ _) as [[[revision alpha']|e] ev2]
    eqn:Ha; [|done].
  intros [= <- <-]. exists critique, revision. cbn.
  destruct (send_instruction_reply _ _ _ _ _ _ Hb) as (? & ? & _).
  destruct (send_instruction_reply _ _ _ _ _ _ Ha) as (? & ? & _).
  rewrite (send_instruction_history _ _ _ _ _ _ Hb), (send_instruction_history _ _ _ _ _ _ Ha).
  rewrite <- app_assoc. by split_and!.
Qed.

Lemma round_body_raise_or_ok st :
  (exists e st' evs, round_body E st = (Raise e, st', evs))
  \/ (exists st' evs, round_body E st = (Ok tt, st', evs)).
Proof.
  destruct (round_body E st) as [[[[]|e] st'] evs]; [right|left]; eauto.
Qed.

Lemma rounds_loop_ok rounds : forall st st' evs,
  rounds_loop E rounds st = (Ok tt, st', evs) ->
  exists script : list (string * string),
    length script = length rounds
    /\ turns st'
       = turns st
         ++ flat_map (fun cr => [ {| speaker := PlannerAgent.name (beta st); message := cr.1 |};
                                  {| speaker := PlannerAgent.name (alpha st); message := cr.2 |} ])
              script
    /\ beta_response st'
       = match last script with Some cr => Some cr.1 | None => beta_response st end
    /\ alpha_response st'
       = match last script with Some cr => cr.2 | None => alpha_response st end
    /\ PlannerAgent.history (alpha st')
       = PlannerAgent.history (alpha st) ++ alpha_revisions E script
    /\ PlannerAgent.history (beta st')
       = PlannerAgent.history (beta st) ++ beta_dialogue E (alpha_response st) script
    /\ Forall (fun cr => PyStr.truthy (PyStr.strip cr.1) = true
                         /\ PyStr.truthy (PyStr.strip cr.2) = true) script.
Proof.
  induction rounds as [|k rounds IH]; intros st st' evs Hloop.
  - injection Hloop as <- <-. exists []. cbn. rewrite !app_nil_r. by split_and!.
  - cbn [rounds_loop] in Hloop.
    destruct (round_body E st) as [[[[]|e] st1] ev1] eqn:Hbody; [|done].
    destruct (rounds_loop E rounds st1) as [[r st2] ev2] eqn:Hrest.
    injection Hloop as -> <- <-.
    destruct (round_body_ok _ _ _ Hbody)
      as (critique & revision & Ht & Hbr & Har & Hna & Hnb & Hha & Hhb & Hc & Hr).
    destruct (IH _ _ _ Hrest) as (script & Hlen & Ht' & Hbr' & Har' & Hha' & Hhb' & Hall).
    exists ((critique, revision) :: script).
    split_and!.
    + cbn. by rewrite Hlen.
    + rewrite Ht', Ht, Hna, Hnb, <- app_assoc. done.
    + rewrite Hbr', Hbr. rewrite last_cons. by destruct (last script).
    + rewrite Har', Har. rewrite last_cons. by destruct (last script).
    + rewrite Hha', Hha, <- app_assoc. done.
    + rewrite Hhb', Hhb, <- app_assoc, Har. done.
    + by constructor.
Qed.

(** What a debate that returns a plan has done. *)
Lemma debate_ok d catalog summary plan d' evs :
  debate E d catalog summary = (Ok plan, d', evs) ->
  exists plan0 script,
    length script = Z.to_nat (max_rounds d)
    /\ conversation plan
       = script_turns (PlannerAgent.name (planner_alpha d))
           (PlannerAgent.name (planner_beta d)) plan0 script
    /\ last script = Some (final_critique plan, final_plan plan)
    /\ no_blank_turn (conversation plan)
    /\ run_rounds plan = max_rounds d
    /\ catalog_summary plan = summary
    /\ PlannerAgent.history (planner_alpha d')
       = PlannerAgent.history (planner_alpha d) ++ alpha_dialogue E summary plan0 script
    /\ PlannerAgent.history (planner_beta d')
       = PlannerAgent.history (planner_beta d) ++ beta_dialogue E plan0 script.
Proof.
  unfold debate.
  destruct (PlannerAgent.send_instruction (alpha_client E) _ _) as [[[plan0 alpha']|e] ev0]
    eqn:H0; [|done].
  destruct (rounds_loop E _ _) as [[r st] evs'] eqn:Hloop.
  destruct r as [[]|e]; [|done].
  destruct (rounds_loop_ok _ _ _ _ Hloop)
    as (script & Hlen & Ht & Hbr & Har & Hha & Hhb & Hall).
  cbn in Ht, Hbr, Har, Hha, Hhb.
  destruct (send_instruction_reply _ _ _ _ _ _ H0) as (Hp0 & Hn0 & _).
  destruct (beta_response st) as [critique|] eqn:Hcrit; [|done].
  intros [= <- <- <-]. cbn.
  exists plan0, script. split_and!.
  - rewrite Hlen. unfold Py.range. rewrite length_map, length_seq. lia.
  - rewrite Ht, Hn0. done.
  - destruct (last script) as [[c r]|]; [|done]. cbn in Hbr, Har. congruence.
  - rewrite Ht. constructor; [done|]. apply Forall_flat_map.
    eapply Forall_impl; [exact Hall|]. intros [c r] [? ?]. by repeat constructor.
  - done.
  - done.
  - rewrite Hha, (send_instruction_history _ _ _ _ _ _ H0), <- app_assoc. done.
  - done.
Qed.

Lemma run_debate_ok d catalog plan d' evs :
  run_debate E d catalog = (Ok plan, d', evs) ->
  debate E d catalog (catalog_summary plan) = (Ok plan, d', evs).
Proof.
  unfold run_debate.
  destruct (_summarize_catalog E catalog) as [summary|e]; [|done].
  destruct (Py.len_ _) as [?|?]; [|done].
  destruct (Py.len_ _) as [?|?]; [|done].
  intros Hd. destruct (debate_ok _ _ _ _ _ _ Hd) as (? & ? & _ & _ & _ & _ & _ & -> & _).
  done.
Qed.

End Debate.

(** X20.  A debate that returns a plan has run at least one round; its
    conversation is Alpha's initial plan followed, for each of the
    [max_rounds] rounds, by Beta's critique and Alpha's revision, each
    under its speaker's name and none of them blank; the final critique
    and the final plan are the two messages of the last round. *)
Theorem debate_conversation_shape (E : DebateRunner.Env) (d d' : DebateRunner.t)
    (catalog : list (string * json)) (plan : DebateRunner.Plan) (evs : list event) :
  DebateRunner.run_debate E d catalog = (Ok plan, d', evs) ->
  1 <= DebateRunner.max_rounds d
  /\ DebateRunner.run_rounds plan = DebateRunner.max_rounds d
  /\ no_blank_turn (DebateRunner.conversation plan)
  /\ exists plan0 script,
       length script = Z.to_nat (DebateRunner.max_rounds d)
       /\ DebateRunner.conversation plan
          = script_turns (PlannerAgent.name (DebateRunner.planner_alpha d))
              (PlannerAgent.name (DebateRunner.planner_beta d)) plan0 script
       /\ last script
          = Some (DebateRunner.final_critique plan, DebateRunner.final_plan plan).
Proof.
  intros Hrun. apply run_debate_ok in Hrun.
  destruct (debate_ok _ _ _ _ _ _ _ Hrun)
    as (plan0 & script & Hlen & Hconv & Hlast & Hblank & Hrounds & _).
  split_and!; [|done|done|by exists plan0, script].
  destruct script; [done|]. cbn in Hlen. lia.
Qed.

(** X21.  The data flow of a debate that returns a plan: Alpha is asked
    for a plan from the catalog summary and then, in every round, to
    revise against the critique Beta has just given; Beta is asked, in
    every round, to critique the plan Alpha gave last.  The two histories
    grow by exactly these exchanges. *)
Theorem debate_data_flow (E : DebateRunner.Env) (d d' : DebateRunner.t)
    (catalog : list (string * json)) (plan : DebateRunner.Plan) (evs : list event) :
  DebateRunner.run_debate E d catalog = (Ok plan, d', evs) ->
  exists plan0 script,
    DebateRunner.conversation plan
    = script_turns (PlannerAgent.name (DebateRunner.planner_alpha d))
        (PlannerAgent.name (DebateRunner.planner_beta d)) plan0 script
    /\ DebateRunner._summarize_catalog E catalog = Ok (DebateRunner.catalog_summary plan)
    /\ PlannerAgent.history (DebateRunner.planner_alpha d')
       = PlannerAgent.history (DebateRunner.planner_alpha d)
         ++ alpha_dialogue E (DebateRunner.catalog_summary plan) plan0 script
    /\ PlannerAgent.history (DebateRunner.planner_beta d')
       = PlannerAgent.history (DebateRunner.planner_beta d)
         ++ beta_dialogue E plan0 script.
Proof.
  intros Hrun. pose proof (run_debate_ok _ _ _ _ _ _ Hrun) as Hd.
  destruct (debate_ok _ _ _ _ _ _ _ Hd)
    as (plan0 & script & _ & Hconv & _ & _ & _ & _ & Ha & Hb).
  exists plan0, script. split_and!; [done| |done|done].
  unfold DebateRunner.run_debate in Hrun.
  destruct (DebateRunner._summarize_catalog E catalog) as [summary|e]; [|done].
  destruct (Py.len_ _) as [?|?]; [|done].
  destruct (Py.len_ _) as [?|?]; [|done].
  destruct (debate_ok _ _ _ _ _ _ _ Hrun) as (? & ? & _ & _ & _ & _ & _ & -> & _). done.
Qed.

(** X22.  With a round budget of zero or less the debate never returns a
    plan: whatever the planners answer, [run_debate] raises. *)
Theorem debate_without_rounds_raises (E : DebateRunner.Env) (d : DebateRunner.t)
    (catalog : list (string * json)) :
  DebateRunner.max_rounds d <= 0 ->
  exists e, (DebateRunner.run_debate E d catalog).1.1 = Raise e.
Proof.
  intros Hr. destruct (DebateRunner.run_debate E d catalog) as [[[plan|e] d'] evs] eqn:Hrun;
    [|by exists e].
  apply run_debate_ok in Hrun.
  destruct (debate_ok _ _ _ _ _ _ _ Hrun) as (plan0 & script & Hlen & _ & Hlast & _).
  destruct script; [done|]. cbn in Hlen. lia.
Qed.

(** ** The entry point of the schema analyzer *)

Lemma extraction_events (I : SchemaAnalyzerAgent.Intake) (a : SchemaAnalyzerAgent.Agent) :
  (SchemaAnalyzerAgent._extract_connection_from_instructions I a).2
  = [EvRequest (SchemaAnalyzerAgent.extraction_messages I a)].
Proof.
  unfold SchemaAnalyzerAgent._extract_connection_from_instructions.
  destruct (SchemaAnalyzerAgent.extract_create I _) as [reply|e]; [|done].
  destruct (_ && _); [|done].
  destruct (SchemaAnalyzerAgent.config_loads I _) as [[]|]; done.
Qed.

Lemma extraction_result (I : SchemaAnalyzerAgent.Intake) (a : SchemaAnalyzerAgent.Agent) v :
  (SchemaAnalyzerAgent._extract_connection_from_instructions I a).1 = Ok (Some v) ->
  exists kvs, v = JObj kvs.
Proof.
  unfold SchemaAnalyzerAgent._extract_connection_from_instructions.
  destruct (SchemaAnalyzerAgent.extract_create I _) as [reply|e]; [|done].
  destruct (_ && _); [|done].
  destruct (SchemaAnalyzerAgent.config_loads I _) as [[]|]; try done.
  intros [= <-]. eauto.
Qed.

(** X23.  [analyze] starts a kernel session, and so runs generated code,
    only after it has extracted a non-empty connection object from
    non-empty instructions and, when a run folder is set, saved it.  In
    every case its first event, if any, is the one extraction request. *)
Theorem analyze_starts_session_only_with_connection (I : SchemaAnalyzerAgent.Intake)
    (a : SchemaAnalyzerAgent.Agent) (start : start_outcome) :
  let run := SchemaAnalyzerAgent.analyze I a start in
  (run.2 = [] \/ exists evs,
      run.2 = EvRequest (SchemaAnalyzerAgent.extraction_messages I a) :: evs)
  /\ forall ok, In (EvStart ok) run.2 ->
       SchemaAnalyzerAgent.instructions a <> EmptyString
       /\ exists kvs,
            kvs <> []
            /\ (SchemaAnalyzerAgent._extract_connection_from_instructions I a).1
               = Ok (Some (JObj kvs))
            /\ (forall folder, SchemaAnalyzerAgent.run_folder a = Some folder ->
                  folder <> EmptyString ->
                  SchemaAnalyzerAgent.save_config I folder (JObj kvs) = None).
Proof.
  intros run. unfold run, SchemaAnalyzerAgent.analyze.
  destruct (SchemaAnalyzerAgent.instructions a) as [|c s] eqn:Hins; cbn [PyStr.truthy negb].
  { split; [by left|]. by intros ok []. }
  pose proof (extraction_events I a) as Hev.
  pose proof (extraction_result I a) as Hres.
  destruct (SchemaAnalyzerAgent._extract_connection_from_instructions I a) as [r ev0].
  cbn [fst snd] in Hev, Hres. subst ev0.
  assert (Hno : forall ok, ~ In (EvStart ok)
                  [EvRequest (SchemaAnalyzerAgent.extraction_messages I a)]).
  { intros ok [H|[]]. discriminate H. }
  destruct r as [[v|]|e].
  - destruct (Hres v eq_refl) as [kvs ->]. cbn [default].
    destruct kvs as [|kv kvs].
    { cbn. split; [right; by eexists|]. intros ok H. by destruct (Hno ok). }
    cbn [Py.truthy negb].
    replace (negb (Py.truthy (JObj (kv :: kvs)))) with false by done.
    cbn iota.
    destruct (SchemaAnalyzerAgent.run_folder a) as [folder|] eqn:Hf.
    + destruct (PyStr.truthy folder) eqn:Htf.
      * destruct (SchemaAnalyzerAgent.save_config I folder _) as [e|] eqn:Hsave.
        { cbn. split; [right; by eexists|]. intros ok H. by destruct (Hno ok). }
        destruct (SchemaAnalyzerAgent.analyze_schema _ _ _) as [r evs].
        cbn [fst snd]. split; [right; by eexists|].
        intros ok _. split; [done|]. exists (kv :: kvs). split_and!; [done|done|].
        by intros ? [= <-] _.
      * destruct (SchemaAnalyzerAgent.analyze_schema _ _ _) as [r evs].
        cbn [fst snd]. split; [right; by eexists|].
        intros ok _. split; [done|]. exists (kv :: kvs). split_and!; [done|done|].
        intros ? [= <-] Hne. by destruct folder.
    + destruct (SchemaAnalyzerAgent.analyze_schema _ _ _) as [r evs].
      cbn [fst snd]. split; [right; by eexists|].
      intros ok _. split; [done|]. exists (kv :: kvs). by split_and!.
  - cbn. split; [right; by eexists|]. intros ok H. by destruct (Hno ok).
  - cbn. split; [right; by eexists|]. intros ok H. by destruct (Hno ok).
Qed.

(** X24.  When the reply to the extraction request lacks one of the two
    configuration markers, or the text between them does not decode, or
    it decodes to an empty object, [analyze] returns the error
    [Could not extract connection details from instructions] after that one
    request: it raises nothing and starts no session. *)
Theorem analyze_reports_missing_connection (I : SchemaAnalyzerAgent.Intake)
    (a : SchemaAnalyzerAgent.Agent) (start : start_outcome) (reply : string) :
  SchemaAnalyzerAgent.instructions a <> EmptyString ->
  SchemaAnalyzerAgent.extract_create I (SchemaAnalyzerAgent.extraction_messages I a)
    = Ok reply ->
  (PyStr.contains SchemaAnalyzerAgent.CONFIG_START reply = false
   \/ PyStr.contains SchemaAnalyzerAgent.CONFIG_END reply = false
   \/ (let json_str :=
         PyStr.strip
           (PyStr.slice reply
              (PyStr.find reply SchemaAnalyzerAgent.CONFIG_START 0
               + PyStr.len SchemaAnalyzerAgent.CONFIG_START)
              (PyStr.find reply SchemaAnalyzerAgent.CONFIG_END 0)) in
       (exists e, SchemaAnalyzerAgent.config_loads I json_str = inr e)
       \/ SchemaAnalyzerAgent.config_loads I json_str = inl (JObj []))) ->
  SchemaAnalyzerAgent.analyze I a start
  = (Ok (SchemaAnalyzerAgent.AnalysisError
           "Could not extract connection details from instructions"),
     [EvRequest (SchemaAnalyzerAgent.extraction_messages I a)]).
Proof.
  intros Hins Hreply Hcase. unfold SchemaAnalyzerAgent.analyze.
  destruct (SchemaAnalyzerAgent.instructions a) as [|c s] eqn:Hi; [done|].
  cbn [PyStr.truthy negb].
  unfold SchemaAnalyzerAgent._extract_connection_from_instructions. rewrite Hreply.
  destruct Hcase as [H|[H|H]].
  - by rewrite H.
  - rewrite H, andb_false_r. done.
  - destruct (_ && _); [|done]. cbn zeta in H. destruct H as [[e H]|H]; by rewrite H.
Qed.

(** ** Run identifiers *)

Section RunId.
Import PyStr Config.

Lemma all_chars_cons p c s : all_chars p (String c s) <-> p c = true /\ all_chars p s.
Proof.
  unfold all_chars. cbn [list_ascii_of_string]. split.
  - intros H. by inversion H.
  - intros [? ?]. by constructor.
Qed.

Lemma sub_unsafe_safe s : forall b, all_chars safe_char (sub_unsafe b s).
Proof.
  induction s as [|c s IH]; intros b; [constructor|]. cbn [sub_unsafe].
  destruct (safe_char c) eqn:Hc; [by apply all_chars_cons|].
  destruct b; [done|]. by apply all_chars_cons.
Qed.

Lemma lstrip_chars_all p cs s : all_chars p s -> all_chars p (lstrip_chars cs s).
Proof.
  induction s as [|c s IH]; [done|]. intros H. cbn [lstrip_chars].
  destruct (among cs c); [|done]. apply IH. by apply all_chars_cons in H as [_ ?].
Qed.

Lemma rstrip_chars_all p cs s : all_chars p s -> all_chars p (rstrip_chars cs s).
Proof.
  induction s as [|c s IH]; [done|]. intros [Hc Hs]%all_chars_cons. cbn [rstrip_chars].
  specialize (IH Hs). destruct (rstrip_chars cs s).
  - destruct (among cs c); [constructor|]. by apply all_chars_cons.
  - by apply all_chars_cons.
Qed.

Lemma substring_all p s : forall n, all_chars p s -> all_chars p (String.substring 0 n s).
Proof.
  induction s as [|c s IH]; intros [|n] H; try done; try constructor.
  - by apply all_chars_cons in H as [? _].
  - apply IH. by apply all_chars_cons in H as [_ ?].
Qed.

Lemma substring_length_le s : forall n, (String.length (String.substring 0 n s) <= n)%nat.
Proof.
  induction s as [|c s IH]; intros [|n]; cbn; try lia. specialize (IH n). lia.
Qed.

Lemma substring_all_of s : forall n, (String.length s <= n)%nat -> String.substring 0 n s = s.
Proof.
  induction s as [|c s IH]; intros [|n] H; cbn in *; try done; try lia.
  rewrite IH; [done|lia].
Qed.

(** A text stripped of [cs] on the left is empty or starts outside [cs]. *)
Lemma lstrip_chars_head cs s :
  lstrip_chars cs s = EmptyString
  \/ exists c s', lstrip_chars cs s = String c s' /\ among cs c = false.
Proof.
  induction s as [|c s IH]; [by left|]. cbn [lstrip_chars].
  destruct (among cs c) eqn:Hc; [done|]. right. eauto.
Qed.

Lemma rstrip_chars_head cs c s :
  rstrip_chars cs (String c s) = EmptyString
  \/ exists r, rstrip_chars cs (String c s) = String c r.
Proof.
  cbn [rstrip_chars]. destruct (rstrip_chars cs s); [|right; eauto].
  destruct (among cs c); [by left|right; eauto].
Qed.

Lemma normalized_head s :
  upto 64 (strip_chars "-" s) = EmptyString
  \/ exists c r, upto 64 (strip_chars "-" s) = String c r /\ among "-" c = false.
Proof.
  unfold strip_chars, upto.
  destruct (lstrip_chars_head "-" s) as [->|(c & s' & -> & Hc)]; [by left|].
  destruct (rstrip_chars_head "-" c s') as [->|[r ->]]; [by left|].
  right. exists c, (String.substring 0 63 r). done.
Qed.

Lemma endswith_cons p c s :
  endswith (String p EmptyString) (String c s)
  = match s with
    | EmptyString => Ascii.eqb c p
    | _ => endswith (String p EmptyString) s
    end.
Proof.
  unfold endswith. cbn [String.length].
  destruct s as [|d s]; [cbn; by destruct (Ascii.eqb c p)|].
  cbn [String.length]. replace (S (S (String.length s)) - 1)%nat with (S (String.length s)) by lia.
  replace (S (String.length s) - 1)%nat with (String.length s) by lia.
  done.
Qed.

Lemma rstrip_chars_keeps p s :
  endswith (String p EmptyString) s = false -> rstrip_chars (String p EmptyString) s = s.
Proof.
  induction s as [|c s IH]; [done|]. rewrite endswith_cons. cbn [rstrip_chars].
  destruct s as [|d s].
  - intros H. cbn. unfold among. cbn. by rewrite H.
  - intros H. rewrite IH by done. done.
Qed.

Lemma rstrip_chars_last p s :
  endswith (String p EmptyString) (rstrip_chars (String p EmptyString) s) = false.
Proof.
  induction s as [|c s IH]; [done|]. cbn [rstrip_chars].
  destruct (rstrip_chars (String p EmptyString) s) as [|d r] eqn:Hr.
  - unfold among. cbn [existsb list_ascii_of_string].
    destruct (Ascii.eqb c p) eqn:Hc; cbn [orb]; [done|].
    rewrite endswith_cons. done.
  - rewrite endswith_cons. done.
Qed.

Lemma sub_unsafe_keeps s : all_chars safe_char s -> sub_unsafe false s = s.
Proof.
  induction s as [|c s IH]; [done|]. intros [Hc Hs]%all_chars_cons.
  cbn [sub_unsafe]. rewrite Hc. by rewrite IH.
Qed.

End RunId.

(** X25.  A sanitized run identifier is safe to use as a directory
    name: it is not empty, has at most 64 characters, all of them
    letters, digits, underscores or hyphens, and it does not begin with a
    hyphen. *)
Theorem sanitized_run_id_is_path_safe (run_id : string) :
  let r := Config.sanitize_run_id run_id in
  r <> EmptyString
  /\ (String.length r <= 64)%nat
  /\ all_chars Config.safe_char r
  /\ PyStr.startswith "-" r = false.
Proof.
  intros r. unfold r, Config.sanitize_run_id.
  destruct run_id as [|c0 s0]; [by split_and!; [done|cbn; lia|repeat constructor|done]|].
  cbn [PyStr.truthy negb]. set (s := String c0 s0).
  pose proof (normalized_head (Config.sub_unsafe false s)) as Hhead.
  assert (Hall : all_chars Config.safe_char
                   (PyStr.upto 64 (PyStr.strip_chars "-" (Config.sub_unsafe false s)))).
  { apply substring_all, rstrip_chars_all, lstrip_chars_all, sub_unsafe_safe. }
  pose proof (substring_length_le
                (PyStr.strip_chars "-" (Config.sub_unsafe false s)) 64) as Hlen.
  fold (PyStr.upto 64 (PyStr.strip_chars "-" (Config.sub_unsafe false s))) in Hlen.
  destruct Hhead as [->|(c & t & Heq & Hc)].
  - by split_and!; [done|cbn; lia|repeat constructor|done].
  - rewrite Heq in *. cbn [PyStr.truthy]. split_and!; [done|done|done|].
    unfold PyStr.startswith. cbn [String.prefix].
    destruct (ascii_dec "-" c) as [<-|?]; [by vm_compute in Hc|done].
Qed.

(** X26.  An identifier that is already safe (only letters, digits,
    underscores and hyphens, not empty, at most 64 characters, no hyphen
    at either end) is returned unchanged. *)
Theorem safe_run_id_is_unchanged (run_id : string) :
  all_chars Config.safe_char run_id ->
  run_id <> EmptyString ->
  (String.length run_id <= 64)%nat ->
  PyStr.startswith "-" run_id = false ->
  PyStr.endswith "-" run_id = false ->
  Config.sanitize_run_id run_id = run_id.
Proof.
  intros Hall Hne Hlen Hstart Hend. unfold Config.sanitize_run_id.
  destruct run_id as [|c s] eqn:Hid; [done|]. cbn [PyStr.truthy negb].
  rewrite sub_unsafe_keeps by done. unfold PyStr.strip_chars.
  assert (Hl : PyStr.lstrip_chars "-" (String c s) = String c s).
  { cbn [PyStr.lstrip_chars]. unfold PyStr.among. cbn.
    unfold PyStr.startswith in Hstart. cbn [String.prefix] in Hstart.
    destruct (ascii_dec "-" c) as [<-|Hn]; [by destruct s|].
    destruct (Ascii.eqb_spec c "-") as [->|?]; [done|]. by rewrite orb_false_r. }
  rewrite Hl, rstrip_chars_keeps by done.
  unfold PyStr.upto. rewrite substring_all_of by done. done.
Qed.

(** ** Credentials *)

Section Credentials.
Import PyStr Config.

Lemma environ_fold_lookup (environ : gmap string string) keys :
  forall (creds : gmap string string) k,
  foldl (fun (creds : gmap string string) key =>
           match environ !! key with
           | Some value => if truthy value then <[key := value]> creds else creds
           | None => creds
           end) creds keys !! k
  = match (if bool_decide (k ∈ keys) then environ_value environ k else None) with
    | Some v => Some v
    | None => creds !! k
    end.
Proof.
  induction keys as [|key keys IH]; intros creds k; [done|].
  cbn [foldl]. rewrite IH. destruct (decide (k ∈ keys)) as [Hin|Hnin].
  - rewrite !bool_decide_eq_true_2 by (done || by right).
    destruct (environ_value environ k) eqn:Hp; [done|].
    destruct (decide (k = key)) as [->|Hne].
    + unfold environ_value in Hp. destruct (environ !! key) as [v|]; [|done].
      by destruct (truthy v).
    + destruct (environ !! key) as [v|]; [|done].
      destruct (truthy v); [|done]. by rewrite lookup_insert_ne.
  - rewrite (bool_decide_eq_false_2 (k ∈ keys)) by done.
    destruct (decide (k = key)) as [->|Hne].
    + rewrite bool_decide_eq_true_2 by by left.
      unfold environ_value. destruct (environ !! key) as [v|]; [|done].
      destruct (truthy v); [|done]. by rewrite lookup_insert_eq.
    + rewrite bool_decide_eq_false_2
        by (intros [?|?]%elem_of_cons; done).
      destruct (environ !! key) as [v|]; [|done].
      destruct (truthy v); [|done]. by rewrite lookup_insert_ne.
Qed.

Lemma from_environ_lookup environ k :
  from_environ environ !! k
  = if bool_decide (k ∈ env_keys) then environ_value environ k else None.
Proof.
  unfold from_environ. rewrite environ_fold_lookup.
  destruct (bool_decide (k ∈ env_keys)); [|done]. by destruct (environ_value environ k).
Qed.

Lemma read_line_keeps creds line k v :
  creds !! k = Some v -> read_line creds line !! k = Some v.
Proof.
  intros Hk. unfold read_line. destruct (_ && _); [|done].
  destruct (split_once _ _) as [[key value]|]; [|done].
  destruct (creds !! strip key) eqn:Hkey; [done|].
  rewrite lookup_insert_ne; [done|]. intros <-. congruence.
Qed.

Lemma read_lines_keep lines : forall creds k v,
  creds !! k = Some v -> foldl read_line creds lines !! k = Some v.
Proof.
  induction lines as [|line lines IH]; intros creds k v Hk; [done|].
  cbn [foldl]. by apply IH, read_line_keeps.
Qed.

Lemma has_spec creds key :
  has creds key = true <-> exists v, creds !! key = Some v /\ v <> EmptyString.
Proof.
  unfold has. destruct (creds !! key) as [v|]; [|split; [done|by intros (? & ? & _)]].
  split.
  - intros Ht. exists v. split; [done|]. by destruct v.
  - intros (? & [= <-] & Hne). by destruct v.
Qed.

Lemma pick_spec environ key value :
  environ !! key = Some value -> value <> EmptyString -> environ_value environ key = Some value.
Proof. unfold environ_value. intros -> Hne. by destruct value. Qed.

(** What [load_credentials] returns. *)
Lemma load_credentials_spec environ cred_file :
  match load_credentials environ cred_file with
  | Ok creds =>
      has creds "AZURE_OPENAI_API_KEY" = true
      /\ forall key value,
           key ∈ env_keys -> environ !! key = Some value -> value <> EmptyString ->
           creds !! key = Some value
  | Raise e =>
      e = PyException "AZURE_OPENAI_API_KEY not found in environment or credentials.txt"
      /\ environ_value environ "AZURE_OPENAI_API_KEY" = None
  end.
Proof.
  unfold load_credentials.
  assert (Henv : forall key value,
             key ∈ env_keys -> environ !! key = Some value -> value <> EmptyString ->
             from_environ environ !! key = Some value).
  { intros key value Hin Hk Hne. rewrite from_environ_lookup, bool_decide_eq_true_2 by done.
    by apply pick_spec. }
  destruct (has (from_environ environ) "AZURE_OPENAI_API_KEY"
            && has (from_environ environ) "SNOWFLAKE_ACCOUNT") eqn:Hboth.
  { apply andb_true_iff in Hboth as [? _]. done. }
  set (creds := match cred_file with
                | Some lines => foldl read_line (from_environ environ) lines
                | None => from_environ environ
                end).
  assert (Hkeep : forall k v, from_environ environ !! k = Some v -> creds !! k = Some v).
  { intros k v Hk. unfold creds. destruct cred_file; [by apply read_lines_keep|done]. }
  destruct (has creds "AZURE_OPENAI_API_KEY") eqn:Hkey; cbn [negb].
  - split; [done|]. intros key value Hin Hk Hne. by apply Hkeep, Henv.
  - split; [done|].
    destruct (environ_value environ "AZURE_OPENAI_API_KEY") as [v|] eqn:Hp; [|done].
    assert (Hf : from_environ environ !! "AZURE_OPENAI_API_KEY" = Some v).
    { rewrite from_environ_lookup. by rewrite bool_decide_eq_true_2 by set_solver. }
    apply Hkeep in Hf. unfold has in Hkey. rewrite Hf in Hkey.
    unfold environ_value in Hp. destruct (environ !! "AZURE_OPENAI_API_KEY") as [w|]; [|done].
    destruct (truthy w) eqn:Hw; [|done]. congruence.
Qed.

End Credentials.

(** X27.  [load_credentials] returns credentials that hold a non-empty
    API key, and in them every variable that the environment sets to a
    non-empty value has the environment's value, whatever the credentials
    file says.  The only error it raises by itself is the missing API
    key, and then the environment does not set the key. *)
Theorem credentials_prefer_environment (environ : gmap string string)
    (cred_file : option (list string)) :
  match Config.load_credentials environ cred_file with
  | Ok creds =>
      Config.has creds "AZURE_OPENAI_API_KEY" = true
      /\ forall key value,
           key ∈ Config.env_keys -> environ !! key = Some value ->
           value <> EmptyString -> creds !! key = Some value
  | Raise e =>
      e = PyException "AZURE_OPENAI_API_KEY not found in environment or credentials.txt"
      /\ forall value, environ !! "AZURE_OPENAI_API_KEY" = Some value ->
           value = EmptyString
  end.
Proof.
  pose proof (load_credentials_spec environ cred_file) as H.
  destruct (Config.load_credentials environ cred_file) as [creds|e]; [done|].
  destruct H as [-> Hp]. split; [done|]. intros value Hv.
  unfold environ_value in Hp. rewrite Hv in Hp. by destruct value.
Qed.

(** X28.  A configuration returned by [get_azure_openai_config] has a
    base URL without a trailing slash, a non-empty API key and a
    non-empty deployment name. *)
Theorem azure_config_is_normalized (environ : gmap string string)
    (cred_file : option (list string)) (reasoning_effort : string)
    (deployment : option string) (cfg : Config.AzureConfig) :
  Config.get_azure_openai_config environ cred_file reasoning_effort deployment = Ok cfg ->
  PyStr.endswith "/" (Config.base_url cfg) = false
  /\ (exists key, Config.api_key cfg = Some key /\ key <> EmptyString)
  /\ Config.deployment cfg <> EmptyString
  /\ Config.reasoning_effort cfg = reasoning_effort.
Proof.
  unfold Config.get_azure_openai_config.
  pose proof (load_credentials_spec environ cred_file) as H.
  destruct (Config.load_credentials environ cred_file) as [creds|e]; [|done].
  destruct H as [Hkey _].
  destruct (creds !! "AZURE_OPENAI_ENDPOINT") as [endpoint|]; [|done].
  intros [= <-]. cbn. split_and!; [apply rstrip_chars_last|by apply has_spec| |done].
  destruct deployment as [[|c d]|]; done.
Qed.

(** ** The order of file names *)

Lemma string_leb_refl a : String.leb a a = true.
Proof. by destruct (String.leb_total a a). Qed.

(** ** The latest catalog *)

Section Latest.
Import RunMigration.

Lemma insert_reverse_head f l :
  exists h t, insert_reverse f l = h :: t
    /\ (h = f \/ exists t', l = h :: t')
    /\ String.leb f h = true
    /\ (forall g t', l = g :: t' -> String.leb g h = true).
Proof.
  destruct l as [|g l]; cbn [insert_reverse].
  - exists f, []. split_and!; [done|by left|apply string_leb_refl|done].
  - destruct (String.leb g f) eqn:Hgf.
    + exists f, (g :: l). split_and!; [done|by left|apply string_leb_refl|].
      by intros ? ? [= <- _].
    + exists g, (insert_reverse f l). split_and!; [done|right; eauto| |].
      * destruct (String.leb_total f g); congruence.
      * intros ? ? [= <- _]. apply string_leb_refl.
Qed.

Lemma sort_reverse_head l :
  match sort_reverse l with
  | [] => l = []
  | h :: _ => In h l /\ forall f, In f l -> String.leb f h = true
  end.
Proof.
  induction l as [|f l IH]; [done|]. unfold sort_reverse in *. cbn [foldr].
  destruct (insert_reverse_head f (foldr insert_reverse [] l))
    as (h & t & -> & Hh & Hf & Hg).
  destruct (foldr insert_reverse [] l) as [|g s] eqn:Hs.
  - subst l. destruct Hh as [->|(? & [=])]. split; [by left|].
    intros ? [<-|[]]. apply string_leb_refl.
  - destruct IH as [Hin Hmax]. specialize (Hg g s eq_refl). split.
    + destruct Hh as [->|(? & [= <- _])]; [by left|by right].
    + intros x [<-|Hx]; [done|]. eapply string_leb_trans; [by apply Hmax|done].
Qed.

End Latest.

(** X29.  [find_latest_catalog] loads the catalog file whose name is the
    greatest, in the order of strings, among the names of the directory
    that start with [schema_catalog_] and end with [.json]; files with
    other names are never chosen.  Without the directory, or without such
    a file, it returns nothing and opens no file. *)
Theorem latest_catalog_is_greatest_name (listdir : option (list string))
    (load : string -> res json) :
  match listdir with
  | None => RunMigration.find_latest_catalog listdir load = Ok None
  | Some names =>
      (Forall (fun f => RunMigration.is_catalog_file f = false) names ->
       RunMigration.find_latest_catalog listdir load = Ok None)
      /\ forall catalog latest,
           RunMigration.find_latest_catalog listdir load = Ok (Some (catalog, latest)) ->
           In latest names
           /\ RunMigration.is_catalog_file latest = true
           /\ load latest = Ok catalog
           /\ forall f, In f names -> RunMigration.is_catalog_file f = true ->
                String.leb f latest = true
  end.
Proof.
  destruct listdir as [names|]; [|done]. unfold RunMigration.find_latest_catalog.
  pose proof (sort_reverse_head (List.filter RunMigration.is_catalog_file names)) as Hhead.
  destruct (RunMigration.sort_reverse _) as [|h t].
  - split; [done|]. done.
  - destruct Hhead as [Hin Hmax]. apply filter_In in Hin as [Hin Hcat]. split.
    + intros Hnone. rewrite List.Forall_forall in Hnone. specialize (Hnone h Hin). congruence.
    + intros catalog latest. destruct (load h) as [c|e] eqn:Hload; [|done].
      intros [= <- <-]. split_and!; [done|done|done|].
      intros f Hf Hfc. apply Hmax. apply filter_In. done.
Qed.

(** ** The status store of the API server *)

Section Store.
Import ApiServer.

Lemma add_logs_registered lines : forall migrations migration_id m,
  migrations !! migration_id = Some m ->
  add_logs migrations migration_id lines
  = <[migration_id := with_logs m (logs m ++ lines)]> migrations.
Proof.
  unfold add_logs.
  induction lines as [|[message type] lines IH]; intros migrations migration_id m Hm.
  - cbn. rewrite app_nil_r. destruct m. cbn. by rewrite insert_id.
  - cbn [foldl log_message log_type]. unfold add_log at 2. rewrite Hm.
    erewrite IH by apply lookup_insert_eq. cbn.
    rewrite insert_insert_eq, <- app_assoc. done.
Qed.

Lemma add_logs_unknown lines : forall migrations migration_id,
  migrations !! migration_id = None ->
  add_logs migrations migration_id lines = migrations.
Proof.
  unfold add_logs.
  induction lines as [|line lines IH]; intros migrations migration_id Hm; [done|].
  cbn [foldl]. unfold add_log at 2. rewrite Hm. by apply IH.
Qed.

End Store.

(** X30.  The log lines added to a registered migration are delivered by
    the next status request, after the lines still pending and in the
    order they were added, together with the unchanged status; that
    request removes them, so the request after it delivers none.  Other
    migrations are not touched.  For an unknown id nothing is stored and
    the status request answers 404. *)
Theorem log_lines_are_delivered_once (migrations : gmap string ApiServer.Migration)
    (migration_id : string) (lines : list ApiServer.LogLine) :
  let stored := add_logs migrations migration_id lines in
  let first := ApiServer.get_migration_status stored migration_id in
  let second := ApiServer.get_migration_status first.2 migration_id in
  match migrations !! migration_id with
  | Some m =>
      first.1 = Ok (ApiServer.with_logs m (ApiServer.logs m ++ lines))
      /\ second.1 = Ok (ApiServer.with_logs m [])
      /\ forall other, other <> migration_id -> second.2 !! other = migrations !! other
  | None =>
      stored = migrations
      /\ first = (Raise (ApiServer.HTTPException 404 "Migration not found"), migrations)
  end.
Proof.
  intros stored first second.
  destruct (migrations !! migration_id) as [m|] eqn:Hm.
  - unfold second, first, stored. rewrite (add_logs_registered _ _ _ m Hm).
    unfold ApiServer.get_migration_status. rewrite lookup_insert_eq. cbn [fst snd].
    rewrite lookup_insert_eq. cbn [fst snd]. split_and!; [done|done|].
    intros other Hne. by rewrite !lookup_insert_ne.
  - unfold first, stored. rewrite add_logs_unknown by done.
    unfold ApiServer.get_migration_status. by rewrite Hm.
Qed.

(** * The further properties on concrete runs *)

(** A stream text of the request, a text of another request, then the
    idle status. *)
Lemma iopub_reply_outcome_witness :
  reply_open "m1" [Scenario.stream_msg "m2" "noise"; Scenario.stream_msg "m1" "Loaded 3 rows"]
  /\ JupyterKernelSession.read_iopub "m1"
       ([Scenario.stream_msg "m2" "noise"; Scenario.stream_msg "m1" "Loaded 3 rows"]
        ++ Scenario.idle_msg "m1" :: [Scenario.stream_msg "m1" "late"]) []
     = Ok "Loaded 3 rows"%string.
Proof.
  assert (Hopen : reply_open "m1" [Scenario.stream_msg "m2" "noise";
                                   Scenario.stream_msg "m1" "Loaded 3 rows"]).
  { repeat constructor. }
  split; [exact Hopen|].
  exact (proj1 (proj2 (iopub_reply_outcome "m1" _ [Scenario.stream_msg "m1" "late"]
                         (Scenario.idle_msg "m1") Hopen)) eq_refl eq_refl).
Defined.

(** The launch of the worker's kernel fails. *)
Lemma failed_start_is_not_retried_witness :
  WorkerAgent.start_kernel (StartFailsLaunch (PyException "no kernel")) Sample.worker
  = ({| WorkerAgent.max_attempts := 7;
        WorkerAgent.kernel :=
          Some {| JupyterKernelSession.km := true; JupyterKernelSession.kc := false;
                  JupyterKernelSession._started := false |} |},
     Some (PyException "no kernel"), [EvStart false])
  /\ forall o',
       WorkerAgent.start_kernel o'
         {| WorkerAgent.max_attempts := 7;
            WorkerAgent.kernel :=
              Some {| JupyterKernelSession.km := true; JupyterKernelSession.kc := false;
                      JupyterKernelSession._started := false |} |}
       = ({| WorkerAgent.max_attempts := 7;
             WorkerAgent.kernel :=
               Some {| JupyterKernelSession.km := true; JupyterKernelSession.kc := false;
                       JupyterKernelSession._started := false |} |}, None, []).
Proof.
  split; [reflexivity|].
  exact (proj1 (failed_start_is_not_retried (StartFailsLaunch (PyException "no kernel"))
                  Sample.worker _ _ _ eq_refl)).
Defined.

(** The second unit of the sample run fails after seven attempts. *)
Lemma execute_task_outcome_witness :
  exists out,
    (WorkerAgent.execute_task Sample.one_unit_fails Sample.started_worker
       "2_extract_and_load_all_data" "MEGA-TASK 2" Sample.context).1 = Ok out
    /\ (WorkerAgent.out_success out = false ->
        WorkerAgent.out_attempts out = Z.max 0 (WorkerAgent.max_attempts Sample.started_worker)
        /\ (1 <= WorkerAgent.max_attempts Sample.started_worker ->
            WorkerAgent.out_last_error out <> JNull)).
Proof.
  eexists.
  refine ((fun H => conj H (proj2 (execute_task_outcome Sample.one_unit_fails
                                     Sample.started_worker "2_extract_and_load_all_data"
                                     "MEGA-TASK 2" Sample.context _ H))) _).
  vm_compute. reflexivity.
Defined.


(** The sample discovery converges after two iterations. *)
Lemma analyze_schema_verdict_witness :
  exists res,
    (SchemaAnalyzerAgent.analyze_schema Sample.converges Sample.analyzer StartReady).1 = Ok res
    /\ (SchemaAnalyzerAgent.res_satisfied res = true ->
        SchemaAnalyzerAgent.res_success res = true
        /\ SchemaAnalyzerAgent.stable_rounds_required Sample.analyzer
           <= SchemaAnalyzerAgent.iterations res).
Proof.
  eexists.
  refine ((fun H => conj H (proj1 (analyze_schema_verdict Sample.converges Sample.analyzer
                                     StartReady _ H))) _).
  vm_compute. reflexivity.
Defined.

Lemma analyze_schema_converges_witness :
  steady Sample.converges
    (SchemaAnalyzerAgent._build_fingerprint [Sample.orders; Sample.customers])
  /\ dumps_succeed Sample.converges
  /\ exists res evs,
       SchemaAnalyzerAgent.analyze_schema Sample.converges Sample.analyzer StartReady
       = (Ok res, evs)
       /\ SchemaAnalyzerAgent.res_success res = true
       /\ SchemaAnalyzerAgent.res_satisfied res = true
       /\ SchemaAnalyzerAgent.iterations res
          = Z.max 1 (SchemaAnalyzerAgent.stable_rounds_required Sample.analyzer)
       /\ count_requests evs
          = Z.to_nat (Z.max 1 (SchemaAnalyzerAgent.stable_rounds_required Sample.analyzer)).
Proof.
  assert (Hsteady : steady Sample.converges
            (SchemaAnalyzerAgent._build_fingerprint [Sample.orders; Sample.customers])).
  { intros it messages. eexists _, _, _, _. split; [reflexivity|].
    split; [vm_compute; reflexivity|]. split; [reflexivity|].
    split; [vm_compute; reflexivity|]. split; [discriminate|]. split; reflexivity. }
  assert (Hdumps : dumps_succeed Sample.converges).
  { split; intros; eexists; reflexivity. }
  split; [exact Hsteady|]. split; [exact Hdumps|].
  apply (analyze_schema_converges Sample.converges Sample.analyzer _ Hsteady Hdumps).
  cbn. lia.
Defined.

(** The output of the sample artifact. *)
Lemma task_result_read_between_markers_witness :
  PyStr.contains "TASK_RESULT_" ("Loaded 3 rows" +:+ PyStr.nl) = false
  /\ PyStr.contains WorkerAgent.RESULT_END
       (("Loaded 3 rows" +:+ PyStr.nl) +:+ WorkerAgent.RESULT_START
        +:+ (PyStr.nl +:+ Sample.success_json +:+ PyStr.nl)) = false
  /\ WorkerAgent._parse_task_result Sample.one_unit_fails
       (("Loaded 3 rows" +:+ PyStr.nl) +:+ WorkerAgent.RESULT_START
        +:+ (PyStr.nl +:+ Sample.success_json +:+ PyStr.nl)
        +:+ WorkerAgent.RESULT_END +:+ PyStr.nl)
     = JObj [("success", JBool true)].
Proof.
  refine ((fun H1 H2 =>
             conj H1 (conj H2 (task_result_read_between_markers Sample.one_unit_fails
                                 ("Loaded 3 rows" +:+ PyStr.nl)
                                 (PyStr.nl +:+ Sample.success_json +:+ PyStr.nl)
                                 PyStr.nl H1 H2))) _ _);
    vm_compute; reflexivity.
Defined.

Lemma kernel_output_read_between_markers_witness :
  PyStr.contains SchemaAnalyzerAgent.RESULT_START EmptyString = false
  /\ PyStr.contains SchemaAnalyzerAgent.RESULT_END
       (EmptyString +:+ SchemaAnalyzerAgent.RESULT_START
        +:+ (PyStr.nl +:+ "{...}" +:+ PyStr.nl)) = false
  /\ SchemaAnalyzerAgent._parse_kernel_output Sample.converges
       (EmptyString +:+ SchemaAnalyzerAgent.RESULT_START
        +:+ (PyStr.nl +:+ "{...}" +:+ PyStr.nl)
        +:+ SchemaAnalyzerAgent.RESULT_END +:+ PyStr.nl)
     = Ok (SchemaAnalyzerAgent.PayloadDict [Sample.orders; Sample.customers] []).
Proof.
  refine ((fun H1 H2 =>
             conj H1 (conj H2 (kernel_output_read_between_markers Sample.converges
                                 EmptyString (PyStr.nl +:+ "{...}" +:+ PyStr.nl)
                                 PyStr.nl H1 H2))) _ _);
    vm_compute; reflexivity.
Defined.

Lemma connection_config_read_between_markers_witness :
  SchemaAnalyzerAgent._extract_connection_from_instructions
    (Scenario.intake Scenario.extraction_reply) Scenario.agent
  = (Ok (Some Scenario.connection),
     [EvRequest (SchemaAnalyzerAgent.extraction_messages
                   (Scenario.intake Scenario.extraction_reply) Scenario.agent)]).
Proof.
  apply (connection_config_read_between_markers (Scenario.intake Scenario.extraction_reply)
           Scenario.agent ("Here are the details." +:+ PyStr.nl)
           (PyStr.nl +:+ "{...}" +:+ PyStr.nl) PyStr.nl);
    vm_compute; reflexivity.
Defined.

(** The fenced sample artifact after a line of prose. *)
Lemma fenced_block_is_extracted_witness :
  PyStr.contains "`" (PyStr.nl +:+ Sample.artifact +:+ PyStr.nl) = false
  /\ WorkerAgent._extract_code
       (("Here is the code:" +:+ PyStr.nl) +:+ CodeFence.fence_python
        +:+ (PyStr.nl +:+ Sample.artifact +:+ PyStr.nl) +:+ CodeFence.fence
        +:+ " Done.")
     = Sample.artifact.
Proof.
  assert (H : PyStr.contains "`" (PyStr.nl +:+ Sample.artifact +:+ PyStr.nl) = false)
    by (vm_compute; reflexivity).
  split; [exact H|].
  exact (proj1 (proj1 (fenced_block_is_extracted ("Here is the code:" +:+ PyStr.nl)
                         (PyStr.nl +:+ Sample.artifact +:+ PyStr.nl) " Done." H
                         ltac:(discriminate))
                  ltac:(vm_compute; reflexivity))).
Defined.

Lemma planner_reply_is_never_blank_witness :
  exists p' evs,
    PlannerAgent.send_instruction Sample.planner_env Sample.planner "Plan the migration."
    = (Ok ("plan"%string, p'), evs)
    /\ PyStr.truthy (PyStr.strip "plan") = true.
Proof.
  eexists _, _.
  refine ((fun H => conj H (proj1 (planner_reply_is_never_blank Sample.planner_env
                                     Sample.planner _ "Plan the migration." "plan" _ H))) _).
  vm_compute. reflexivity.
Defined.

(** A debate of two rounds. *)
Lemma debate_conversation_shape_witness :
  exists plan d' evs,
    DebateRunner.run_debate Scenario.debate_env (Scenario.runner 2) Scenario.catalog
    = (Ok plan, d', evs)
    /\ 1 <= DebateRunner.max_rounds (Scenario.runner 2)
    /\ DebateRunner.run_rounds plan = DebateRunner.max_rounds (Scenario.runner 2).
Proof.
  eexists _, _, _.
  refine ((fun H => conj H
             (match debate_conversation_shape Scenario.debate_env (Scenario.runner 2) _
                      Scenario.catalog _ _ H with
              | conj H1 (conj H2 _) => conj H1 H2
              end)) _).
  vm_compute. reflexivity.
Defined.

Lemma debate_data_flow_witness :
  exists plan d' evs,
    DebateRunner.run_debate Scenario.debate_env (Scenario.runner 2) Scenario.catalog
    = (Ok plan, d', evs)
    /\ exists plan0 script,
         DebateRunner.conversation plan
         = script_turns "Planner Alpha" "Planner Beta" plan0 script
         /\ DebateRunner._summarize_catalog Scenario.debate_env Scenario.catalog
            = Ok (DebateRunner.catalog_summary plan)
         /\ PlannerAgent.history (DebateRunner.planner_alpha d')
            = PlannerAgent.history (DebateRunner.planner_alpha (Scenario.runner 2))
              ++ alpha_dialogue Scenario.debate_env (DebateRunner.catalog_summary plan)
                   plan0 script
         /\ PlannerAgent.history (DebateRunner.planner_beta d')
            = PlannerAgent.history (DebateRunner.planner_beta (Scenario.runner 2))
              ++ beta_dialogue Scenario.debate_env plan0 script.
Proof.
  eexists _, _, _.
  refine ((fun H => conj H (debate_data_flow Scenario.debate_env (Scenario.runner 2) _
                              Scenario.catalog _ _ H)) _).
  vm_compute. reflexivity.
Defined.

Lemma debate_without_rounds_raises_witness :
  DebateRunner.max_rounds (Scenario.runner 0) <= 0
  /\ exists e,
       (DebateRunner.run_debate Scenario.debate_env (Scenario.runner 0) Scenario.catalog).1.1
       = Raise e.
Proof.
  assert (H : DebateRunner.max_rounds (Scenario.runner 0) <= 0) by (cbn; lia).
  split; [exact H|].
  exact (debate_without_rounds_raises Scenario.debate_env (Scenario.runner 0)
           Scenario.catalog H).
Defined.

(** A reply without the configuration markers. *)
Lemma analyze_reports_missing_connection_witness :
  SchemaAnalyzerAgent.analyze (Scenario.intake "I found no connection details.")
    Scenario.agent StartReady
  = (Ok (SchemaAnalyzerAgent.AnalysisError
           "Could not extract connection details from instructions"),
     [EvRequest (SchemaAnalyzerAgent.extraction_messages
                   (Scenario.intake "I found no connection details.") Scenario.agent)]).
Proof.
  apply (analyze_reports_missing_connection (Scenario.intake "I found no connection details.")
           Scenario.agent StartReady "I found no connection details.");
    [discriminate|reflexivity|left; vm_compute; reflexivity].
Defined.

Lemma safe_run_id_is_unchanged_witness :
  Config.sanitize_run_id "ecommerce-run_1" = "ecommerce-run_1"%string.
Proof.
  apply safe_run_id_is_unchanged;
    [repeat constructor|discriminate|cbn; lia|reflexivity|vm_compute; reflexivity].
Defined.

Lemma azure_config_is_normalized_witness :
  exists cfg,
    Config.get_azure_openai_config Scenario.environ None "medium" None = Ok cfg
    /\ PyStr.endswith "/" (Config.base_url cfg) = false.
Proof.
  eexists.
  refine ((fun H => conj H (proj1 (azure_config_is_normalized Scenario.environ None
                                     "medium" None _ H))) _).
  vm_compute. reflexivity.
Defined.
